(** * QuickNavPlugin: detail culling, KD-tree index and motion state machine

    A shallow embedding of [src/plugins/QuickNavPlugin/QuickNavPlugin.js]
    and the properties its design document states about it.

    Conventions of the embedding.
    - A JavaScript Number is a rational [Q]: every finite double is one, and
      [<=], [>], [!==] on finite doubles agree with the same comparisons of
      their exact values.  NaN and the infinities are left out; the
      midpoint of a KD split is computed exactly, and the extents that pick
      the split axis are compared exactly, where the code passes them
      through a [Float32Array].
    - A plain JavaScript object used as a dictionary is a [gmap]; no key is
      the name of a member of [Object.prototype].
    - [this] is a record [QuickNavPlugin]; the locals of the constructor
      that the event handlers close over ([timer], [fastMode], [down]) are
      fields of the same record.  An assignment [this.f = v] is [upd_f v].
    - The host's timers ([setTimeout], [setInterval], [clearInterval]) are a
      table from handles to pending callbacks, kept in the [Viewer];
      timeouts and intervals share the handles, as in every host, so that
      [clearInterval] cancels a timeout too.
    - Event subscriptions, the model registry [_modelInfos] and the
      position and size of the overlay are left out: no property below
      depends on them. *)

From Stdlib Require Import QArith Lia Lqa.
From stdpp Require Import gmap strings list.

Set Default Proof Using "Type".

(** ** JavaScript values *)

(** What a caller may pass where the code tests
    [value !== undefined && value !== null]. *)
Inductive JsValue (A : Type) : Type :=
  | JsUndefined
  | JsNull
  | JsDefined (a : A).
Arguments JsUndefined {A}.
Arguments JsNull {A}.
Arguments JsDefined {A} a.

(** [(v !== undefined && v !== null) ? v : dflt] *)
Definition js_or_default {A} (v : JsValue A) (dflt : A) : A :=
  match v with
  | JsDefined a => a
  | JsUndefined | JsNull => dflt
  end.

(** [v || dflt] for a value that is truthy whenever it is present (an
    array). *)
Definition js_or_else {A} (v : JsValue A) (dflt : A) : A :=
  match v with
  | JsDefined a => a
  | JsUndefined | JsNull => dflt
  end.

(** [a !== b] on Numbers. *)
Definition js_neq (a b : Q) : bool := negb (Qeq_bool a b).

(** [a > b] on Numbers. *)
Definition js_gt (a b : Q) : bool := negb (Qle_bool a b).

(** [arr[i] = x] where [i <= arr.length]: an index inside the array
    overwrites, the index [arr.length] appends.  Every write of the plugin
    to [_cullSet] is of this kind, because [_cullSetLen] restarts at 0 and
    grows by one per write. *)
Definition js_array_set (arr : list nat) (i : nat) (x : nat) : list nat :=
  if decide (i < length arr)%nat then <[i := x]> arr else arr ++ [x].

(** ** Axis-aligned boxes and the [math] helpers *)

Module math.

(** [[xmin, ymin, zmin, xmax, ymax, zmax]] *)
Record AABB3 := mkAABB3 {
  xmin : Q; ymin : Q; zmin : Q;
  xmax : Q; ymax : Q; zmax : Q
}.

(** [aabb[i]] for [i] in 0..5. *)
Definition get (b : AABB3) (i : nat) : Q :=
  match i with
  | 0%nat => xmin b
  | 1%nat => ymin b
  | 2%nat => zmin b
  | 3%nat => xmax b
  | 4%nat => ymax b
  | _ => zmax b
  end.

(** [aabb[i] = v] for [i] in 0..5. *)
Definition set (b : AABB3) (i : nat) (v : Q) : AABB3 :=
  match i with
  | 0%nat => mkAABB3 v (ymin b) (zmin b) (xmax b) (ymax b) (zmax b)
  | 1%nat => mkAABB3 (xmin b) v (zmin b) (xmax b) (ymax b) (zmax b)
  | 2%nat => mkAABB3 (xmin b) (ymin b) v (xmax b) (ymax b) (zmax b)
  | 3%nat => mkAABB3 (xmin b) (ymin b) (zmin b) v (ymax b) (zmax b)
  | 4%nat => mkAABB3 (xmin b) (ymin b) (zmin b) (xmax b) v (zmax b)
  | _ => mkAABB3 (xmin b) (ymin b) (zmin b) (xmax b) (ymax b) v
  end.

(** Modelled from the spec: [math.containsAABB3] lives in the viewer's
    math library, which is not among the sources.  The design document
    words it as "a child's bound fully contains the object's box": on
    every axis the first box starts no later and ends no earlier. *)
Definition containsAABB3 (aabb1 aabb2 : AABB3) : bool :=
  Qle_bool (xmin aabb1) (xmin aabb2) && Qle_bool (xmax aabb2) (xmax aabb1) &&
  Qle_bool (ymin aabb1) (ymin aabb2) && Qle_bool (ymax aabb2) (ymax aabb1) &&
  Qle_bool (zmin aabb1) (zmin aabb2) && Qle_bool (zmax aabb2) (zmax aabb1).

(** Modelled from the spec: [math.expandAABB3] lives in the viewer's math
    library, which is not among the sources.  The design document words
    it as "expand the node's bound to the union with the object's box":
    each minimum is lowered and each maximum raised where the second box
    reaches further. *)
Definition expandAABB3 (aabb1 aabb2 : AABB3) : AABB3 :=
  mkAABB3
    (if js_gt (xmin aabb1) (xmin aabb2) then xmin aabb2 else xmin aabb1)
    (if js_gt (ymin aabb1) (ymin aabb2) then ymin aabb2 else ymin aabb1)
    (if js_gt (zmin aabb1) (zmin aabb2) then zmin aabb2 else zmin aabb1)
    (if js_gt (xmax aabb2) (xmax aabb1) then xmax aabb2 else xmax aabb1)
    (if js_gt (ymax aabb2) (ymax aabb1) then ymax aabb2 else ymax aabb1)
    (if js_gt (zmax aabb2) (zmax aabb1) then zmax aabb2 else zmax aabb1).

(** The points of a box. *)
Definition inside (x y z : Q) (b : AABB3) : Prop :=
  ((xmin b <= x /\ x <= xmax b) /\
   (ymin b <= y /\ y <= ymax b) /\
   (zmin b <= z /\ z <= zmax b))%Q.

(** [subset a b]: every point of [a] is a point of [b]. *)
Definition subset (a b : AABB3) : Prop :=
  forall x y z, inside x y z a -> inside x y z b.

(** [within a b]: coordinate by coordinate, [b] reaches at least as far
    as [a] (the relation [containsAABB3 b a] decides). *)
Definition within (a b : AABB3) : Prop :=
  ((xmin b <= xmin a /\ xmax a <= xmax b) /\
   (ymin b <= ymin a /\ ymax a <= ymax b) /\
   (zmin b <= zmin a /\ zmax a <= zmax b))%Q.

End math.

(** ** Scene objects and the shared cull-state store *)

(** An [Entity] of the scene, as far as the plugin reads it. *)
Record Entity := mkEntity {
  id : string;
  numTriangles : Q;
  aabb : math.AABB3
}.

(** A [MetaObject] of the meta scene, as far as the plugin reads it. *)
Record MetaObject := mkMetaObject {
  type : string
}.

(** Modelled from the spec: [ObjectCullStates] ([../lib/culling]) is not
    among the sources.  The design document gives it, per object index, two
    independent booleans [viewCulled] and [detailCulled] with write access
    to each, the object count and the per-index object data.  A flag that
    was never written reads as [false]. *)
Record ObjectCullStates := mkObjectCullStates {
  objects : list Entity;
  viewCulled : gmap nat bool;
  detailCulled : gmap nat bool
}.

Definition numObjects (s : ObjectCullStates) : nat := length (objects s).

Definition setObjectViewCulled (objectIdx : nat) (culled : bool)
    (s : ObjectCullStates) : ObjectCullStates :=
  mkObjectCullStates (objects s) (<[objectIdx := culled]> (viewCulled s))
    (detailCulled s).

Definition setObjectDetailCulled (objectIdx : nat) (culled : bool)
    (s : ObjectCullStates) : ObjectCullStates :=
  mkObjectCullStates (objects s) (viewCulled s)
    (<[objectIdx := culled]> (detailCulled s)).


Definition isDetailCulled (s : ObjectCullStates) (objectIdx : nat) : bool :=
  default false (detailCulled s !! objectIdx).

(** ** KD-tree nodes *)

(** [Frustum.INSIDE], [Frustum.INTERSECT], [Frustum.OUTSIDE]. *)
Inductive Intersection := INSIDE | INTERSECT | OUTSIDE.

(** A node object [{aabb, intersection, left, right, objects}]; a property
    that was never assigned is [None]. *)
#[local] Unset Elimination Schemes.
Inductive KDNode := mkKDNode {
  kd_aabb : math.AABB3;
  kd_intersection : Intersection;
  kd_left : option KDNode;
  kd_right : option KDNode;
  kd_objects : option (list nat)
}.
#[local] Set Elimination Schemes.

(** ** The crossfade overlay and the host's timers *)

(** The overlay [<img>]: only the style properties the fade animates. *)
Record Img := mkImg {
  visible : bool;
  opacity : Q;
  src : string
}.

(** A pending timer callback: the delayed re-enable scheduled by the tick
    handler, or the fade step of [_startFade] with the values of the locals
    [opacity] and [inc] it closes over. *)
Inductive Callback :=
  | RecoverCallback
  | FadeCallback (opacity : Q) (inc : Q).

(** ** The viewer and the plugin instance *)

(** The parts of [viewer] the plugin reads or writes: the three effect
    toggles of the scene, the scene boundary, the meta scene, and the timer
    table of the host. *)
Record Viewer := mkViewer {
  scene_pbr : bool;
  scene_sao_enabled : bool;
  scene_edgeMaterial_edges : bool;
  scene_hidePBR : bool;
  scene_aabb : math.AABB3;
  metaObjects : gmap string MetaObject;
  timers : gmap nat Callback;
  nextTimerId : nat
}.

Definition upd_scene_pbr (v : bool) (w : Viewer) : Viewer :=
  mkViewer v (scene_sao_enabled w) (scene_edgeMaterial_edges w)
    (scene_hidePBR w) (scene_aabb w) (metaObjects w) (timers w) (nextTimerId
    w).
Definition upd_scene_sao_enabled (v : bool) (w : Viewer) : Viewer :=
  mkViewer (scene_pbr w) v (scene_edgeMaterial_edges w) (scene_hidePBR w)
    (scene_aabb w) (metaObjects w) (timers w) (nextTimerId w).
Definition upd_scene_edgeMaterial_edges (v : bool) (w : Viewer) : Viewer :=
  mkViewer (scene_pbr w) (scene_sao_enabled w) v (scene_hidePBR w)
    (scene_aabb w) (metaObjects w) (timers w) (nextTimerId w).
Definition upd_scene_hidePBR (v : bool) (w : Viewer) : Viewer :=
  mkViewer (scene_pbr w) (scene_sao_enabled w) (scene_edgeMaterial_edges w) v
    (scene_aabb w) (metaObjects w) (timers w) (nextTimerId w).
Definition upd_scene_aabb (v : math.AABB3) (w : Viewer) : Viewer :=
  mkViewer (scene_pbr w) (scene_sao_enabled w) (scene_edgeMaterial_edges w)
    (scene_hidePBR w) v (metaObjects w) (timers w) (nextTimerId w).
Definition upd_metaObjects (v : gmap string MetaObject) (w : Viewer) : Viewer :=
  mkViewer (scene_pbr w) (scene_sao_enabled w) (scene_edgeMaterial_edges w)
    (scene_hidePBR w) (scene_aabb w) v (timers w) (nextTimerId w).
Definition upd_timers (v : gmap nat Callback) (w : Viewer) : Viewer :=
  mkViewer (scene_pbr w) (scene_sao_enabled w) (scene_edgeMaterial_edges w)
    (scene_hidePBR w) (scene_aabb w) (metaObjects w) v (nextTimerId w).
Definition upd_nextTimerId (v : nat) (w : Viewer) : Viewer :=
  mkViewer (scene_pbr w) (scene_sao_enabled w) (scene_edgeMaterial_edges w)
    (scene_hidePBR w) (scene_aabb w) (metaObjects w) (timers w) v.

(** [this], with the constructor locals [timer], [fastMode] and [down]. *)
Record QuickNavPlugin := mkPlugin {
  viewer : Viewer;
  _hidePBR : bool;
  _hideSAO : bool;
  _hideEdges : bool;
  _maxTreeDepth : nat;
  _kdRoot : option KDNode;
  _objectCullStates : ObjectCullStates;
  _hideSmallerThan : Q;
  _hideMoreTrianglesThan : Q;
  _hideTypes : list string;
  _dontHideTypes : list string;
  _hideTypesMap : gmap string bool;
  _dontHideTypesMap : gmap string bool;
  _cullSet : list nat;
  _cullSetLen : nat;
  _cullSetDirty : bool;
  _frustumDirty : bool;
  _kdTreeDirty : bool;
  _pInterval : option nat;
  _pInterval2 : option nat;
  _fadeMillisecs : Q;
  _img : option Img;
  _culling : bool;
  timer : Q;
  fastMode : bool;
  down : bool
}.

Definition upd_viewer (v : Viewer) (p : QuickNavPlugin) : QuickNavPlugin :=
  mkPlugin v (_hidePBR p) (_hideSAO p) (_hideEdges p) (_maxTreeDepth p)
    (_kdRoot p) (_objectCullStates p) (_hideSmallerThan p)
    (_hideMoreTrianglesThan p) (_hideTypes p) (_dontHideTypes p)
    (_hideTypesMap p) (_dontHideTypesMap p) (_cullSet p) (_cullSetLen p)
    (_cullSetDirty p) (_frustumDirty p) (_kdTreeDirty p) (_pInterval p)
    (_pInterval2 p) (_fadeMillisecs p) (_img p) (_culling p) (timer p)
    (fastMode p) (down p).
Definition upd_hidePBR (v : bool) (p : QuickNavPlugin) : QuickNavPlugin :=
  mkPlugin (viewer p) v (_hideSAO p) (_hideEdges p) (_maxTreeDepth p)
    (_kdRoot p) (_objectCullStates p) (_hideSmallerThan p)
    (_hideMoreTrianglesThan p) (_hideTypes p) (_dontHideTypes p)
    (_hideTypesMap p) (_dontHideTypesMap p) (_cullSet p) (_cullSetLen p)
    (_cullSetDirty p) (_frustumDirty p) (_kdTreeDirty p) (_pInterval p)
    (_pInterval2 p) (_fadeMillisecs p) (_img p) (_culling p) (timer p)
    (fastMode p) (down p).
Definition upd_hideSAO (v : bool) (p : QuickNavPlugin) : QuickNavPlugin :=
  mkPlugin (viewer p) (_hidePBR p) v (_hideEdges p) (_maxTreeDepth p)
    (_kdRoot p) (_objectCullStates p) (_hideSmallerThan p)
    (_hideMoreTrianglesThan p) (_hideTypes p) (_dontHideTypes p)
    (_hideTypesMap p) (_dontHideTypesMap p) (_cullSet p) (_cullSetLen p)
    (_cullSetDirty p) (_frustumDirty p) (_kdTreeDirty p) (_pInterval p)
    (_pInterval2 p) (_fadeMillisecs p) (_img p) (_culling p) (timer p)
    (fastMode p) (down p).
Definition upd_hideEdges (v : bool) (p : QuickNavPlugin) : QuickNavPlugin :=
  mkPlugin (viewer p) (_hidePBR p) (_hideSAO p) v (_maxTreeDepth p) (_kdRoot
    p) (_objectCullStates p) (_hideSmallerThan p) (_hideMoreTrianglesThan p)
    (_hideTypes p) (_dontHideTypes p) (_hideTypesMap p) (_dontHideTypesMap p)
    (_cullSet p) (_cullSetLen p) (_cullSetDirty p) (_frustumDirty p)
    (_kdTreeDirty p) (_pInterval p) (_pInterval2 p) (_fadeMillisecs p) (_img
    p) (_culling p) (timer p) (fastMode p) (down p).
Definition upd_maxTreeDepth (v : nat) (p : QuickNavPlugin) : QuickNavPlugin :=
  mkPlugin (viewer p) (_hidePBR p) (_hideSAO p) (_hideEdges p) v (_kdRoot p)
    (_objectCullStates p) (_hideSmallerThan p) (_hideMoreTrianglesThan p)
    (_hideTypes p) (_dontHideTypes p) (_hideTypesMap p) (_dontHideTypesMap p)
    (_cullSet p) (_cullSetLen p) (_cullSetDirty p) (_frustumDirty p)
    (_kdTreeDirty p) (_pInterval p) (_pInterval2 p) (_fadeMillisecs p) (_img
    p) (_culling p) (timer p) (fastMode p) (down p).
Definition upd_kdRoot (v : option KDNode) (p : QuickNavPlugin) : QuickNavPlugin :=
  mkPlugin (viewer p) (_hidePBR p) (_hideSAO p) (_hideEdges p) (_maxTreeDepth
    p) v (_objectCullStates p) (_hideSmallerThan p) (_hideMoreTrianglesThan
    p) (_hideTypes p) (_dontHideTypes p) (_hideTypesMap p) (_dontHideTypesMap
    p) (_cullSet p) (_cullSetLen p) (_cullSetDirty p) (_frustumDirty p)
    (_kdTreeDirty p) (_pInterval p) (_pInterval2 p) (_fadeMillisecs p) (_img
    p) (_culling p) (timer p) (fastMode p) (down p).
Definition upd_objectCullStates (v : ObjectCullStates) (p : QuickNavPlugin) : QuickNavPlugin :=
  mkPlugin (viewer p) (_hidePBR p) (_hideSAO p) (_hideEdges p) (_maxTreeDepth
    p) (_kdRoot p) v (_hideSmallerThan p) (_hideMoreTrianglesThan p)
    (_hideTypes p) (_dontHideTypes p) (_hideTypesMap p) (_dontHideTypesMap p)
    (_cullSet p) (_cullSetLen p) (_cullSetDirty p) (_frustumDirty p)
    (_kdTreeDirty p) (_pInterval p) (_pInterval2 p) (_fadeMillisecs p) (_img
    p) (_culling p) (timer p) (fastMode p) (down p).
Definition upd_hideSmallerThan (v : Q) (p : QuickNavPlugin) : QuickNavPlugin :=
  mkPlugin (viewer p) (_hidePBR p) (_hideSAO p) (_hideEdges p) (_maxTreeDepth
    p) (_kdRoot p) (_objectCullStates p) v (_hideMoreTrianglesThan p)
    (_hideTypes p) (_dontHideTypes p) (_hideTypesMap p) (_dontHideTypesMap p)
    (_cullSet p) (_cullSetLen p) (_cullSetDirty p) (_frustumDirty p)
    (_kdTreeDirty p) (_pInterval p) (_pInterval2 p) (_fadeMillisecs p) (_img
    p) (_culling p) (timer p) (fastMode p) (down p).
Definition upd_hideMoreTrianglesThan (v : Q) (p : QuickNavPlugin) : QuickNavPlugin :=
  mkPlugin (viewer p) (_hidePBR p) (_hideSAO p) (_hideEdges p) (_maxTreeDepth
    p) (_kdRoot p) (_objectCullStates p) (_hideSmallerThan p) v (_hideTypes
    p) (_dontHideTypes p) (_hideTypesMap p) (_dontHideTypesMap p) (_cullSet
    p) (_cullSetLen p) (_cullSetDirty p) (_frustumDirty p) (_kdTreeDirty p)
    (_pInterval p) (_pInterval2 p) (_fadeMillisecs p) (_img p) (_culling p)
    (timer p) (fastMode p) (down p).
Definition upd_hideTypes (v : list string) (p : QuickNavPlugin) : QuickNavPlugin :=
  mkPlugin (viewer p) (_hidePBR p) (_hideSAO p) (_hideEdges p) (_maxTreeDepth
    p) (_kdRoot p) (_objectCullStates p) (_hideSmallerThan p)
    (_hideMoreTrianglesThan p) v (_dontHideTypes p) (_hideTypesMap p)
    (_dontHideTypesMap p) (_cullSet p) (_cullSetLen p) (_cullSetDirty p)
    (_frustumDirty p) (_kdTreeDirty p) (_pInterval p) (_pInterval2 p)
    (_fadeMillisecs p) (_img p) (_culling p) (timer p) (fastMode p) (down p).
Definition upd_dontHideTypes (v : list string) (p : QuickNavPlugin) : QuickNavPlugin :=
  mkPlugin (viewer p) (_hidePBR p) (_hideSAO p) (_hideEdges p) (_maxTreeDepth
    p) (_kdRoot p) (_objectCullStates p) (_hideSmallerThan p)
    (_hideMoreTrianglesThan p) (_hideTypes p) v (_hideTypesMap p)
    (_dontHideTypesMap p) (_cullSet p) (_cullSetLen p) (_cullSetDirty p)
    (_frustumDirty p) (_kdTreeDirty p) (_pInterval p) (_pInterval2 p)
    (_fadeMillisecs p) (_img p) (_culling p) (timer p) (fastMode p) (down p).
Definition upd_hideTypesMap (v : gmap string bool) (p : QuickNavPlugin) : QuickNavPlugin :=
  mkPlugin (viewer p) (_hidePBR p) (_hideSAO p) (_hideEdges p) (_maxTreeDepth
    p) (_kdRoot p) (_objectCullStates p) (_hideSmallerThan p)
    (_hideMoreTrianglesThan p) (_hideTypes p) (_dontHideTypes p) v
    (_dontHideTypesMap p) (_cullSet p) (_cullSetLen p) (_cullSetDirty p)
    (_frustumDirty p) (_kdTreeDirty p) (_pInterval p) (_pInterval2 p)
    (_fadeMillisecs p) (_img p) (_culling p) (timer p) (fastMode p) (down p).
Definition upd_dontHideTypesMap (v : gmap string bool) (p : QuickNavPlugin) : QuickNavPlugin :=
  mkPlugin (viewer p) (_hidePBR p) (_hideSAO p) (_hideEdges p) (_maxTreeDepth
    p) (_kdRoot p) (_objectCullStates p) (_hideSmallerThan p)
    (_hideMoreTrianglesThan p) (_hideTypes p) (_dontHideTypes p)
    (_hideTypesMap p) v (_cullSet p) (_cullSetLen p) (_cullSetDirty p)
    (_frustumDirty p) (_kdTreeDirty p) (_pInterval p) (_pInterval2 p)
    (_fadeMillisecs p) (_img p) (_culling p) (timer p) (fastMode p) (down p).
Definition upd_cullSet (v : list nat) (p : QuickNavPlugin) : QuickNavPlugin :=
  mkPlugin (viewer p) (_hidePBR p) (_hideSAO p) (_hideEdges p) (_maxTreeDepth
    p) (_kdRoot p) (_objectCullStates p) (_hideSmallerThan p)
    (_hideMoreTrianglesThan p) (_hideTypes p) (_dontHideTypes p)
    (_hideTypesMap p) (_dontHideTypesMap p) v (_cullSetLen p) (_cullSetDirty
    p) (_frustumDirty p) (_kdTreeDirty p) (_pInterval p) (_pInterval2 p)
    (_fadeMillisecs p) (_img p) (_culling p) (timer p) (fastMode p) (down p).
Definition upd_cullSetLen (v : nat) (p : QuickNavPlugin) : QuickNavPlugin :=
  mkPlugin (viewer p) (_hidePBR p) (_hideSAO p) (_hideEdges p) (_maxTreeDepth
    p) (_kdRoot p) (_objectCullStates p) (_hideSmallerThan p)
    (_hideMoreTrianglesThan p) (_hideTypes p) (_dontHideTypes p)
    (_hideTypesMap p) (_dontHideTypesMap p) (_cullSet p) v (_cullSetDirty p)
    (_frustumDirty p) (_kdTreeDirty p) (_pInterval p) (_pInterval2 p)
    (_fadeMillisecs p) (_img p) (_culling p) (timer p) (fastMode p) (down p).
Definition upd_cullSetDirty (v : bool) (p : QuickNavPlugin) : QuickNavPlugin :=
  mkPlugin (viewer p) (_hidePBR p) (_hideSAO p) (_hideEdges p) (_maxTreeDepth
    p) (_kdRoot p) (_objectCullStates p) (_hideSmallerThan p)
    (_hideMoreTrianglesThan p) (_hideTypes p) (_dontHideTypes p)
    (_hideTypesMap p) (_dontHideTypesMap p) (_cullSet p) (_cullSetLen p) v
    (_frustumDirty p) (_kdTreeDirty p) (_pInterval p) (_pInterval2 p)
    (_fadeMillisecs p) (_img p) (_culling p) (timer p) (fastMode p) (down p).
Definition upd_frustumDirty (v : bool) (p : QuickNavPlugin) : QuickNavPlugin :=
  mkPlugin (viewer p) (_hidePBR p) (_hideSAO p) (_hideEdges p) (_maxTreeDepth
    p) (_kdRoot p) (_objectCullStates p) (_hideSmallerThan p)
    (_hideMoreTrianglesThan p) (_hideTypes p) (_dontHideTypes p)
    (_hideTypesMap p) (_dontHideTypesMap p) (_cullSet p) (_cullSetLen p)
    (_cullSetDirty p) v (_kdTreeDirty p) (_pInterval p) (_pInterval2 p)
    (_fadeMillisecs p) (_img p) (_culling p) (timer p) (fastMode p) (down p).
Definition upd_kdTreeDirty (v : bool) (p : QuickNavPlugin) : QuickNavPlugin :=
  mkPlugin (viewer p) (_hidePBR p) (_hideSAO p) (_hideEdges p) (_maxTreeDepth
    p) (_kdRoot p) (_objectCullStates p) (_hideSmallerThan p)
    (_hideMoreTrianglesThan p) (_hideTypes p) (_dontHideTypes p)
    (_hideTypesMap p) (_dontHideTypesMap p) (_cullSet p) (_cullSetLen p)
    (_cullSetDirty p) (_frustumDirty p) v (_pInterval p) (_pInterval2 p)
    (_fadeMillisecs p) (_img p) (_culling p) (timer p) (fastMode p) (down p).
Definition upd_pInterval (v : option nat) (p : QuickNavPlugin) : QuickNavPlugin :=
  mkPlugin (viewer p) (_hidePBR p) (_hideSAO p) (_hideEdges p) (_maxTreeDepth
    p) (_kdRoot p) (_objectCullStates p) (_hideSmallerThan p)
    (_hideMoreTrianglesThan p) (_hideTypes p) (_dontHideTypes p)
    (_hideTypesMap p) (_dontHideTypesMap p) (_cullSet p) (_cullSetLen p)
    (_cullSetDirty p) (_frustumDirty p) (_kdTreeDirty p) v (_pInterval2 p)
    (_fadeMillisecs p) (_img p) (_culling p) (timer p) (fastMode p) (down p).
Definition upd_pInterval2 (v : option nat) (p : QuickNavPlugin) : QuickNavPlugin :=
  mkPlugin (viewer p) (_hidePBR p) (_hideSAO p) (_hideEdges p) (_maxTreeDepth
    p) (_kdRoot p) (_objectCullStates p) (_hideSmallerThan p)
    (_hideMoreTrianglesThan p) (_hideTypes p) (_dontHideTypes p)
    (_hideTypesMap p) (_dontHideTypesMap p) (_cullSet p) (_cullSetLen p)
    (_cullSetDirty p) (_frustumDirty p) (_kdTreeDirty p) (_pInterval p) v
    (_fadeMillisecs p) (_img p) (_culling p) (timer p) (fastMode p) (down p).
Definition upd_fadeMillisecs (v : Q) (p : QuickNavPlugin) : QuickNavPlugin :=
  mkPlugin (viewer p) (_hidePBR p) (_hideSAO p) (_hideEdges p) (_maxTreeDepth
    p) (_kdRoot p) (_objectCullStates p) (_hideSmallerThan p)
    (_hideMoreTrianglesThan p) (_hideTypes p) (_dontHideTypes p)
    (_hideTypesMap p) (_dontHideTypesMap p) (_cullSet p) (_cullSetLen p)
    (_cullSetDirty p) (_frustumDirty p) (_kdTreeDirty p) (_pInterval p)
    (_pInterval2 p) v (_img p) (_culling p) (timer p) (fastMode p) (down p).
Definition upd_img (v : option Img) (p : QuickNavPlugin) : QuickNavPlugin :=
  mkPlugin (viewer p) (_hidePBR p) (_hideSAO p) (_hideEdges p) (_maxTreeDepth
    p) (_kdRoot p) (_objectCullStates p) (_hideSmallerThan p)
    (_hideMoreTrianglesThan p) (_hideTypes p) (_dontHideTypes p)
    (_hideTypesMap p) (_dontHideTypesMap p) (_cullSet p) (_cullSetLen p)
    (_cullSetDirty p) (_frustumDirty p) (_kdTreeDirty p) (_pInterval p)
    (_pInterval2 p) (_fadeMillisecs p) v (_culling p) (timer p) (fastMode p)
    (down p).
Definition upd_culling (v : bool) (p : QuickNavPlugin) : QuickNavPlugin :=
  mkPlugin (viewer p) (_hidePBR p) (_hideSAO p) (_hideEdges p) (_maxTreeDepth
    p) (_kdRoot p) (_objectCullStates p) (_hideSmallerThan p)
    (_hideMoreTrianglesThan p) (_hideTypes p) (_dontHideTypes p)
    (_hideTypesMap p) (_dontHideTypesMap p) (_cullSet p) (_cullSetLen p)
    (_cullSetDirty p) (_frustumDirty p) (_kdTreeDirty p) (_pInterval p)
    (_pInterval2 p) (_fadeMillisecs p) (_img p) v (timer p) (fastMode p)
    (down p).
Definition upd_timer (v : Q) (p : QuickNavPlugin) : QuickNavPlugin :=
  mkPlugin (viewer p) (_hidePBR p) (_hideSAO p) (_hideEdges p) (_maxTreeDepth
    p) (_kdRoot p) (_objectCullStates p) (_hideSmallerThan p)
    (_hideMoreTrianglesThan p) (_hideTypes p) (_dontHideTypes p)
    (_hideTypesMap p) (_dontHideTypesMap p) (_cullSet p) (_cullSetLen p)
    (_cullSetDirty p) (_frustumDirty p) (_kdTreeDirty p) (_pInterval p)
    (_pInterval2 p) (_fadeMillisecs p) (_img p) (_culling p) v (fastMode p)
    (down p).
Definition upd_fastMode (v : bool) (p : QuickNavPlugin) : QuickNavPlugin :=
  mkPlugin (viewer p) (_hidePBR p) (_hideSAO p) (_hideEdges p) (_maxTreeDepth
    p) (_kdRoot p) (_objectCullStates p) (_hideSmallerThan p)
    (_hideMoreTrianglesThan p) (_hideTypes p) (_dontHideTypes p)
    (_hideTypesMap p) (_dontHideTypesMap p) (_cullSet p) (_cullSetLen p)
    (_cullSetDirty p) (_frustumDirty p) (_kdTreeDirty p) (_pInterval p)
    (_pInterval2 p) (_fadeMillisecs p) (_img p) (_culling p) (timer p) v
    (down p).
Definition upd_down (v : bool) (p : QuickNavPlugin) : QuickNavPlugin :=
  mkPlugin (viewer p) (_hidePBR p) (_hideSAO p) (_hideEdges p) (_maxTreeDepth
    p) (_kdRoot p) (_objectCullStates p) (_hideSmallerThan p)
    (_hideMoreTrianglesThan p) (_hideTypes p) (_dontHideTypes p)
    (_hideTypesMap p) (_dontHideTypesMap p) (_cullSet p) (_cullSetLen p)
    (_cullSetDirty p) (_frustumDirty p) (_kdTreeDirty p) (_pInterval p)
    (_pInterval2 p) (_fadeMillisecs p) (_img p) (_culling p) (timer p)
    (fastMode p) v.

(** A dictionary entry read in a condition: [if (map[key])]. *)
Definition js_truthy_entry (m : gmap string bool) (key : string) : bool :=
  default false (m !! key).

(** A configuration flag read in a condition: [undefined] and [null] are
    falsy. *)
Definition js_truthy (v : JsValue bool) : bool := js_or_default v false.

(** ** Configuration setters *)

(** [set hidePBR(hidePBR)] *)
Definition set_hidePBR (hidePBR : JsValue bool) (p : QuickNavPlugin)
    : QuickNavPlugin :=
  upd_hidePBR (js_truthy hidePBR) p.

(** [set hideSAO(hideSAO)] *)
Definition set_hideSAO (hideSAO : JsValue bool) (p : QuickNavPlugin)
    : QuickNavPlugin :=
  upd_hideSAO (js_truthy hideSAO) p.

(** [set hideEdges(hideEdges)] *)
Definition set_hideEdges (hideEdges : JsValue bool) (p : QuickNavPlugin)
    : QuickNavPlugin :=
  upd_hideEdges (js_truthy hideEdges) p.

(** [set hideSmallerThan(value)] *)
Definition set_hideSmallerThan (value : JsValue Q) (p : QuickNavPlugin)
    : QuickNavPlugin :=
  let p := upd_hideSmallerThan (js_or_default value 0%Q) p in
  upd_cullSetDirty true p.

(** [set hideMoreTrianglesThan(value)] *)
Definition set_hideMoreTrianglesThan (value : JsValue Q) (p : QuickNavPlugin)
    : QuickNavPlugin :=
  let p := upd_hideMoreTrianglesThan (js_or_default value 0%Q) p in
  upd_cullSetDirty true p.

(** [types.map(type => { map[type] = true; })] starting from [{}]. *)
Definition typesMap (types : list string) : gmap string bool :=
  foldl (fun m ty => <[ty := true]> m) ∅ types.

(** [set hideTypes(hideTypes)] *)
Definition set_hideTypes (hideTypes : JsValue (list string))
    (p : QuickNavPlugin) : QuickNavPlugin :=
  let p := upd_hideTypes (js_or_else hideTypes []) p in
  let p := upd_hideTypesMap (typesMap (_hideTypes p)) p in
  upd_cullSetDirty true p.

(** [set dontHideTypes(dontHideTypes)] *)
Definition set_dontHideTypes (dontHideTypes : JsValue (list string))
    (p : QuickNavPlugin) : QuickNavPlugin :=
  let p := upd_dontHideTypes (js_or_else dontHideTypes []) p in
  let p := upd_dontHideTypesMap (typesMap (_dontHideTypes p)) p in
  upd_cullSetDirty true p.

(** A call of one of the four detail-cull setters. *)
Inductive SetterCall :=
  | SetHideSmallerThan (value : JsValue Q)
  | SetHideMoreTrianglesThan (value : JsValue Q)
  | SetHideTypes (hideTypes : JsValue (list string))
  | SetDontHideTypes (dontHideTypes : JsValue (list string)).

Definition callSetter (c : SetterCall) (p : QuickNavPlugin) : QuickNavPlugin :=
  match c with
  | SetHideSmallerThan v => set_hideSmallerThan v p
  | SetHideMoreTrianglesThan v => set_hideMoreTrianglesThan v p
  | SetHideTypes v => set_hideTypes v p
  | SetDontHideTypes v => set_dontHideTypes v p
  end.

(** ** Detail culling *)

(** [this._cullSet[this._cullSetLen++] = objectIdx] *)
Definition pushCullSet (objectIdx : nat) (p : QuickNavPlugin) : QuickNavPlugin :=
  let p := upd_cullSet (js_array_set (_cullSet p) (_cullSetLen p) objectIdx) p in
  upd_cullSetLen (S (_cullSetLen p)) p.

(** The entries [_cullSet[0 .. _cullSetLen)]: the cull set the plugin
    counts as built. *)
Definition builtCullSet (p : QuickNavPlugin) : list nat :=
  take (_cullSetLen p) (_cullSet p).

(** A [for] loop over the object indices [objectIdx, objectIdx + 1, ...]
    of the store, running [body] on each. *)
Fixpoint forEachObject (body : nat -> Entity -> QuickNavPlugin -> QuickNavPlugin)
    (objectIdx : nat) (entities : list Entity) (p : QuickNavPlugin)
    : QuickNavPlugin :=
  match entities with
  | [] => p
  | entity :: rest =>
      forEachObject body (S objectIdx) rest (body objectIdx entity p)
  end.

Section Methods.

(** [math.getAABB3Diag] lives in the viewer's math library, which is not
    among the sources; it is the length of the diagonal of a box. *)
Variable getAABB3Diag : math.AABB3 -> Q.

(** The body of the second loop of [_buildCullObjects], for one object. *)
Definition cullObject (objectIdx : nat) (entity : Entity) (p : QuickNavPlugin)
    : QuickNavPlugin :=
  let hideMoreTrianglesThanEnabled := js_neq (_hideMoreTrianglesThan p) 0%Q in
  let hideSmallerThanEnabled := js_neq (_hideSmallerThan p) 0%Q in
  let byThresholds :=
    if hideMoreTrianglesThanEnabled then
      let entityNumTriangles := numTriangles entity in
      if hideSmallerThanEnabled then
        let entitySize := getAABB3Diag (aabb entity) in
        let needCull :=
          Qle_bool (_hideMoreTrianglesThan p) entityNumTriangles
          && Qle_bool entitySize (_hideSmallerThan p) in
        if needCull then pushCullSet objectIdx p else p
      else
        let needCull := Qle_bool (_hideMoreTrianglesThan p) entityNumTriangles in
        if needCull then pushCullSet objectIdx p else p
    else
      if hideSmallerThanEnabled then
        let entitySize := getAABB3Diag (aabb entity) in
        let needCull := Qle_bool entitySize (_hideSmallerThan p) in
        if needCull then pushCullSet objectIdx p else p
      else p in
  match metaObjects (viewer p) !! id entity with
  | Some metaObject =>
      if js_truthy_entry (_dontHideTypesMap p) (type metaObject) then p
      else if js_truthy_entry (_hideTypesMap p) (type metaObject) then
        pushCullSet objectIdx p
      else byThresholds
  | None => byThresholds
  end.

(** [_buildCullObjects()] *)
Definition _buildCullObjects (p : QuickNavPlugin) : QuickNavPlugin :=
  let p :=
    upd_objectCullStates
      (foldl (fun s objectIdx => setObjectViewCulled objectIdx false s)
         (_objectCullStates p) (builtCullSet p)) p in
  let p := upd_cullSetLen 0 p in
  let p := forEachObject cullObject 0 (objects (_objectCullStates p)) p in
  upd_cullSetDirty false p.

(** [_setObjectsCulled(culled)] *)
Definition _setObjectsCulled (culled : bool) (p : QuickNavPlugin)
    : QuickNavPlugin :=
  let p := if _cullSetDirty p then _buildCullObjects p else p in
  let p :=
    upd_objectCullStates
      (foldl (fun s objectIdx => setObjectDetailCulled objectIdx culled s)
         (_objectCullStates p) (_cullSet p)) p in
  upd_culling culled p.

(** ** The crossfade *)

(** How a call ends: it returns, or an exception leaves it; either way the
    assignments made so far stay. *)
Inductive Outcome :=
  | Returned (p : QuickNavPlugin)
  | Thrown (p : QuickNavPlugin).

Definition stateOf (o : Outcome) : QuickNavPlugin :=
  match o with
  | Returned p | Thrown p => p
  end.

(** [setTimeout(cb, ms)] and [setInterval(cb, ms)]: the host hands out a
    fresh handle (always truthy) and keeps the callback pending. *)
Definition setTimer (cb : Callback) (w : Viewer) : nat * Viewer :=
  let handle := nextTimerId w in
  (handle, upd_nextTimerId (S handle) (upd_timers (<[handle := cb]> (timers w)) w)).

(** [clearInterval(handle)]: a handle that is not pending is ignored. *)
Definition clearInterval (handle : nat) (w : Viewer) : Viewer :=
  upd_timers (delete handle (timers w)) w.

(** [_initFade()]: creates the overlay, hidden. *)
Definition _initFade (p : QuickNavPlugin) : QuickNavPlugin :=
  upd_img (Some (mkImg false 1 "")) p.

(** [if (this._pInterval) { clearInterval(this._pInterval);
    this._pInterval = null; }] *)
Definition clearPInterval (p : QuickNavPlugin) : QuickNavPlugin :=
  match _pInterval p with
  | Some handle =>
      upd_pInterval None (upd_viewer (clearInterval handle (viewer p)) p)
  | None => p
  end.

(** [if (this._pInterval2) { clearInterval(this._pInterval2);
    this._pInterval2 = null; }] *)
Definition clearPInterval2 (p : QuickNavPlugin) : QuickNavPlugin :=
  match _pInterval2 p with
  | Some handle =>
      upd_pInterval2 None (upd_viewer (clearInterval handle (viewer p)) p)
  | None => p
  end.

(** [_startFade()].  [snapshot] is what [viewer.getSnapshot(...)] does in
    this call: [Some data] when it returns the image, [None] when it
    throws. *)
Definition _startFade (snapshot : option string) (p : QuickNavPlugin)
    : Outcome :=
  let p := match _img p with None => _initFade p | Some _ => p end in
  let interval := 50%Q in
  let inc := (1 / (_fadeMillisecs p / interval))%Q in
  let p := clearPInterval p in
  let img := default (mkImg false 1 "") (_img p) in
  let p := upd_img (Some (mkImg (visible img) (opacity img) "")) p in
  match snapshot with
  | None => Thrown p
  | Some data =>
      let p := upd_img (Some (mkImg true 1 data)) p in
      let opacity := 1%Q in
      let '(handle, w) := setTimer (FadeCallback opacity inc) (viewer p) in
      Returned (upd_pInterval (Some handle) (upd_viewer w p))
  end.

(** One run of the interval callback of [_startFade], pending under
    [handle] with locals [opacity] and [inc].  The callback first lowers
    its [opacity], which stays lowered for the next run. *)
Definition fadeStep (handle : nat) (opacity inc : Q) (p : QuickNavPlugin)
    : Outcome :=
  let opacity := (opacity - inc)%Q in
  let p :=
    upd_viewer
      (upd_timers (<[handle := FadeCallback opacity inc]> (timers (viewer p)))
         (viewer p)) p in
  match _img p with
  | None => Thrown p
  | Some img =>
      if js_gt opacity 0 then
        Returned (upd_img (Some (mkImg (visible img) opacity (src img))) p)
      else
        let p := upd_img (Some (mkImg false 0 (src img))) p in
        let p :=
          match _pInterval p with
          | Some h => upd_viewer (clearInterval h (viewer p)) p
          | None => p
          end in
        Returned (upd_pInterval None p)
  end.

(** [_cancelFade()] *)
Definition _cancelFade (p : QuickNavPlugin) : QuickNavPlugin :=
  match _img p with
  | None => p
  | Some _ =>
      let p := clearPInterval p in
      let p := clearPInterval2 p in
      match _img p with
      | None => p
      | Some img => upd_img (Some (mkImg false 0 (src img))) p
      end
  end.

(** ** The motion state machine *)

(** [let timeoutDuration = 600] *)
Definition timeoutDuration : Q := 600.

(** [if (this._hidePBR) { viewer.scene.pbr = value; }
    if (this._hideSAO) { viewer.scene.sao.enabled = value; }
    if (this._hideEdges) { viewer.scene.edgeMaterial.edges = value; }]:
    the three assignments [startHiding] makes with [false] and the delayed
    callback of the tick handler with [true]. *)
Definition setHiddenEffects (value : bool) (p : QuickNavPlugin)
    : QuickNavPlugin :=
  let p :=
    if _hidePBR p then upd_viewer (upd_scene_pbr value (viewer p)) p else p in
  let p :=
    if _hideSAO p then upd_viewer (upd_scene_sao_enabled value (viewer p)) p
    else p in
  if _hideEdges p then
    upd_viewer (upd_scene_edgeMaterial_edges value (viewer p)) p
  else p.

(** The closure [startHiding], subscribed to the canvas "boundary" event
    and to the camera "viewMatrix" and "projMatrix" events. *)
Definition startHiding (p : QuickNavPlugin) : QuickNavPlugin :=
  let p := upd_timer timeoutDuration p in
  let p :=
    if negb (fastMode p) then
      let p := _cancelFade p in
      let p := setHiddenEffects false p in
      let p := _setObjectsCulled true p in
      upd_fastMode true p
    else p in
  upd_frustumDirty true p.

(** The callback handed to [setTimeout] by the tick handler. *)
Definition recoverCallback (p : QuickNavPlugin) : QuickNavPlugin :=
  let p := setHiddenEffects true p in
  _setObjectsCulled false p.

(** The scene "tick" handler. *)
Definition onSceneTick (deltaTime : Q) (snapshot : option string)
    (p : QuickNavPlugin) : Outcome :=
  if negb (fastMode p) then Returned p
  else
    let p := upd_timer (timer p - deltaTime)%Q p in
    if Qle_bool (timer p) 0 then
      if fastMode p then
        match _startFade snapshot p with
        | Thrown p => Thrown p
        | Returned p =>
            let '(handle, w) := setTimer RecoverCallback (viewer p) in
            let p := upd_pInterval2 (Some handle) (upd_viewer w p) in
            Returned (upd_fastMode false p)
        end
      else Returned p
    else Returned p.

(** The input "mousedown", "mouseup" and "mousemove" handlers. *)
Definition onSceneMouseDown (p : QuickNavPlugin) : QuickNavPlugin :=
  upd_down true p.

Definition onSceneMouseUp (p : QuickNavPlugin) : QuickNavPlugin :=
  upd_down false p.

Definition onSceneMouseMove (p : QuickNavPlugin) : QuickNavPlugin :=
  if negb (down p) then p else startHiding p.

(** [send(name, value)] *)
Definition send (name : string) (p : QuickNavPlugin) : QuickNavPlugin :=
  if String.eqb name "clear" then _cancelFade p else p.

(** What the host can make the plugin do between construction and
    teardown. *)
Inductive Event :=
  | CanvasBoundary
  | CameraViewMatrix
  | CameraProjMatrix
  | SceneTick (deltaTime : Q) (snapshot : option string)
  | MouseDown
  | MouseUp
  | MouseMove
  | TimerFires (handle : nat)
  | Configure (c : SetterCall)
  | Send (name : string).

(** The host runs a timer callback only while it is pending; a timeout is
    pending once, an interval until cleared. *)
Definition fireTimer (handle : nat) (p : QuickNavPlugin) : option Outcome :=
  match timers (viewer p) !! handle with
  | None => None
  | Some RecoverCallback =>
      Some (Returned
              (recoverCallback
                 (upd_viewer (clearInterval handle (viewer p)) p)))
  | Some (FadeCallback opacity inc) => Some (fadeStep handle opacity inc p)
  end.

Definition dispatch (e : Event) (p : QuickNavPlugin) : option Outcome :=
  match e with
  | CanvasBoundary | CameraViewMatrix | CameraProjMatrix =>
      Some (Returned (startHiding p))
  | SceneTick deltaTime snapshot => Some (onSceneTick deltaTime snapshot p)
  | MouseDown => Some (Returned (onSceneMouseDown p))
  | MouseUp => Some (Returned (onSceneMouseUp p))
  | MouseMove => Some (Returned (onSceneMouseMove p))
  | TimerFires handle => fireTimer handle p
  | Configure c => Some (Returned (callSetter c p))
  | Send name => Some (Returned (send name p))
  end.

(** A sequence of events, each starting where the previous one left the
    plugin; [None] when some event of the sequence cannot happen. *)
Fixpoint run (es : list Event) (p : QuickNavPlugin) : option QuickNavPlugin :=
  match es with
  | [] => Some p
  | e :: es =>
      match dispatch e p with
      | Some o => run es (stateOf o)
      | None => None
      end
  end.

(** The events that take the machine from Quality to Fast: a change of the
    canvas boundary or of a camera matrix, and a mouse move while a button
    is down. *)
Definition isTrigger (e : Event) (p : QuickNavPlugin) : bool :=
  match e with
  | CanvasBoundary | CameraViewMatrix | CameraProjMatrix => true
  | MouseMove => down p
  | _ => false
  end.

(** [recoveryPending handle p q]: [q] is reached from [p] by events none of
    which is a trigger, the firing of the timer [handle], or the "clear"
    command (which cancels the fade and with it the timer). *)
Inductive recoveryPending (handle : nat) (p : QuickNavPlugin)
    : QuickNavPlugin -> Prop :=
  | pending_now : recoveryPending handle p p
  | pending_step (q : QuickNavPlugin) (e : Event) (o : Outcome) :
      recoveryPending handle p q ->
      isTrigger e q = false ->
      e <> TimerFires handle ->
      e <> Send "clear" ->
      dispatch e q = Some o ->
      recoveryPending handle p (stateOf o).

(** [destroy()], as far as it touches the modelled state: the fade, the
    cull flags, the cull set and the overlay. *)
Definition destroy (p : QuickNavPlugin) : QuickNavPlugin :=
  let p := _cancelFade p in
  let p :=
    upd_objectCullStates
      (foldl (fun s objectIdx => setObjectDetailCulled objectIdx false s)
         (_objectCullStates p) (builtCullSet p)) p in
  let p := upd_cullSet [] p in
  let p := upd_cullSetLen 0 p in
  upd_img None p.

End Methods.

(** ** The KD-tree *)

(** [const MAX_KD_TREE_DEPTH = 8] *)
Definition MAX_KD_TREE_DEPTH : nat := 8.

(** A fresh node [{aabb: aabb, intersection: Frustum.INTERSECT}]. *)
Definition newKDNode (aabb : math.AABB3) : KDNode :=
  mkKDNode aabb INTERSECT None None None.

Definition with_left (child : KDNode) (kdNode : KDNode) : KDNode :=
  mkKDNode (kd_aabb kdNode) (kd_intersection kdNode) (Some child)
    (kd_right kdNode) (kd_objects kdNode).

Definition with_right (child : KDNode) (kdNode : KDNode) : KDNode :=
  mkKDNode (kd_aabb kdNode) (kd_intersection kdNode) (kd_left kdNode)
    (Some child) (kd_objects kdNode).

(** [kdNode.objects = kdNode.objects || []; kdNode.objects.push(objectIdx);
    math.expandAABB3(kdNode.aabb, entityAABB);] *)
Definition storeInNode (kdNode : KDNode) (entityAABB : math.AABB3)
    (objectIdx : nat) : KDNode :=
  mkKDNode (math.expandAABB3 (kd_aabb kdNode) entityAABB)
    (kd_intersection kdNode) (kd_left kdNode) (kd_right kdNode)
    (Some (default [] (kd_objects kdNode) ++ [objectIdx])).

(** The axis [dim] along which the node is longest: the three extents go
    through [kdTreeDimLength], and a later axis wins only when strictly
    longer. *)
Definition longestDim (nodeAABB : math.AABB3) : nat :=
  let kdTreeDimLength (i : nat) : Q :=
    (math.get nodeAABB (i + 3) - math.get nodeAABB i)%Q in
  let dim := 0%nat in
  let dim := if js_gt (kdTreeDimLength 1%nat) (kdTreeDimLength dim)
             then 1%nat else dim in
  let dim := if js_gt (kdTreeDimLength 2%nat) (kdTreeDimLength dim)
             then 2%nat else dim in
  dim.

(** [(nodeAABB[dim] + nodeAABB[dim + 3]) / 2.0] *)
Definition splitPlane (nodeAABB : math.AABB3) (dim : nat) : Q :=
  ((math.get nodeAABB dim + math.get nodeAABB (dim + 3)) / 2)%Q.

(** The child that exists and whose box contains the entity's. *)
Definition containingChild (child : option KDNode) (entityAABB : math.AABB3)
    : option KDNode :=
  match child with
  | Some c =>
      if math.containsAABB3 (kd_aabb c) entityAABB then Some c else None
  | None => None
  end.

(** [_insertEntityIntoKDTree(kdNode, entity, objectIdx, depth)].

    The JavaScript recursion follows [depth] upwards, which is no
    structural recursion; [fuel] bounds the number of nested calls, and
    [None] means the bound was hit.  The result is the node after the call
    together with the [depth] argument of every call made, this one
    first. *)
Fixpoint _insertEntityIntoKDTree (fuel : nat) (maxTreeDepth : nat)
    (kdNode : KDNode) (entity : Entity) (objectIdx : nat) (depth : nat)
    : option (KDNode * list nat) :=
  match fuel with
  | O => None
  | S fuel =>
      let entityAABB := aabb entity in
      let recurse (child : KDNode) (attach : KDNode -> KDNode) :=
        match _insertEntityIntoKDTree fuel maxTreeDepth child entity objectIdx
                (depth + 1) with
        | Some (child', calls) => Some (attach child', depth :: calls)
        | None => None
        end in
      if decide (maxTreeDepth <= depth)%nat then
        Some (storeInNode kdNode entityAABB objectIdx, [depth])
      else
        match containingChild (kd_left kdNode) entityAABB with
        | Some l => recurse l (fun l' => with_left l' kdNode)
        | None =>
        match containingChild (kd_right kdNode) entityAABB with
        | Some r => recurse r (fun r' => with_right r' kdNode)
        | None =>
            let nodeAABB := kd_aabb kdNode in
            let dim := longestDim nodeAABB in
            let tryRight (kdNode : KDNode) :=
              match kd_right kdNode with
              | None =>
                  let aabbRight :=
                    math.set nodeAABB dim (splitPlane nodeAABB dim) in
                  let kdNode := with_right (newKDNode aabbRight) kdNode in
                  if math.containsAABB3 aabbRight entityAABB then
                    recurse (newKDNode aabbRight)
                      (fun r' => with_right r' kdNode)
                  else
                    Some (storeInNode kdNode entityAABB objectIdx, [depth])
              | Some _ =>
                  Some (storeInNode kdNode entityAABB objectIdx, [depth])
              end in
            match kd_left kdNode with
            | None =>
                let aabbLeft :=
                  math.set nodeAABB (dim + 3) (splitPlane nodeAABB dim) in
                let kdNode := with_left (newKDNode aabbLeft) kdNode in
                if math.containsAABB3 aabbLeft entityAABB then
                  recurse (newKDNode aabbLeft) (fun l' => with_left l' kdNode)
                else tryRight kdNode
            | Some _ => tryRight kdNode
            end
        end
        end
  end.

(** The nested calls an insertion starting at [depth] may need: one per
    level up to [maxTreeDepth], and the starting call itself. *)
Definition insertFuel (maxTreeDepth depth : nat) : nat :=
  S (maxTreeDepth - depth).

(** The loop of [_buildKDTree]: inserts the objects
    [objectIdx, objectIdx + 1, ...] into [kdRoot] at [depth + 1], and
    collects the depths of all calls. *)
Fixpoint insertObjects (maxTreeDepth : nat) (depth : nat) (objectIdx : nat)
    (entities : list Entity) (kdRoot : KDNode) (calls : list nat)
    : option (KDNode * list nat) :=
  match entities with
  | [] => Some (kdRoot, calls)
  | entity :: rest =>
      match _insertEntityIntoKDTree (insertFuel maxTreeDepth (depth + 1))
              maxTreeDepth kdRoot entity objectIdx (depth + 1) with
      | Some (kdRoot, calls') =>
          insertObjects maxTreeDepth depth (S objectIdx) rest kdRoot
            (calls ++ calls')
      | None => None
      end
  end.

(** [_buildKDTree()], with the depths of all insertion calls it made. *)
Definition _buildKDTree (p : QuickNavPlugin)
    : option (QuickNavPlugin * list nat) :=
  let depth := 0%nat in
  let kdRoot := newKDNode (scene_aabb (viewer p)) in
  match insertObjects (_maxTreeDepth p) depth 0
          (objects (_objectCullStates p)) kdRoot [] with
  | Some (kdRoot, calls) =>
      Some (upd_kdTreeDirty false (upd_kdRoot (Some kdRoot) p), calls)
  | None => None
  end.

(** ** Construction *)

(** The configuration object [cfg]; a property left out is [JsUndefined]. *)
Record Cfg := mkCfg {
  cfg_hidePBR : JsValue bool;
  cfg_hideSAO : JsValue bool;
  cfg_hideEdges : JsValue bool;
  cfg_hideSmallerThan : JsValue Q;
  cfg_hideMoreTrianglesThan : JsValue Q;
  cfg_hideTypes : JsValue (list string);
  cfg_dontHideTypes : JsValue (list string)
}.

(** [constructor(viewer, cfg = {})]; [objectCullStates] is what
    [getObjectCullStates(viewer.scene)] returns. *)
Definition constructor (viewer : Viewer) (objectCullStates : ObjectCullStates)
    (cfg : Cfg) : QuickNavPlugin :=
  let p :=
    mkPlugin viewer
      (js_or_default (cfg_hidePBR cfg) (scene_hidePBR viewer))
      (js_or_default (cfg_hideSAO cfg) (scene_sao_enabled viewer))
      (js_or_default (cfg_hideEdges cfg) (scene_edgeMaterial_edges viewer))
      MAX_KD_TREE_DEPTH
      None
      objectCullStates
      409 14 [] [] ∅ ∅
      [] 0 true false false
      None None 500 None false
      timeoutDuration false false in
  let p := set_hidePBR (cfg_hidePBR cfg) p in
  let p := set_hideSAO (cfg_hideSAO cfg) p in
  let p := set_hideEdges (cfg_hideEdges cfg) p in
  let p := set_hideSmallerThan (cfg_hideSmallerThan cfg) p in
  let p := set_hideMoreTrianglesThan (cfg_hideMoreTrianglesThan cfg) p in
  let p := set_hideTypes (cfg_hideTypes cfg) p in
  set_dontHideTypes (cfg_dontHideTypes cfg) p.

(** ** The cull predicate as the design document words it *)

(** The fixed precedence of the design document, "evaluate in this fixed
    precedence": never-hide type, always-hide type, both thresholds, the
    triangle threshold alone, the size threshold alone, neither.  A
    threshold is enabled when it is not 0; [objectType] is [None] for an
    object without type metadata. *)
Definition spec_detailCull (neverHide alwaysHide : string -> bool)
    (triangleThreshold sizeThreshold : Q) (objectType : option string)
    (triangleCount diagonalSize : Q) : bool :=
  let triangleEnabled := negb (Qeq_bool triangleThreshold 0) in
  let sizeEnabled := negb (Qeq_bool sizeThreshold 0) in
  if match objectType with Some t => neverHide t | None => false end then
    false
  else if match objectType with Some t => alwaysHide t | None => false end then
    true
  else if triangleEnabled && sizeEnabled then
    Qle_bool triangleThreshold triangleCount
    && Qle_bool diagonalSize sizeThreshold
  else if triangleEnabled then Qle_bool triangleThreshold triangleCount
  else if sizeEnabled then Qle_bool diagonalSize sizeThreshold
  else false.

(** Direct evaluation of a predicate over the objects
    [objectIdx, objectIdx + 1, ...]: the indices that satisfy it, in
    order. *)
Fixpoint bruteForceFrom (pred : Entity -> bool) (objectIdx : nat)
    (entities : list Entity) : list nat :=
  match entities with
  | [] => []
  | entity :: rest =>
      (if pred entity then [objectIdx] else [])
      ++ bruteForceFrom pred (S objectIdx) rest
  end.

(** The type tag of an entity: that of its meta object, if it has one. *)
Definition typeOf (p : QuickNavPlugin) (entity : Entity) : option string :=
  type <$> (metaObjects (viewer p) !! id entity).

(** The predicate of the design document under the configuration of [p]. *)
Definition shouldCull (getAABB3Diag : math.AABB3 -> Q) (p : QuickNavPlugin)
    (entity : Entity) : bool :=
  spec_detailCull
    (js_truthy_entry (_dontHideTypesMap p)) (js_truthy_entry (_hideTypesMap p))
    (_hideMoreTrianglesThan p) (_hideSmallerThan p)
    (typeOf p entity) (numTriangles entity) (getAABB3Diag (aabb entity)).

(** The store after the first loop of a rebuild. *)
Definition storeAfterClearing (p : QuickNavPlugin) : ObjectCullStates :=
  foldl (fun s objectIdx => setObjectViewCulled objectIdx false s)
    (_objectCullStates p) (builtCullSet p).

(** A timer that is cancelled stays cancelled from [w] to [w']: handles
    are handed out in increasing order, and a handle below the next one
    that is not pending in [w] is not pending in [w']. *)
Definition keepsCancelled (w w' : Viewer) : Prop :=
  (nextTimerId w <= nextTimerId w')%nat
  /\ forall handle,
       (handle < nextTimerId w)%nat ->
       timers w !! handle = None ->
       timers w' !! handle = None.

(** What holds of the plugin while the delayed re-enable [handle] waits:
    the handle is the one in [_pInterval2], its callback is pending, the
    overlay exists and the machine has left Fast. *)
Definition awaitsRecovery (handle : nat) (p : QuickNavPlugin) : Prop :=
  _pInterval2 p = Some handle
  /\ timers (viewer p) !! handle = Some RecoverCallback
  /\ is_Some (_img p)
  /\ fastMode p = false
  /\ _pInterval p <> Some handle
  /\ (handle < nextTimerId (viewer p))%nat.

(** Whether an object's type tag is in a type set; an object without a
    type is in none. *)
Definition inTypeSet (typeSet : gmap string bool) (objectType : option string)
    : bool :=
  match objectType with
  | Some t => js_truthy_entry typeSet t
  | None => false
  end.

(** ** What a KD-tree holds *)

(** The object indices registered in the subtree of a node: its own
    overflow list and those of all descendants. *)
Fixpoint subtreeObjects (kdNode : KDNode) : list nat :=
  match kdNode with
  | mkKDNode _ _ l r objs =>
      default [] objs
      ++ match l with Some l => subtreeObjects l | None => [] end
      ++ match r with Some r => subtreeObjects r | None => [] end
  end.

(** A node of the tree is named by the way down to it from the root. *)
Inductive Side := GoLeft | GoRight.

Fixpoint nodeAt (path : list Side) (kdNode : KDNode) : option KDNode :=
  match path with
  | [] => Some kdNode
  | GoLeft :: rest =>
      match kd_left kdNode with
      | Some l => nodeAt rest l
      | None => None
      end
  | GoRight :: rest =>
      match kd_right kdNode with
      | Some r => nodeAt rest r
      | None => None
      end
  end.


(** A child slot after a call that may have filled it: unchanged, or it was
    empty and now holds a fresh leaf whose box lies in the parent's. *)
Definition freshOrSame (parentBox : math.AABB3) (before after : option KDNode)
    : Prop :=
  after = before
  \/ (before = None
      /\ exists box, after = Some (newKDNode box) /\ math.subset box parentBox).

(** [addsLeaves kdNode kdNode']: the second node is the first with zero or
    more missing children created. *)
Definition addsLeaves (kdNode kdNode' : KDNode) : Prop :=
  kd_aabb kdNode' = kd_aabb kdNode
  /\ kd_objects kdNode' = kd_objects kdNode
  /\ freshOrSame (kd_aabb kdNode) (kd_left kdNode) (kd_left kdNode')
  /\ freshOrSame (kd_aabb kdNode) (kd_right kdNode) (kd_right kdNode').


(** ** What the cull set, the effects and the timers depend on *)

(** The configuration and scene data a rebuild reads. *)
Definition cullInputs (p : QuickNavPlugin) :=
  (_hideSmallerThan p, _hideMoreTrianglesThan p, _hideTypesMap p,
   _dontHideTypesMap p, metaObjects (viewer p), objects (_objectCullStates p)).

(** The cull set as the plugin keeps it: the array, its built length and
    the dirty flag. *)
Definition cullCache (p : QuickNavPlugin) :=
  (_cullSet p, _cullSetLen p, _cullSetDirty p).

(** The three effect toggles of the scene. *)
Definition sceneEffects (p : QuickNavPlugin) :=
  (scene_pbr (viewer p), scene_sao_enabled (viewer p),
   scene_edgeMaterial_edges (viewer p)).

(** The three "hide while moving" flags. *)
Definition hideFlags (p : QuickNavPlugin) :=
  (_hidePBR p, _hideSAO p, _hideEdges p).

(** The cull set is not stale: the built length fits the array, and a cull
    set that is not flagged dirty is the one the current configuration
    selects. *)
Definition cullSetFresh (getAABB3Diag : math.AABB3 -> Q) (p : QuickNavPlugin)
    : Prop :=
  (_cullSetLen p <= length (_cullSet p))%nat
  /\ (_cullSetDirty p = false ->
      builtCullSet p
      = bruteForceFrom (shouldCull getAABB3Diag p) 0
          (objects (_objectCullStates p))).

(** Everything on the culling side of the plugin: the store, the cull set,
    what a rebuild reads, and the hide flags. *)
Definition cullSide (p : QuickNavPlugin) :=
  (_objectCullStates p, cullCache p, cullInputs p, hideFlags p).

(** The effect toggles after the three guarded assignments of
    [setHiddenEffects]. *)
Definition effectsSet (value : bool) (p : QuickNavPlugin) :=
  (if _hidePBR p then value else scene_pbr (viewer p),
   if _hideSAO p then value else scene_sao_enabled (viewer p),
   if _hideEdges p then value else scene_edgeMaterial_edges (viewer p)).

(** The events that come from the user or the application, as opposed to
    the frame tick and the timers. *)
Definition isInput (e : Event) : bool :=
  match e with
  | SceneTick _ _ | TimerFires _ => false
  | _ => true
  end.

(** What the timers of the plugin depend on. *)
Definition timerSide (p : QuickNavPlugin) :=
  (timers (viewer p), nextTimerId (viewer p), _pInterval p, _pInterval2 p,
   fastMode p, _img p).

(** The plugin keeps track of its timers: a pending fade step is the one
    under [_pInterval], a pending delayed re-enable is the one under
    [_pInterval2] and the machine has left Fast, and timers are pending
    only once the overlay exists. *)
Definition timersTracked (p : QuickNavPlugin) : Prop :=
  (forall handle opacity inc,
      timers (viewer p) !! handle = Some (FadeCallback opacity inc) ->
      _pInterval p = Some handle)
  /\ (forall handle,
         timers (viewer p) !! handle = Some RecoverCallback ->
         _pInterval2 p = Some handle /\ fastMode p = false)
  /\ (forall handle cb,
         timers (viewer p) !! handle = Some cb ->
         (handle < nextTimerId (viewer p))%nat /\ is_Some (_img p)).

(** The overlay is accounted for: while the machine is in Fast no timer of
    the plugin is pending and the overlay, if it exists, is hidden; and a
    visible overlay has its fade step pending under [_pInterval]. *)
Definition overlayQuiet (p : QuickNavPlugin) : Prop :=
  (fastMode p = true ->
   timers (viewer p) = ∅
   /\ forall img, _img p = Some img -> visible img = false)
  /\ (forall img,
         _img p = Some img ->
         visible img = true ->
         exists handle opacity inc,
           _pInterval p = Some handle
           /\ timers (viewer p) !! handle = Some (FadeCallback opacity inc)).

(** The number of levels below a node. *)
Fixpoint height (kdNode : KDNode) : nat :=
  match kdNode with
  | mkKDNode _ _ l r _ =>
      Nat.max (match l with Some l => S (height l) | None => 0%nat end)
        (match r with Some r => S (height r) | None => 0%nat end)
  end.



(** ** A small scene to run the plugin on *)

(** A box with no extent in y and z: its diagonal is its extent in x. *)
Definition exBox : math.AABB3 := math.mkAABB3 0 0 0 1 0 0.

(** The diagonal of a box that is flat in y and z. *)
Definition exDiag (b : math.AABB3) : Q := (math.xmax b - math.xmin b)%Q.

(** A viewer with all three effects on, an empty meta scene and no timer
    pending. *)
Definition exViewer : Viewer :=
  mkViewer true true true false (math.mkAABB3 0 0 0 10 10 10) ∅ ∅ 1.

(** Two objects: "a" with 100 triangles at index 0, "b" with 200 at
    index 1. *)
Definition exStore : ObjectCullStates :=
  mkObjectCullStates [mkEntity "a" 100 exBox; mkEntity "b" 200 exBox] ∅ ∅.

(** The same scene with the triangle counts swapped. *)
Definition exStoreSwapped : ObjectCullStates :=
  mkObjectCullStates [mkEntity "a" 200 exBox; mkEntity "b" 100 exBox] ∅ ∅.

(** [{hidePBR: true, hideSAO: true, hideEdges: true,
      hideMoreTrianglesThan: 50}] *)
Definition exCfg : Cfg :=
  mkCfg (JsDefined true) (JsDefined true) (JsDefined true)
    JsUndefined (JsDefined 50%Q) JsUndefined JsUndefined.

(** [{}] *)
Definition exCfgEmpty : Cfg :=
  mkCfg JsUndefined JsUndefined JsUndefined JsUndefined JsUndefined
    JsUndefined JsUndefined.

Definition exPlugin : QuickNavPlugin := constructor exViewer exStore exCfg.

Definition exPluginSwapped : QuickNavPlugin :=
  constructor exViewer exStoreSwapped exCfg.

(** [exPlugin] after [_setObjectsCulled(true)]: objects 0 and 1 are detail
    culled. *)
Definition exCulled : QuickNavPlugin := _setObjectsCulled exDiag true exPlugin.

(** [exPlugin] after a camera move: Fast, effects off, objects 0 and 1
    detail culled, countdown 600. *)
Definition exFast : QuickNavPlugin := startHiding exDiag exPlugin.


(** [exPlugin] with the triangle threshold set to -1, and to 0. *)
Definition exNegative : QuickNavPlugin :=
  set_hideMoreTrianglesThan (JsDefined (-1)%Q) exPlugin.

Definition exDisabled : QuickNavPlugin :=
  set_hideMoreTrianglesThan (JsDefined 0%Q) exPlugin.

(** [exCulled] after [hideMoreTrianglesThan = 150], and then after
    [_setObjectsCulled(false)]. *)
Definition exReconfigured : QuickNavPlugin :=
  set_hideMoreTrianglesThan (JsDefined 150%Q) exCulled.

Definition exReleased : QuickNavPlugin :=
  _setObjectsCulled exDiag false exReconfigured.

(** [exPlugin] with the size threshold set to -1 (the triangle threshold
    stays 50). *)
Definition exNegativeSize : QuickNavPlugin :=
  set_hideSmallerThan (JsDefined (-1)%Q) exPlugin.

(** [exFast] after a tick that uses up the countdown: with the snapshot
    captured, and with the capture failing. *)
Definition exPending : QuickNavPlugin :=
  stateOf (onSceneTick 600 (Some "png") exFast).

Definition exStuck : QuickNavPlugin := stateOf (onSceneTick 600 None exFast).

(** A session on [exPlugin]: the camera moves, the triangle threshold is
    raised to 150, the countdown runs out, the delayed re-enable (timer 2)
    runs. *)
Definition exSession : list Event :=
  [CameraViewMatrix;
   Configure (SetHideMoreTrianglesThan (JsDefined 150%Q));
   SceneTick 600 (Some "png");
   TimerFires 2].

(** A session on [exPluginSwapped]: the camera moves, the countdown runs
    out, the delayed re-enable runs, the triangle threshold is raised to
    150, the camera moves again. *)
Definition exSessionSwapped : list Event :=
  [CameraViewMatrix;
   SceneTick 600 (Some "png");
   TimerFires 2;
   Configure (SetHideMoreTrianglesThan (JsDefined 150%Q));
   CameraViewMatrix].

(** The tree built for [exPlugin], its root, and the node seven left turns
    down, at depth 8. *)
Definition exBuilt : QuickNavPlugin * list nat :=
  default (exPlugin, []) (_buildKDTree exPlugin).

Definition exRoot : KDNode :=
  default (newKDNode exBox) (_kdRoot (fst exBuilt)).

Definition exPath : list Side := replicate 7 GoLeft.

Definition exLeaf : KDNode := default exRoot (nodeAt exPath exRoot).

(** [exPlugin] at the end of [exSession], and the same session on a plugin
    constructed with [{}]. *)
Definition exRecovered : QuickNavPlugin :=
  default exPlugin (run exDiag exSession exPlugin).

Definition exQuiet : QuickNavPlugin :=
  default exPlugin
    (run exDiag exSession (constructor exViewer exStore exCfgEmpty)).

(** The camera moves and the countdown runs out: the session that ends in
    [exPending]. *)
Definition exMoveAndIdle : list Event :=
  [CameraViewMatrix; SceneTick 600 (Some "png")].

(** What the user does during a move: raises the triangle threshold,
    presses a button, drags, and the scene is cleared. *)
Definition exInputs : list Event :=
  [Configure (SetHideMoreTrianglesThan (JsDefined 150%Q));
   MouseDown; MouseMove; Send "clear"].





(** * Properties *)

(** ** Detail-cull selection *)

Lemma take_js_array_set (arr : list nat) (n x : nat) :
  (n <= length arr)%nat ->
  take (S n) (js_array_set arr n x) = take n arr ++ [x]
  /\ (S n <= length (js_array_set arr n x))%nat.
Proof.
  intros Hn. unfold js_array_set. destruct (decide (n < length arr)%nat) as [Hlt|Hge].
  - split.
    + rewrite (take_S_r _ _ x) by (apply list_lookup_insert_eq; exact Hlt).
      rewrite take_insert_ge by lia. reflexivity.
    + rewrite length_insert. lia.
  - assert (n = length arr) as -> by lia. split.
    + rewrite take_ge by (rewrite length_app; simpl; lia).
      rewrite take_ge by lia. reflexivity.
    + rewrite length_app. simpl. lia.
Qed.

Section CullSelection.

Variable getAABB3Diag : math.AABB3 -> Q.

Lemma cullObject_shouldCull (objectIdx : nat) (entity : Entity)
    (p : QuickNavPlugin) :
  cullObject getAABB3Diag objectIdx entity p =
    if shouldCull getAABB3Diag p entity then pushCullSet objectIdx p else p.
Proof.
  unfold cullObject, shouldCull, spec_detailCull, typeOf, js_neq.
  destruct (metaObjects (viewer p) !! id entity) as [mo|]; simpl.
  - destruct (js_truthy_entry (_dontHideTypesMap p) (type mo)); [reflexivity|].
    destruct (js_truthy_entry (_hideTypesMap p) (type mo)); [reflexivity|].
    destruct (Qeq_bool (_hideMoreTrianglesThan p) 0),
      (Qeq_bool (_hideSmallerThan p) 0); simpl; reflexivity.
  - destruct (Qeq_bool (_hideMoreTrianglesThan p) 0),
      (Qeq_bool (_hideSmallerThan p) 0); simpl; reflexivity.
Qed.

(** The second loop of the rebuild touches [_cullSet] and [_cullSetLen]
    only, and appends to the built prefix exactly the indices the predicate
    selects. *)
Lemma forEachObject_cullObject (entities : list Entity) :
  forall (objectIdx : nat) (p : QuickNavPlugin),
    (_cullSetLen p <= length (_cullSet p))%nat ->
    exists (l : list nat) (n : nat),
      forEachObject (cullObject getAABB3Diag) objectIdx entities p
        = upd_cullSetLen n (upd_cullSet l p)
      /\ take n l = builtCullSet p
           ++ bruteForceFrom (shouldCull getAABB3Diag p) objectIdx entities
      /\ (n <= length l)%nat.
Proof.
  induction entities as [|entity rest IH]; intros objectIdx p Hlen.
  - exists (_cullSet p), (_cullSetLen p). simpl. split; [|split].
    + destruct p; reflexivity.
    + unfold builtCullSet. rewrite app_nil_r. reflexivity.
    + exact Hlen.
  - simpl. rewrite cullObject_shouldCull.
    destruct (shouldCull getAABB3Diag p entity) eqn:Hc.
    + destruct (take_js_array_set (_cullSet p) (_cullSetLen p) objectIdx Hlen)
        as [Htake Hle].
      destruct (IH (S objectIdx) (pushCullSet objectIdx p)) as (l & n & Heq & Ht & Hn).
      { exact Hle. }
      exists l, n. split; [|split].
      * rewrite Heq. reflexivity.
      * rewrite Ht. unfold builtCullSet at 1. simpl.
        rewrite Htake. rewrite <- app_assoc. reflexivity.
      * exact Hn.
    + destruct (IH (S objectIdx) p Hlen) as (l & n & Heq & Ht & Hn).
      exists l, n. split; [|split]; [exact Heq| |exact Hn].
      rewrite Ht. reflexivity.
Qed.


Lemma objects_storeAfterClearing (p : QuickNavPlugin) :
  objects (storeAfterClearing p) = objects (_objectCullStates p).
Proof.
  unfold storeAfterClearing. generalize (_objectCullStates p).
  induction (builtCullSet p) as [|i l' IHl]; intros s; simpl; [reflexivity|].
  rewrite IHl. reflexivity.
Qed.

Lemma _buildCullObjects_shape (p : QuickNavPlugin) :
  exists (l : list nat) (n : nat),
    _buildCullObjects getAABB3Diag p
      = upd_cullSetDirty false
          (upd_cullSetLen n
             (upd_cullSet l (upd_objectCullStates (storeAfterClearing p) p)))
    /\ take n l
       = bruteForceFrom (shouldCull getAABB3Diag p) 0
           (objects (_objectCullStates p))
    /\ (n <= length l)%nat.
Proof.
  unfold _buildCullObjects.
  set (p1 := upd_cullSetLen 0 (upd_objectCullStates _ p)).
  destruct (forEachObject_cullObject (objects (_objectCullStates p1)) 0 p1)
    as (l & n & Heq & Ht & Hn).
  { simpl. lia. }
  exists l, n. split; [|split]; [| |exact Hn].
  - rewrite Heq. reflexivity.
  - rewrite Ht. unfold builtCullSet. simpl.
    fold (storeAfterClearing p). rewrite objects_storeAfterClearing.
    reflexivity.
Qed.

Lemma elem_of_bruteForceFrom (pred : Entity -> bool) (entities : list Entity) :
  forall (start objectIdx : nat),
    objectIdx ∈ bruteForceFrom pred start entities <->
    exists entity, entities !! (objectIdx - start)%nat = Some entity
                   /\ (start <= objectIdx)%nat /\ pred entity = true.
Proof.
  induction entities as [|e rest IH]; intros start objectIdx; simpl.
  - rewrite elem_of_nil. split; [tauto|]. intros (x & Hx & _). discriminate.
  - rewrite elem_of_app, IH. split.
    + intros [Hin|(x & Hx & Hle & Hp)].
      * destruct (pred e) eqn:Hp; [|apply elem_of_nil in Hin; tauto].
        apply list_elem_of_singleton in Hin. subst objectIdx.
        exists e. rewrite Nat.sub_diag. simpl. auto.
      * exists x. replace (objectIdx - start)%nat with (S (objectIdx - S start)) by lia.
        simpl. split; [exact Hx|]. split; [lia|exact Hp].
    + intros (x & Hx & Hle & Hp).
      destruct (decide (objectIdx = start)) as [->|Hne].
      * rewrite Nat.sub_diag in Hx. simpl in Hx. injection Hx as ->.
        left. rewrite Hp. apply list_elem_of_singleton. reflexivity.
      * right. exists x.
        replace (objectIdx - start)%nat with (S (objectIdx - S start)) in Hx by lia.
        simpl in Hx. split; [exact Hx|]. split; [lia|exact Hp].
Qed.

(** The built cull set after a rebuild, as a list and by membership. *)
Lemma rebuild_builtCullSet (p : QuickNavPlugin) :
  builtCullSet (_buildCullObjects getAABB3Diag p)
  = bruteForceFrom (shouldCull getAABB3Diag p) 0
      (objects (_objectCullStates p)).
Proof.
  destruct (_buildCullObjects_shape p) as (l & n & Heq & Ht & Hn).
  rewrite Heq. unfold builtCullSet. simpl. exact Ht.
Qed.

Lemma rebuild_elem_of (p : QuickNavPlugin) (objectIdx : nat) (entity : Entity) :
  objects (_objectCullStates p) !! objectIdx = Some entity ->
  objectIdx ∈ builtCullSet (_buildCullObjects getAABB3Diag p)
  <-> shouldCull getAABB3Diag p entity = true.
Proof.
  intros Hlook. rewrite rebuild_builtCullSet, elem_of_bruteForceFrom.
  rewrite Nat.sub_0_r. split.
  - intros (e & He & _ & Hp). congruence.
  - intros Hp. exists entity. split; [exact Hlook|]. split; [lia|exact Hp].
Qed.


End CullSelection.

(** ** Writes to the cull-state store *)

Lemma foldl_setObjectViewCulled (culled : bool) (l : list nat) :
  forall (s : ObjectCullStates),
    let s' := foldl (fun s objectIdx => setObjectViewCulled objectIdx culled s) s l in
    objects s' = objects s
    /\ detailCulled s' = detailCulled s
    /\ forall (objectIdx : nat),
         (objectIdx ∈ l -> viewCulled s' !! objectIdx = Some culled)
         /\ (objectIdx ∉ l -> viewCulled s' !! objectIdx = viewCulled s !! objectIdx).
Proof.
  induction l as [|i l IH]; intros s; simpl.
  - repeat split; try reflexivity. intros H. apply elem_of_nil in H. tauto.
  - destruct (IH (setObjectViewCulled i culled s)) as (Ho & Hd & Hv).
    split; [rewrite Ho; reflexivity|]. split; [rewrite Hd; reflexivity|].
    intros objectIdx. destruct (Hv objectIdx) as [Hin Hout]. split.
    + intros Hmem. destruct (decide (objectIdx ∈ l)) as [Hl|Hl]; [auto|].
      apply elem_of_cons in Hmem as [->|Hmem]; [|tauto].
      rewrite Hout by exact Hl. simpl. apply lookup_insert_eq.
    + intros Hmem. rewrite not_elem_of_cons in Hmem. destruct Hmem as [Hne Hl].
      rewrite Hout by exact Hl. simpl. apply lookup_insert_ne. congruence.
Qed.

Lemma foldl_setObjectDetailCulled (culled : bool) (l : list nat) :
  forall (s : ObjectCullStates),
    let s' := foldl (fun s objectIdx => setObjectDetailCulled objectIdx culled s) s l in
    objects s' = objects s
    /\ viewCulled s' = viewCulled s
    /\ forall (objectIdx : nat),
         (objectIdx ∈ l -> detailCulled s' !! objectIdx = Some culled)
         /\ (objectIdx ∉ l -> detailCulled s' !! objectIdx = detailCulled s !! objectIdx).
Proof.
  induction l as [|i l IH]; intros s; simpl.
  - repeat split; try reflexivity. intros H. apply elem_of_nil in H. tauto.
  - destruct (IH (setObjectDetailCulled i culled s)) as (Ho & Hd & Hv).
    split; [rewrite Ho; reflexivity|]. split; [rewrite Hd; reflexivity|].
    intros objectIdx. destruct (Hv objectIdx) as [Hin Hout]. split.
    + intros Hmem. destruct (decide (objectIdx ∈ l)) as [Hl|Hl]; [auto|].
      apply elem_of_cons in Hmem as [->|Hmem]; [|tauto].
      rewrite Hout by exact Hl. simpl. apply lookup_insert_eq.
    + intros Hmem. rewrite not_elem_of_cons in Hmem. destruct Hmem as [Hne Hl].
      rewrite Hout by exact Hl. simpl. apply lookup_insert_ne. congruence.
Qed.


Section StoreWrites.

Variable getAABB3Diag : math.AABB3 -> Q.

Lemma _buildCullObjects_store (p : QuickNavPlugin) :
  _objectCullStates (_buildCullObjects getAABB3Diag p) = storeAfterClearing p.
Proof.
  destruct (_buildCullObjects_shape getAABB3Diag p) as (l & n & Heq & _).
  rewrite Heq. reflexivity.
Qed.


End StoreWrites.

(** ** Thresholds and type lists as the setters store them *)

Lemma js_truthy_entry_typesMap (types : list string) (ty : string) :
  js_truthy_entry (typesMap types) ty = true <-> ty ∈ types.
Proof.
  unfold typesMap.
  assert (H : forall (m : gmap string bool),
             js_truthy_entry (foldl (fun m ty => <[ty := true]> m) m types) ty = true
             <-> ty ∈ types \/ js_truthy_entry m ty = true).
  { induction types as [|t types IH]; intros m; simpl.
    - rewrite elem_of_nil. tauto.
    - rewrite IH, elem_of_cons. unfold js_truthy_entry at 1.
      destruct (decide (t = ty)) as [->|Hne].
      + rewrite lookup_insert_eq. simpl. tauto.
      + rewrite lookup_insert_ne by exact Hne.
        fold (js_truthy_entry m ty). split; [tauto|].
        intros [[Heq|Hin]|Hm]; [congruence|tauto|tauto]. }
  rewrite H. unfold js_truthy_entry. rewrite lookup_empty. simpl.
  split; [intros [Hin|Habs]; [exact Hin|discriminate]|tauto].
Qed.

Lemma Qle_bool_neg_nonneg (value x : Q) :
  (value < 0)%Q -> (0 <= x)%Q -> Qle_bool value x = true /\ Qle_bool x value = false.
Proof.
  intros Hneg Hx. split.
  - apply Qle_bool_iff. apply Qlt_le_weak. eapply Qlt_le_trans; eassumption.
  - destruct (Qle_bool x value) eqn:E; [|reflexivity].
    apply Qle_bool_iff in E. exfalso.
    apply (Qlt_irrefl 0). eapply Qle_lt_trans; [exact Hx|].
    eapply Qle_lt_trans; eassumption.
Qed.

Lemma Qeq_bool_neg (value : Q) : (value < 0)%Q -> Qeq_bool value 0 = false.
Proof.
  intros Hneg. destruct (Qeq_bool value 0) eqn:E; [|reflexivity].
  apply Qeq_bool_iff in E. rewrite E in Hneg. exfalso. exact (Qlt_irrefl 0 Hneg).
Qed.

Section Thresholds.

Variable getAABB3Diag : math.AABB3 -> Q.

(** C4, amended. A negative number passed to [hideSmallerThan] or
    [hideMoreTrianglesThan] is stored as given: it is neither rejected nor
    turned into 0, and being non-zero it counts as an enabled threshold in
    the next rebuild.  With the size threshold disabled, a negative
    triangle threshold then culls every object that has a non-negative
    triangle count and no never-hide type; a negative size threshold culls
    no object that has a non-negative diagonal and no always-hide type,
    whatever the triangle threshold. *)
Theorem C4_negative_threshold_stays_enabled (p : QuickNavPlugin) (value : Q)
    (objectIdx : nat) (entity : Entity) :
  (value < 0)%Q ->
  objects (_objectCullStates p) !! objectIdx = Some entity ->
  let pT := set_hideMoreTrianglesThan (JsDefined value) p in
  let pS := set_hideSmallerThan (JsDefined value) p in
  (_hideMoreTrianglesThan pT = value /\ _cullSetDirty pT = true)
  /\ (_hideSmallerThan pS = value /\ _cullSetDirty pS = true)
  /\ ((0 <= numTriangles entity)%Q ->
      Qeq_bool (_hideSmallerThan p) 0 = true ->
      inTypeSet (_dontHideTypesMap p) (typeOf p entity) = false ->
      objectIdx ∈ builtCullSet (_buildCullObjects getAABB3Diag pT))
  /\ ((0 <= getAABB3Diag (aabb entity))%Q ->
      inTypeSet (_hideTypesMap p) (typeOf p entity) = false ->
      objectIdx ∉ builtCullSet (_buildCullObjects getAABB3Diag pS)).
Proof.
  intros Hneg Hlook pT pS.
  split; [split; reflexivity|]. split; [split; reflexivity|]. split.
  - intros Htri Hsize Hnever.
    apply (rebuild_elem_of getAABB3Diag pT objectIdx entity Hlook).
    unfold shouldCull, spec_detailCull. change (typeOf pT entity) with (typeOf p entity).
    change (_dontHideTypesMap pT) with (_dontHideTypesMap p).
    change (_hideMoreTrianglesThan pT) with value.
    change (_hideSmallerThan pT) with (_hideSmallerThan p).
    unfold inTypeSet in Hnever. rewrite Hnever.
    destruct (match typeOf p entity with
              | Some t => js_truthy_entry (_hideTypesMap pT) t
              | None => false
              end); [reflexivity|].
    rewrite (Qeq_bool_neg value Hneg), Hsize. simpl.
    apply (Qle_bool_neg_nonneg value _ Hneg Htri).
  - intros Hdiag Halways Hin.
    apply (rebuild_elem_of getAABB3Diag pS objectIdx entity Hlook) in Hin.
    unfold shouldCull, spec_detailCull in Hin. change (typeOf pS entity) with (typeOf p entity) in Hin.
    change (_hideTypesMap pS) with (_hideTypesMap p) in Hin.
    change (_hideSmallerThan pS) with value in Hin.
    unfold inTypeSet in Halways. rewrite Halways in Hin.
    destruct (match typeOf p entity with
              | Some t => js_truthy_entry (_dontHideTypesMap pS) t
              | None => false
              end); [discriminate|].
    rewrite (Qeq_bool_neg value Hneg) in Hin.
    destruct (Qle_bool_neg_nonneg value _ Hneg Hdiag) as [_ Hfalse].
    rewrite Hfalse in Hin.
    destruct (negb (Qeq_bool (_hideMoreTrianglesThan pS) 0)); simpl in Hin;
      try rewrite andb_false_r in Hin; discriminate.
Qed.

(** C10. A configuration that leaves [hideSmallerThan] and
    [hideMoreTrianglesThan] out, or passes [undefined] or [null] for them,
    constructs a plugin with both thresholds 0: the setters called at the
    end of the constructor replace the initial 409 and 14.  Such a plugin
    culls an object only for its type: every index of a rebuilt cull set
    belongs to an object whose type is in the always-hide list. *)
Theorem C10_default_thresholds_disabled (viewer : Viewer)
    (objectCullStates : ObjectCullStates) (cfg : Cfg) :
  (cfg_hideSmallerThan cfg = JsUndefined \/ cfg_hideSmallerThan cfg = JsNull) ->
  (cfg_hideMoreTrianglesThan cfg = JsUndefined
   \/ cfg_hideMoreTrianglesThan cfg = JsNull) ->
  let p := constructor viewer objectCullStates cfg in
  _hideSmallerThan p = 0%Q
  /\ _hideMoreTrianglesThan p = 0%Q
  /\ forall (objectIdx : nat),
       objectIdx ∈ builtCullSet (_buildCullObjects getAABB3Diag p) ->
       exists (entity : Entity) (ty : string),
         objects objectCullStates !! objectIdx = Some entity
         /\ typeOf p entity = Some ty
         /\ ty ∈ js_or_else (cfg_hideTypes cfg) [].
Proof.
  intros Hsize Htri p.
  assert (Hs : _hideSmallerThan p = 0%Q).
  { unfold p, constructor. cbn. destruct Hsize as [-> | ->]; reflexivity. }
  assert (Ht : _hideMoreTrianglesThan p = 0%Q).
  { unfold p, constructor. cbn. destruct Htri as [-> | ->]; reflexivity. }
  split; [exact Hs|]. split; [exact Ht|].
  intros objectIdx Hin.
  rewrite rebuild_builtCullSet in Hin. apply elem_of_bruteForceFrom in Hin.
  destruct Hin as (entity & Hlook & _ & Hpred).
  rewrite Nat.sub_0_r in Hlook.
  unfold shouldCull, spec_detailCull in Hpred. rewrite Hs, Ht in Hpred.
  simpl in Hpred.
  destruct (typeOf p entity) as [ty|] eqn:Hty.
  - exists entity, ty. split; [exact Hlook|]. split; [exact Hty|].
    destruct (js_truthy_entry (typesMap (js_or_else (cfg_dontHideTypes cfg) [])) ty);
      [discriminate|].
    destruct (js_truthy_entry (typesMap (js_or_else (cfg_hideTypes cfg) [])) ty)
      eqn:Hh; [|discriminate].
    apply js_truthy_entry_typesMap in Hh. exact Hh.
  - discriminate.
Qed.

End Thresholds.

(** ** Boxes *)




Lemma within_trans (a b c : math.AABB3) :
  math.within a b -> math.within b c -> math.within a c.
Proof. unfold math.within. intros H1 H2. lra. Qed.



Lemma containsAABB3_within (b e : math.AABB3) :
  math.containsAABB3 b e = true <-> math.within e b.
Proof.
  unfold math.containsAABB3, math.within.
  rewrite !andb_true_iff, !Qle_bool_iff. tauto.
Qed.



Lemma longestDim_cases (b : math.AABB3) :
  longestDim b = 0%nat \/ longestDim b = 1%nat \/ longestDim b = 2%nat.
Proof.
  unfold longestDim.
  repeat match goal with
         | |- context [js_gt ?a ?b] => destruct (js_gt a b)
         end; auto.
Qed.

(** Both halves of a split lie in the box that is split. *)
Lemma split_halves_subset (b : math.AABB3) :
  let dim := longestDim b in
  math.subset (math.set b (dim + 3) (splitPlane b dim)) b
  /\ math.subset (math.set b dim (splitPlane b dim)) b.
Proof.
  intros dim. unfold dim.
  destruct (longestDim_cases b) as [-> | [-> | ->]];
    unfold math.subset, math.inside, splitPlane; simpl;
    unfold Qdiv; change (/ 2)%Q with (1 # 2)%Q;
    split; intros x y z Hin; lra.
Qed.

(** ** One call of the insertion *)

Lemma containingChild_Some (child : option KDNode) (entityAABB : math.AABB3)
    (c : KDNode) :
  containingChild child entityAABB = Some c ->
  child = Some c /\ math.containsAABB3 (kd_aabb c) entityAABB = true.
Proof.
  unfold containingChild. destruct child as [c'|]; [|discriminate].
  destruct (math.containsAABB3 (kd_aabb c') entityAABB) eqn:E; [|discriminate].
  intros [= <-]. auto.
Qed.

Lemma freshOrSame_refl (box : math.AABB3) (child : option KDNode) :
  freshOrSame box child child.
Proof. left. reflexivity. Qed.

Lemma freshOrSame_fresh (parentBox box : math.AABB3) :
  math.subset box parentBox ->
  freshOrSame parentBox None (Some (newKDNode box)).
Proof. intros H. right. split; [reflexivity|]. exists box. auto. Qed.

Lemma addsLeaves_refl (kdNode : KDNode) : addsLeaves kdNode kdNode.
Proof. repeat split; apply freshOrSame_refl. Qed.

Create HintDb kd.
#[local] Hint Resolve freshOrSame_refl freshOrSame_fresh addsLeaves_refl : kd.

(** A call at or beyond the maximum depth stores the object in the node it
    was given and makes no further call. *)
Lemma insert_at_max_depth (fuel maxTreeDepth : nat) (kdNode : KDNode)
    (entity : Entity) (objectIdx depth : nat) :
  (maxTreeDepth <= depth)%nat ->
  _insertEntityIntoKDTree (S fuel) maxTreeDepth kdNode entity objectIdx depth
    = Some (storeInNode kdNode (aabb entity) objectIdx, [depth]).
Proof.
  intros Hmax. simpl. destruct (decide (maxTreeDepth <= depth)%nat); [reflexivity|lia].
Qed.

(** The three ways a call ends: the object is stored in the node itself
    (after the missing children were created), or the call recursed into a
    left or a right child whose box contains the object's. *)
Lemma insert_cases (fuel maxTreeDepth : nat) (kdNode : KDNode)
    (entity : Entity) (objectIdx depth : nat) (result : KDNode * list nat) :
  _insertEntityIntoKDTree (S fuel) maxTreeDepth kdNode entity objectIdx depth
    = Some result ->
  (exists k0,
      addsLeaves kdNode k0
      /\ result = (storeInNode k0 (aabb entity) objectIdx, [depth]))
  \/ (exists k0 l l' calls,
         addsLeaves kdNode k0 /\ (depth < maxTreeDepth)%nat
         /\ kd_left k0 = Some l
         /\ math.containsAABB3 (kd_aabb l) (aabb entity) = true
         /\ _insertEntityIntoKDTree fuel maxTreeDepth l entity objectIdx
              (depth + 1) = Some (l', calls)
         /\ result = (with_left l' k0, depth :: calls))
  \/ (exists k0 r r' calls,
         addsLeaves kdNode k0 /\ (depth < maxTreeDepth)%nat
         /\ kd_right k0 = Some r
         /\ math.containsAABB3 (kd_aabb r) (aabb entity) = true
         /\ _insertEntityIntoKDTree fuel maxTreeDepth r entity objectIdx
              (depth + 1) = Some (r', calls)
         /\ result = (with_right r' k0, depth :: calls)).
Proof.
  intros H. cbn [_insertEntityIntoKDTree] in H.
  destruct (decide (maxTreeDepth <= depth)%nat) as [Hmax|Hmax].
  { left. exists kdNode. split; [apply addsLeaves_refl|]. congruence. }
  assert (Hlt : (depth < maxTreeDepth)%nat) by lia.
  destruct (split_halves_subset (kd_aabb kdNode)) as [HsubL HsubR].
  destruct (containingChild (kd_left kdNode) (aabb entity)) as [l|] eqn:El.
  { apply containingChild_Some in El as [El Hc].
    destruct (_insertEntityIntoKDTree fuel maxTreeDepth l entity objectIdx (depth + 1))
      as [[l' calls]|] eqn:Er; [|discriminate].
    right; left. exists kdNode, l, l', calls.
    repeat split; auto with kd. congruence. }
  destruct (containingChild (kd_right kdNode) (aabb entity)) as [r|] eqn:Er0.
  { apply containingChild_Some in Er0 as [Er0 Hc].
    destruct (_insertEntityIntoKDTree fuel maxTreeDepth r entity objectIdx (depth + 1))
      as [[r' calls]|] eqn:Er; [|discriminate].
    right; right. exists kdNode, r, r', calls.
    repeat split; auto with kd. congruence. }
  destruct (kd_left kdNode) as [l0|] eqn:Eleft.
  - (* the left child exists *)
    destruct (kd_right kdNode) as [r0|] eqn:Eright.
    + left. exists kdNode. split; [apply addsLeaves_refl|]. congruence.
    + cbn in H.
      set (aabbRight := math.set (kd_aabb kdNode) (longestDim (kd_aabb kdNode))
                          (splitPlane (kd_aabb kdNode) (longestDim (kd_aabb kdNode)))) in *.
      assert (Hk0 : addsLeaves kdNode (with_right (newKDNode aabbRight) kdNode)).
      { repeat split; cbn; auto with kd. rewrite Eright. auto with kd. }
      destruct (math.containsAABB3 aabbRight (aabb entity)) eqn:Hc.
      * destruct (_insertEntityIntoKDTree fuel maxTreeDepth (newKDNode aabbRight)
                    entity objectIdx (depth + 1)) as [[r' calls]|] eqn:Er; [|discriminate].
        right; right.
        exists (with_right (newKDNode aabbRight) kdNode), (newKDNode aabbRight), r', calls.
        split; [exact Hk0|]. repeat split; auto. congruence.
      * left. exists (with_right (newKDNode aabbRight) kdNode).
        split; [exact Hk0|]. congruence.
  - (* the left child is created *)
    cbn in H.
    set (aabbLeft := math.set (kd_aabb kdNode) (longestDim (kd_aabb kdNode) + 3)
                       (splitPlane (kd_aabb kdNode) (longestDim (kd_aabb kdNode)))) in *.
    assert (HkL : addsLeaves kdNode (with_left (newKDNode aabbLeft) kdNode)).
    { repeat split; cbn; auto with kd. rewrite Eleft. auto with kd. }
    destruct (math.containsAABB3 aabbLeft (aabb entity)) eqn:Hc.
    + destruct (_insertEntityIntoKDTree fuel maxTreeDepth (newKDNode aabbLeft)
                  entity objectIdx (depth + 1)) as [[l' calls]|] eqn:Er; [|discriminate].
      right; left.
      exists (with_left (newKDNode aabbLeft) kdNode), (newKDNode aabbLeft), l', calls.
      split; [exact HkL|]. repeat split; auto. congruence.
    + destruct (kd_right kdNode) as [r0|] eqn:Eright.
      * left. exists (with_left (newKDNode aabbLeft) kdNode).
        split; [exact HkL|]. congruence.
      * set (aabbRight := math.set (kd_aabb kdNode) (longestDim (kd_aabb kdNode))
                            (splitPlane (kd_aabb kdNode) (longestDim (kd_aabb kdNode)))) in *.
        assert (Hk0 : addsLeaves kdNode
                        (with_right (newKDNode aabbRight)
                           (with_left (newKDNode aabbLeft) kdNode))).
        { repeat split; cbn; auto with kd.
          - rewrite Eleft. auto with kd.
          - rewrite Eright. auto with kd. }
        destruct (math.containsAABB3 aabbRight (aabb entity)) eqn:Hc'.
        -- destruct (_insertEntityIntoKDTree fuel maxTreeDepth (newKDNode aabbRight)
                       entity objectIdx (depth + 1)) as [[r' calls]|] eqn:Er; [|discriminate].
           right; right.
           exists (with_right (newKDNode aabbRight) (with_left (newKDNode aabbLeft) kdNode)),
             (newKDNode aabbRight), r', calls.
           split; [exact Hk0|]. repeat split; auto. congruence.
        -- left. exists (with_right (newKDNode aabbRight)
                           (with_left (newKDNode aabbLeft) kdNode)).
           split; [exact Hk0|]. congruence.
Qed.



(** ** Termination and the depth bound *)

(** A call returns as soon as the calls it makes one level down return. *)
Lemma insert_progress (fuel maxTreeDepth : nat) (kdNode : KDNode)
    (entity : Entity) (objectIdx depth : nat) :
  ((depth < maxTreeDepth)%nat ->
   forall child,
     is_Some (_insertEntityIntoKDTree fuel maxTreeDepth child entity objectIdx
                (depth + 1))) ->
  is_Some (_insertEntityIntoKDTree (S fuel) maxTreeDepth kdNode entity
             objectIdx depth).
Proof.
  intros Hrec. cbn [_insertEntityIntoKDTree].
  destruct (decide (maxTreeDepth <= depth)%nat) as [Hmax|Hmax]; [eauto|].
  assert (Hlt : (depth < maxTreeDepth)%nat) by lia. specialize (Hrec Hlt).
  repeat first
    [ match goal with
      | |- is_Some (Some _) => eexists; reflexivity
      | |- context [_insertEntityIntoKDTree fuel maxTreeDepth ?c entity
                      objectIdx (depth + 1)] =>
          destruct (Hrec c) as [[? ?] ->]
      end
    | match goal with
      | |- context [containingChild ?c ?b] => destruct (containingChild c b)
      | |- context [math.containsAABB3 ?a ?b] => destruct (math.containsAABB3 a b)
      | |- context [match kd_left ?k with _ => _ end] => destruct (kd_left k)
      | |- context [match kd_right ?k with _ => _ end] => destruct (kd_right k)
      end
    | progress cbn ].
Qed.

(** Every insertion returns, given one unit of fuel per level between its
    depth and the maximum depth. *)
Lemma insert_total (maxTreeDepth : nat) (entity : Entity) (objectIdx : nat) :
  forall (fuel : nat) (kdNode : KDNode) (depth : nat),
    (insertFuel maxTreeDepth depth <= fuel)%nat ->
    is_Some (_insertEntityIntoKDTree fuel maxTreeDepth kdNode entity objectIdx
               depth).
Proof.
  unfold insertFuel.
  induction fuel as [|fuel IH]; intros kdNode depth Hfuel; [lia|].
  apply insert_progress. intros Hlt child. apply IH. lia.
Qed.

(** The calls of an insertion that starts at [depth] are made at depths
    between [depth] and the maximum depth. *)
Lemma insert_calls (maxTreeDepth : nat) (entity : Entity) (objectIdx : nat) :
  forall (fuel : nat) (kdNode : KDNode) (depth : nat) (kdNode' : KDNode)
         (calls : list nat),
    _insertEntityIntoKDTree fuel maxTreeDepth kdNode entity objectIdx depth
      = Some (kdNode', calls) ->
    Forall (fun d => (depth <= d /\ d <= Nat.max depth maxTreeDepth)%nat) calls.
Proof.
  induction fuel as [|fuel IH]; intros kdNode depth kdNode' calls H;
    [discriminate|].
  apply insert_cases in H.
  destruct H as [(k0 & _ & [= -> ->])
                |[(k0 & l & l' & calls' & _ & Hlt & _ & _ & Hrec & [= -> ->])
                 |(k0 & r & r' & calls' & _ & Hlt & _ & _ & Hrec & [= -> ->])]].
  - constructor; [lia|constructor].
  - constructor; [lia|]. apply IH in Hrec.
    eapply Forall_impl; [exact Hrec|]. simpl. intros d Hd. lia.
  - constructor; [lia|]. apply IH in Hrec.
    eapply Forall_impl; [exact Hrec|]. simpl. intros d Hd. lia.
Qed.

Lemma insertObjects_total (maxTreeDepth : nat) (entities : list Entity) :
  forall (objectIdx : nat) (kdRoot : KDNode) (calls : list nat),
    Forall (fun d => (1 <= d /\ d <= Nat.max 1 maxTreeDepth)%nat) calls ->
    exists kdRoot' calls',
      insertObjects maxTreeDepth 0 objectIdx entities kdRoot calls
        = Some (kdRoot', calls')
      /\ Forall (fun d => (1 <= d /\ d <= Nat.max 1 maxTreeDepth)%nat) calls'.
Proof.
  induction entities as [|entity rest IH]; intros objectIdx kdRoot calls Hcalls;
    cbn [insertObjects]; change (0 + 1)%nat with 1%nat.
  - eauto.
  - destruct (insert_total maxTreeDepth entity objectIdx
                (insertFuel maxTreeDepth 1) kdRoot 1) as [[k' calls1] E];
      [lia|].
    rewrite E. apply IH. apply Forall_app. split; [exact Hcalls|].
    exact (insert_calls _ _ _ _ _ _ _ _ E).
Qed.


(** ** Containment and growth of the node boxes *)












(** ** Every inserted object is registered once *)

Lemma subtreeObjects_addsLeaves (kdNode k0 : KDNode) :
  addsLeaves kdNode k0 -> subtreeObjects k0 = subtreeObjects kdNode.
Proof.
  intros (_ & Hobjs & Hl & Hr).
  destruct kdNode as [b i l r objs], k0 as [b0 i0 l0 r0 objs0]; simpl in *.
  subst objs0.
  destruct Hl as [-> | (-> & box & -> & _)], Hr as [-> | (-> & box' & -> & _)];
    reflexivity.
Qed.

Lemma subtreeObjects_unfold (kdNode : KDNode) :
  subtreeObjects kdNode
  = default [] (kd_objects kdNode)
    ++ match kd_left kdNode with Some l => subtreeObjects l | None => [] end
    ++ match kd_right kdNode with Some r => subtreeObjects r | None => [] end.
Proof. destruct kdNode; reflexivity. Qed.

(** An insertion registers the object index in exactly one more place and
    moves no other. *)
Lemma insert_registers (maxTreeDepth : nat) (entity : Entity) (objectIdx : nat) :
  forall (fuel : nat) (kdNode : KDNode) (depth : nat) (kdNode' : KDNode)
         (calls : list nat),
    _insertEntityIntoKDTree fuel maxTreeDepth kdNode entity objectIdx depth
      = Some (kdNode', calls) ->
    subtreeObjects kdNode' ≡ₚ subtreeObjects kdNode ++ [objectIdx].
Proof.
  induction fuel as [|fuel IH]; intros kdNode depth kdNode' calls H;
    [discriminate|].
  apply insert_cases in H.
  destruct H as [(k0 & Hadd & [= -> ->])
                |[(k0 & l & l' & calls' & Hadd & _ & El & _ & Hrec & [= -> ->])
                 |(k0 & r & r' & calls' & Hadd & _ & Er & _ & Hrec & [= -> ->])]];
    rewrite <- (subtreeObjects_addsLeaves kdNode k0 Hadd);
    rewrite (subtreeObjects_unfold k0).
  - rewrite subtreeObjects_unfold. simpl.
    rewrite <- !app_assoc.
    apply Permutation_app_head. rewrite !app_assoc. apply Permutation_cons_append.
  - rewrite subtreeObjects_unfold. simpl. rewrite El.
    rewrite (IH _ _ _ _ Hrec). rewrite <- !app_assoc.
    apply Permutation_app_head. apply Permutation_app_head.
    apply Permutation_app_comm.
  - rewrite subtreeObjects_unfold. simpl. rewrite Er.
    rewrite (IH _ _ _ _ Hrec). rewrite <- !app_assoc. reflexivity.
Qed.

Lemma insertObjects_registers (maxTreeDepth depth : nat)
    (entities : list Entity) :
  forall (objectIdx : nat) (kdRoot : KDNode) (calls : list nat)
         (kdRoot' : KDNode) (calls' : list nat),
    insertObjects maxTreeDepth depth objectIdx entities kdRoot calls
      = Some (kdRoot', calls') ->
    subtreeObjects kdRoot'
    ≡ₚ subtreeObjects kdRoot ++ seq objectIdx (length entities).
Proof.
  induction entities as [|entity rest IH];
    intros objectIdx kdRoot calls kdRoot' calls' H; cbn [insertObjects] in H.
  - injection H as <- <-. simpl. rewrite app_nil_r. reflexivity.
  - destruct (_insertEntityIntoKDTree _ _ kdRoot entity objectIdx (depth + 1))
      as [[k1 calls1]|] eqn:E; [|discriminate].
    rewrite (IH _ _ _ _ _ H). rewrite (insert_registers _ _ _ _ _ _ _ _ E).
    simpl. rewrite <- app_assoc. reflexivity.
Qed.

(** The tree [_buildKDTree] builds registers every object index of the
    store once. *)
Lemma _buildKDTree_registers_all (p p' : QuickNavPlugin) (calls : list nat)
    (kdRoot : KDNode) :
  _buildKDTree p = Some (p', calls) ->
  _kdRoot p' = Some kdRoot ->
  subtreeObjects kdRoot ≡ₚ seq 0 (numObjects (_objectCullStates p)).
Proof.
  unfold _buildKDTree. intros Hbuild Hroot.
  destruct (insertObjects _ _ _ _ _ _) as [[k calls0]|] eqn:E; [|discriminate].
  injection Hbuild as <- <-. simpl in Hroot. injection Hroot as ->.
  rewrite (insertObjects_registers _ _ _ _ _ _ _ _ E). reflexivity.
Qed.

(** ** Timers *)

Lemma keepsCancelled_refl (w : Viewer) : keepsCancelled w w.
Proof. split; [lia|auto]. Qed.

Lemma keepsCancelled_trans (w1 w2 w3 : Viewer) :
  keepsCancelled w1 w2 -> keepsCancelled w2 w3 -> keepsCancelled w1 w3.
Proof.
  intros [Hn1 H1] [Hn2 H2]. split; [lia|].
  intros h Hlt Hnone. apply H2; [lia|]. apply H1; assumption.
Qed.

(** Closes a [keepsCancelled] goal between a viewer and an explicit chain
    of timer operations on it. *)
Ltac solve_keepsCancelled :=
  unfold keepsCancelled, setTimer, clearInterval; cbn;
  split; [lia|];
  let h := fresh "h" in
  let Hlt := fresh "Hlt" in
  let Hnone := fresh "Hnone" in
  intros h Hlt Hnone;
  repeat first
    [ exact Hnone
    | apply lookup_delete_None; right
    | apply lookup_insert_None; split; [|first [lia|congruence]] ].

Lemma keepsCancelled_cancelFade (p : QuickNavPlugin) :
  keepsCancelled (viewer p) (viewer (_cancelFade p)).
Proof.
  unfold _cancelFade, clearPInterval, clearPInterval2.
  destruct p as [w ? ? ? ? ? ? ? ? ? ? ? ? ? ? ? ? ? i1 i2 ? img ? ? ? ?].
  destruct img as [img|], i1 as [h1|], i2 as [h2|]; cbn;
    solve_keepsCancelled.
Qed.

Lemma setHiddenEffects_shape (value : bool) (p : QuickNavPlugin) :
  exists w,
    setHiddenEffects value p = upd_viewer w p
    /\ timers w = timers (viewer p)
    /\ nextTimerId w = nextTimerId (viewer p)
    /\ (_hidePBR p = true -> scene_pbr w = value)
    /\ (_hideSAO p = true -> scene_sao_enabled w = value)
    /\ (_hideEdges p = true -> scene_edgeMaterial_edges w = value).
Proof.
  exists (viewer (setHiddenEffects value p)). unfold setHiddenEffects.
  destruct p as [w h1 h2 h3 ? ? ? ? ? ? ? ? ? ? ? ? ? ? ? ? ? ? ? ? ? ?].
  destruct h1, h2, h3; cbn; repeat split; intros; congruence.
Qed.

Section StateMachine.

Variable getAABB3Diag : math.AABB3 -> Q.

(** [_setObjectsCulled] assigns the store, the cull set with its length
    and dirty flag, and [_culling]; it leaves the cull set clean and every
    index of the array [_cullSet] with the flag it was called with. *)
Lemma _setObjectsCulled_shape (culled : bool) (p : QuickNavPlugin) :
  exists s l n d,
    _setObjectsCulled getAABB3Diag culled p
      = upd_culling culled
          (upd_objectCullStates s
             (upd_cullSetDirty d (upd_cullSetLen n (upd_cullSet l p))))
    /\ d = false
    /\ forall objectIdx,
         objectIdx ∈ l -> detailCulled s !! objectIdx = Some culled.
Proof.
  unfold _setObjectsCulled. destruct (_cullSetDirty p) eqn:E.
  - destruct (_buildCullObjects_shape getAABB3Diag p) as (l & n & Heq & _).
    rewrite Heq. cbn.
    match goal with
    | |- context [foldl ?f ?s0 l] =>
        destruct (foldl_setObjectDetailCulled culled l s0) as (_ & _ & Hv);
        exists (foldl f s0 l), l, n, false
    end.
    split; [reflexivity|]. split; [reflexivity|]. intros i Hi. apply Hv. exact Hi.
  - match goal with
    | |- context [foldl ?f ?s0 ?l0] =>
        destruct (foldl_setObjectDetailCulled culled l0 s0) as (_ & _ & Hv);
        exists (foldl f s0 l0), l0, (_cullSetLen p), (_cullSetDirty p)
    end.
    split; [reflexivity|]. split; [exact E|]. intros i Hi. apply Hv. exact Hi.
Qed.

(** Without a change of configuration in between, [_setObjectsCulled(true)]
    followed by [_setObjectsCulled(false)] restores every index the first
    call set. *)
Lemma round_trip_without_reconfiguration (p : QuickNavPlugin) (objectIdx : nat) :
  objectIdx ∈ _cullSet (_setObjectsCulled getAABB3Diag true p) ->
  isDetailCulled
    (_objectCullStates (_setObjectsCulled getAABB3Diag true p)) objectIdx = true
  /\ isDetailCulled
       (_objectCullStates
          (_setObjectsCulled getAABB3Diag false
             (_setObjectsCulled getAABB3Diag true p))) objectIdx = false.
Proof.
  destruct (_setObjectsCulled_shape true p) as (s & l & n & d & Heq & -> & Hs).
  rewrite Heq. cbn [_cullSet upd_culling upd_objectCullStates upd_cullSetDirty
                      upd_cullSetLen upd_cullSet _objectCullStates].
  intros Hin. split.
  - unfold isDetailCulled. rewrite (Hs objectIdx Hin). reflexivity.
  - unfold _setObjectsCulled at 1. cbn.
    match goal with
    | |- context [foldl ?f ?s0 l] =>
        destruct (foldl_setObjectDetailCulled false l s0) as (_ & _ & Hv)
    end.
    unfold isDetailCulled. rewrite (proj1 (Hv objectIdx) Hin). reflexivity.
Qed.

Lemma viewer_setObjectsCulled (culled : bool) (p : QuickNavPlugin) :
  viewer (_setObjectsCulled getAABB3Diag culled p) = viewer p.
Proof.
  destruct (_setObjectsCulled_shape culled p) as (s & l & n & d & Heq & _ & _).
  rewrite Heq. reflexivity.
Qed.

Lemma viewer_callSetter (c : SetterCall) (p : QuickNavPlugin) :
  viewer (callSetter c p) = viewer p.
Proof. destruct c; reflexivity. Qed.

Lemma keepsCancelled_startHiding (p : QuickNavPlugin) :
  keepsCancelled (viewer p) (viewer (startHiding getAABB3Diag p)).
Proof.
  unfold startHiding.
  cbn [negb fastMode upd_timer viewer upd_frustumDirty upd_fastMode].
  destruct (fastMode p);
    cbn [negb fastMode upd_timer viewer upd_frustumDirty upd_fastMode].
  - apply keepsCancelled_refl.
  - rewrite viewer_setObjectsCulled.
    destruct (setHiddenEffects_shape false (_cancelFade (upd_timer timeoutDuration p)))
      as (w & Heq & Ht & Hn & _).
    rewrite Heq. cbn.
    eapply keepsCancelled_trans;
      [exact (keepsCancelled_cancelFade (upd_timer timeoutDuration p))|].
    split; [lia|]. intros h _ Hnone. congruence.
Qed.

Lemma keepsCancelled_startFade (snapshot : option string) (p : QuickNavPlugin) :
  keepsCancelled (viewer p) (viewer (stateOf (_startFade snapshot p))).
Proof.
  unfold _startFade, _initFade, clearPInterval.
  destruct p as [w ? ? ? ? ? ? ? ? ? ? ? ? ? ? ? ? ? i1 i2 ? img ? ? ? ?].
  destruct snapshot as [data|], img as [img|], i1 as [h1|]; cbn;
    solve_keepsCancelled.
Qed.

Lemma keepsCancelled_onSceneTick (deltaTime : Q) (snapshot : option string)
    (p : QuickNavPlugin) :
  keepsCancelled (viewer p)
    (viewer (stateOf (onSceneTick deltaTime snapshot p))).
Proof.
  unfold onSceneTick. destruct (fastMode p) eqn:Hf; cbn;
    [|apply keepsCancelled_refl].
  destruct (Qle_bool (timer p - deltaTime) 0); cbn; [|apply keepsCancelled_refl].
  rewrite Hf.
  pose proof (keepsCancelled_startFade snapshot
                (upd_timer (timer p - deltaTime)%Q p)) as HK.
  destruct (_startFade snapshot (upd_timer (timer p - deltaTime)%Q p))
    as [q|q]; cbn in *; [|exact HK].
  eapply keepsCancelled_trans; [exact HK|]. solve_keepsCancelled.
Qed.

Lemma keepsCancelled_fireTimer (handle : nat) (p : QuickNavPlugin) (o : Outcome) :
  fireTimer getAABB3Diag handle p = Some o ->
  keepsCancelled (viewer p) (viewer (stateOf o)).
Proof.
  unfold fireTimer. destruct (timers (viewer p) !! handle) as [cb|] eqn:Hp;
    [|discriminate].
  destruct cb as [|opacity inc]; intros [= <-]; cbn [stateOf].
  - unfold recoverCallback. rewrite viewer_setObjectsCulled.
    destruct (setHiddenEffects_shape true
                (upd_viewer (clearInterval handle (viewer p)) p))
      as (w & Heq & Ht & Hn & _).
    rewrite Heq. cbn. cbn in Ht, Hn. split; [lia|].
    intros h _ Hnone. rewrite Ht. apply lookup_delete_None. auto.
  - unfold fadeStep.
    destruct p as [w ? ? ? ? ? ? ? ? ? ? ? ? ? ? ? ? ? i1 i2 ? img ? ? ? ?].
    cbn in Hp.
    destruct img as [img|]; cbn; [|solve_keepsCancelled].
    destruct (js_gt (opacity - inc) 0); cbn; [|destruct i1 as [h1|]; cbn];
      solve_keepsCancelled.
Qed.

Lemma keepsCancelled_dispatch (e : Event) (p : QuickNavPlugin) (o : Outcome) :
  dispatch getAABB3Diag e p = Some o ->
  keepsCancelled (viewer p) (viewer (stateOf o)).
Proof.
  destruct e; cbn; try (intros [= <-]; cbn).
  - apply keepsCancelled_startHiding.
  - apply keepsCancelled_startHiding.
  - apply keepsCancelled_startHiding.
  - apply keepsCancelled_onSceneTick.
  - apply keepsCancelled_refl.
  - apply keepsCancelled_refl.
  - unfold onSceneMouseMove. destruct (down p); cbn;
      [apply keepsCancelled_startHiding|apply keepsCancelled_refl].
  - apply keepsCancelled_fireTimer.
  - rewrite viewer_callSetter. apply keepsCancelled_refl.
  - unfold send. destruct (String.eqb name "clear");
      [apply keepsCancelled_cancelFade|apply keepsCancelled_refl].
Qed.

(** A timer that was cancelled is never pending again, whatever happens
    next. *)
Lemma cancelled_forever (handle : nat) (later : list Event) :
  forall (p p' : QuickNavPlugin),
    (handle < nextTimerId (viewer p))%nat ->
    timers (viewer p) !! handle = None ->
    run getAABB3Diag later p = Some p' ->
    timers (viewer p') !! handle = None.
Proof.
  induction later as [|e later IH]; intros p p' Hlt Hnone Hrun; simpl in Hrun.
  - injection Hrun as <-. exact Hnone.
  - destruct (dispatch getAABB3Diag e p) as [o|] eqn:E; [|discriminate].
    destruct (keepsCancelled_dispatch e p o E) as [Hn Hk].
    eapply IH; [| |exact Hrun]; [lia|]. apply Hk; assumption.
Qed.

(** ** The pending recovery *)

(** When the countdown expires and the snapshot is captured, the tick
    handler starts the fade under the next free handle and schedules the
    delayed re-enable under the one after. *)
Lemma tick_expiry_schedules (deltaTime : Q) (data : string) (p : QuickNavPlugin) :
  fastMode p = true ->
  (timer p - deltaTime <= 0)%Q ->
  exists p1,
    onSceneTick deltaTime (Some data) p = Returned p1
    /\ awaitsRecovery (S (nextTimerId (viewer p))) p1
    /\ _pInterval p1 = Some (nextTimerId (viewer p))
    /\ is_Some (timers (viewer p1) !! nextTimerId (viewer p)).
Proof.
  intros Hf Ht. unfold onSceneTick. rewrite Hf. cbn.
  apply Qle_bool_iff in Ht. rewrite Ht, Hf.
  unfold _startFade, _initFade, clearPInterval, awaitsRecovery.
  destruct p as [w ? ? ? ? ? ? ? ? ? ? ? ? ? ? ? ? ? i1 i2 ? img ? ? ? ?].
  destruct img as [img|], i1 as [h1|]; cbn;
    (eexists; split; [reflexivity|]; cbn;
     repeat split;
     try (rewrite lookup_insert_eq; reflexivity);
     try (eexists; reflexivity); try lia; try congruence;
     try (intros [= Habs]; lia);
     try (rewrite lookup_insert_ne by lia; rewrite lookup_insert_eq; eauto)).
Qed.

Lemma awaitsRecovery_step (handle : nat) (q : QuickNavPlugin) (e : Event)
    (o : Outcome) :
  awaitsRecovery handle q ->
  isTrigger e q = false ->
  e <> TimerFires handle ->
  e <> Send "clear" ->
  dispatch getAABB3Diag e q = Some o ->
  awaitsRecovery handle (stateOf o).
Proof.
  intros Hq Htrig Hne Hclear Hd. pose proof Hq as (H2 & Hpend & Himg & Hfast & H1 & Hlt).
  destruct e; cbn in Htrig, Hd; try discriminate.
  - (* tick: nothing happens outside Fast *)
    injection Hd as <-. unfold onSceneTick. rewrite Hfast. exact Hq.
  - injection Hd as <-. exact Hq.
  - injection Hd as <-. exact Hq.
  - injection Hd as <-. unfold onSceneMouseMove. rewrite Htrig. exact Hq.
  - (* another timer fires *)
    assert (Hh : handle0 <> handle) by congruence.
    unfold fireTimer in Hd.
    destruct (timers (viewer q) !! handle0) as [cb|] eqn:Hp; [|discriminate].
    destruct cb as [|opacity inc]; injection Hd as <-; cbn [stateOf].
    + unfold recoverCallback.
      destruct (_setObjectsCulled_shape false
                  (setHiddenEffects true
                     (upd_viewer (clearInterval handle0 (viewer q)) q)))
        as (s & l & n & d & Heq & _ & _).
      rewrite Heq.
      destruct (setHiddenEffects_shape true
                  (upd_viewer (clearInterval handle0 (viewer q)) q))
        as (w & Heq' & Ht & Hn & _).
      rewrite Heq'. cbn in Ht, Hn. unfold awaitsRecovery. cbn.
      rewrite Ht, Hn. rewrite lookup_delete_ne by exact Hh. auto 10.
    + unfold fadeStep. destruct Himg as [img Himg].
      cbn [_img upd_viewer]. rewrite Himg.
      unfold awaitsRecovery.
      destruct (js_gt (opacity - inc) 0); cbn.
      * rewrite lookup_insert_ne by exact Hh. eauto 10.
      * destruct (_pInterval q) as [h1|] eqn:E1; cbn.
        -- rewrite lookup_delete_ne by congruence.
           rewrite lookup_insert_ne by exact Hh.
           repeat split; eauto; discriminate.
        -- rewrite lookup_insert_ne by exact Hh.
           repeat split; eauto.
  - injection Hd as <-. cbn [stateOf]. destruct c; exact Hq.
  - injection Hd as <-. cbn [stateOf]. unfold send.
    destruct (String.eqb name "clear") eqn:En; [|exact Hq].
    apply String.eqb_eq in En. congruence.
Qed.

Lemma awaitsRecovery_preserved (handle : nat) (p1 q : QuickNavPlugin) :
  awaitsRecovery handle p1 ->
  recoveryPending getAABB3Diag handle p1 q ->
  awaitsRecovery handle q.
Proof.
  intros H1 Hrun.
  induction Hrun as [|q e o Hrun IH Htrig Hne Hclear Hd]; [exact H1|].
  eapply awaitsRecovery_step; eassumption.
Qed.

Lemma trigger_runs_startHiding (e : Event) (q : QuickNavPlugin) :
  isTrigger e q = true ->
  dispatch getAABB3Diag e q = Some (Returned (startHiding getAABB3Diag q)).
Proof.
  destruct e; cbn; try discriminate; try reflexivity.
  intros Hdown. unfold onSceneMouseMove. rewrite Hdown. reflexivity.
Qed.

(** [_cancelFade] while a recovery waits: both timers are cleared and the
    overlay is hidden. *)
Lemma _cancelFade_pending (handle : nat) (q : QuickNavPlugin) :
  awaitsRecovery handle q ->
  exists w img,
    _cancelFade q
      = upd_img (Some img) (upd_pInterval2 None (upd_pInterval None (upd_viewer w q)))
    /\ visible img = false
    /\ timers w !! handle = None
    /\ (forall fade, _pInterval q = Some fade -> timers w !! fade = None)
    /\ nextTimerId w = nextTimerId (viewer q).
Proof.
  intros (H2 & Hpend & [img Himg] & Hfast & H1 & Hlt).
  exists (viewer (_cancelFade q)), (mkImg false 0 (src img)).
  unfold _cancelFade, clearPInterval, clearPInterval2.
  destruct q as [w ? ? ? ? ? ? ? ? ? ? ? ? ? ? ? ? ? i1 i2 ? img0 ? ? ? ?].
  cbn in *. subst. destruct i1 as [h1|]; cbn.
  - repeat split.
    + apply lookup_delete_eq.
    + intros fade [= ->]. apply lookup_delete_None. right. apply lookup_delete_eq.
  - repeat split.
    + apply lookup_delete_eq.
    + discriminate.
Qed.

(** C9. Interruption: once the countdown has expired and the tick handler
    has scheduled the delayed re-enable, and as long as that callback has
    not run, a change of the canvas boundary, of the view matrix or of the
    projection matrix, or a mouse move with a button down, cancels the
    delayed re-enable and stops the fade (its timer is cleared and the
    overlay hidden); it turns the configured effects off and applies
    detail culling, and leaves the machine in Fast with the full countdown
    of 600.  The cancelled callback is never pending again, so none of its
    re-enable actions ever runs. *)
Theorem C9_interruption_cancels_recovery (p p1 q : QuickNavPlugin)
    (deltaTime : Q) (data : string) (handle : nat) (e : Event) :
  fastMode p = true ->
  (timer p - deltaTime <= 0)%Q ->
  onSceneTick deltaTime (Some data) p = Returned p1 ->
  _pInterval2 p1 = Some handle ->
  recoveryPending getAABB3Diag handle p1 q ->
  isTrigger e q = true ->
  timers (viewer q) !! handle = Some RecoverCallback
  /\ exists p2,
      dispatch getAABB3Diag e q = Some (Returned p2)
      /\ (timers (viewer p2) !! handle = None /\ _pInterval2 p2 = None)
      /\ (_pInterval p2 = None
          /\ (forall fade, _pInterval q = Some fade ->
                           timers (viewer p2) !! fade = None)
          /\ exists img, _img p2 = Some img /\ visible img = false)
      /\ ((_hidePBR p2 = true -> scene_pbr (viewer p2) = false)
          /\ (_hideSAO p2 = true -> scene_sao_enabled (viewer p2) = false)
          /\ (_hideEdges p2 = true ->
              scene_edgeMaterial_edges (viewer p2) = false))
      /\ (_culling p2 = true
          /\ forall objectIdx,
               objectIdx ∈ builtCullSet p2 ->
               isDetailCulled (_objectCullStates p2) objectIdx = true)
      /\ (fastMode p2 = true /\ timer p2 = timeoutDuration)
      /\ forall later p3,
           run getAABB3Diag later p2 = Some p3 ->
           timers (viewer p3) !! handle = None
           /\ dispatch getAABB3Diag (TimerFires handle) p3 = None.
Proof.
  intros Hf Ht Htick H2 Hrun Htrig.
  destruct (tick_expiry_schedules deltaTime data p Hf Ht)
    as (p1' & Htick' & Hawait & _).
  rewrite Htick in Htick'. injection Htick' as <-.
  assert (Hh : handle = S (nextTimerId (viewer p))).
  { destruct Hawait as (H2' & _). congruence. }
  subst handle.
  pose proof (awaitsRecovery_preserved _ p1 q Hawait Hrun) as Hq.
  pose proof Hq as (Hq2 & Hpend & Himg & Hfast & Hq1 & Hlt).
  split; [exact Hpend|].
  exists (startHiding getAABB3Diag q).
  split; [apply trigger_runs_startHiding; exact Htrig|].
  (* unfold the interrupted branch of [startHiding] *)
  unfold startHiding.
  cbn [negb fastMode upd_timer]. rewrite Hfast. cbn [negb].
  assert (Hq' : awaitsRecovery (S (nextTimerId (viewer p)))
                  (upd_timer timeoutDuration q)) by exact Hq.
  destruct (_cancelFade_pending _ _ Hq') as (w & img & Hcancel & Hvis & Hgone & Hfade & Hnext).
  rewrite Hcancel.
  match goal with
  | |- context [setHiddenEffects false ?y] =>
      destruct (setHiddenEffects_shape false y) as (w' & Heff & Htim & Hnxt & Hpbr & Hsao & Hedges);
      rewrite Heff
  end.
  match goal with
  | |- context [_setObjectsCulled getAABB3Diag true ?x] =>
      destruct (_setObjectsCulled_shape true x) as (s & l & n & d & Hcull & _ & Hflags);
      rewrite Hcull
  end.
  cbn in Htim, Hnxt, Hpbr, Hsao, Hedges. cbn.
  assert (Hgone' : timers w' !! S (nextTimerId (viewer p)) = None)
    by (rewrite Htim; exact Hgone).
  split; [split; [exact Hgone'|reflexivity]|].
  split.
  { split; [reflexivity|]. split.
    - intros fade Hfd. rewrite Htim. apply Hfade. exact Hfd.
    - exists img. auto. }
  split; [auto|].
  split.
  { split; [reflexivity|]. intros objectIdx Hin. unfold builtCullSet in Hin. cbn in Hin.
    unfold isDetailCulled. cbn. rewrite (Hflags objectIdx); [reflexivity|].
    exact (subseteq_take n l objectIdx Hin). }
  split; [split; reflexivity|].
  intros later p3 Hlater.
  assert (Hnone : timers (viewer p3) !! S (nextTimerId (viewer p)) = None).
  { eapply cancelled_forever; [| |exact Hlater]; cbn.
    - rewrite Hnxt, Hnext. exact Hlt.
    - exact Hgone'. }
  split; [exact Hnone|]. cbn. unfold fireTimer. rewrite Hnone. reflexivity.
Qed.

(** C5, amended. If capturing the snapshot fails when the countdown
    expires, the tick handler is left by the exception at that point: no
    delayed re-enable is scheduled, the machine stays in Fast with the
    countdown expired, and effects and cull flags stay as they were.  The
    recovery is started by the first later tick whose capture succeeds:
    that tick schedules the delayed re-enable and leaves Fast. *)
Theorem C5_capture_failure_aborts_tick (p : QuickNavPlugin) (deltaTime : Q) :
  fastMode p = true ->
  (timer p - deltaTime <= 0)%Q ->
  exists p',
    onSceneTick deltaTime None p = Thrown p'
    /\ fastMode p' = true
    /\ timer p' = (timer p - deltaTime)%Q
    /\ _pInterval2 p' = _pInterval2 p
    /\ nextTimerId (viewer p') = nextTimerId (viewer p)
    /\ (forall handle, timers (viewer p') !! handle = Some RecoverCallback ->
                       timers (viewer p) !! handle = Some RecoverCallback)
    /\ (scene_pbr (viewer p') = scene_pbr (viewer p)
        /\ scene_sao_enabled (viewer p') = scene_sao_enabled (viewer p)
        /\ scene_edgeMaterial_edges (viewer p')
           = scene_edgeMaterial_edges (viewer p))
    /\ _objectCullStates p' = _objectCullStates p
    /\ forall deltaTime' data,
         (0 <= deltaTime')%Q ->
         exists p'',
           onSceneTick deltaTime' (Some data) p' = Returned p''
           /\ fastMode p'' = false
           /\ awaitsRecovery (S (nextTimerId (viewer p))) p''.
Proof.
  intros Hf Ht.
  assert (Hstep : exists p',
             onSceneTick deltaTime None p = Thrown p'
             /\ fastMode p' = true
             /\ timer p' = (timer p - deltaTime)%Q
             /\ _pInterval2 p' = _pInterval2 p
             /\ nextTimerId (viewer p') = nextTimerId (viewer p)
             /\ (forall handle,
                    timers (viewer p') !! handle = Some RecoverCallback ->
                    timers (viewer p) !! handle = Some RecoverCallback)
             /\ (scene_pbr (viewer p') = scene_pbr (viewer p)
                 /\ scene_sao_enabled (viewer p') = scene_sao_enabled (viewer p)
                 /\ scene_edgeMaterial_edges (viewer p')
                    = scene_edgeMaterial_edges (viewer p))
             /\ _objectCullStates p' = _objectCullStates p).
  { unfold onSceneTick. rewrite Hf. cbn.
    pose proof Ht as Ht'. apply Qle_bool_iff in Ht'. rewrite Ht', Hf.
    unfold _startFade, _initFade, clearPInterval.
    destruct p as [w ? ? ? ? ? ? ? ? ? ? ? ? ? ? ? ? ? i1 i2 ? img ? ? ? ?].
    cbn in Hf. subst.
    destruct img as [img|], i1 as [h1|]; cbn;
      (eexists; split; [reflexivity|]; cbn; repeat split; auto;
       intros handle Hh; apply lookup_delete_Some in Hh; tauto). }
  destruct Hstep as (p' & Hthrown & Hf' & Htimer & H2 & Hnext & Hrec & Heff & Hstore).
  exists p'. repeat (split; [assumption|]).
  intros deltaTime' data Hdt.
  destruct (tick_expiry_schedules deltaTime' data p' Hf') as (p'' & Htick & Hawait & _).
  { rewrite Htimer. lra. }
  exists p''. split; [exact Htick|]. rewrite Hnext in Hawait.
  split; [apply Hawait|exact Hawait].
Qed.

End StateMachine.

(** * The cull set, the effects and the timers across events *)

(** ** The cull-set array across rebuilds *)

Lemma js_array_set_shape (arr : list nat) (n x : nat) :
  (n <= length arr)%nat ->
  js_array_set arr n x = take n arr ++ [x] ++ drop (S n) arr.
Proof.
  intros Hn. unfold js_array_set.
  destruct (decide (n < length arr)%nat) as [Hlt|Hge].
  - apply list_eq. intros i.
    destruct (decide (i = n)) as [->|Hne].
    + rewrite list_lookup_insert_eq by exact Hlt.
      rewrite lookup_app_r by (rewrite length_take; lia).
      rewrite length_take. replace (n - n `min` length arr)%nat with 0%nat by lia.
      reflexivity.
    + rewrite list_lookup_insert_ne by congruence.
      destruct (decide (i < n)%nat) as [Hi|Hi].
      * rewrite lookup_app_l by (rewrite length_take; lia).
        rewrite lookup_take_lt by exact Hi. reflexivity.
      * rewrite lookup_app_r by (rewrite length_take; lia).
        rewrite length_take.
        replace (i - n `min` length arr)%nat with (S (i - S n)) by lia.
        simpl. rewrite lookup_drop. f_equal. lia.
  - assert (n = length arr) as -> by lia.
    rewrite take_ge by lia. rewrite drop_ge by lia. reflexivity.
Qed.

Section CullSetArray.

Variable getAABB3Diag : math.AABB3 -> Q.

(** The second loop of a rebuild keeps the entries before the built length,
    writes the selected indices after them, and leaves the entries of the
    old array beyond those in place. *)
Lemma forEachObject_array (entities : list Entity) :
  forall (objectIdx : nat) (p : QuickNavPlugin),
    (_cullSetLen p <= length (_cullSet p))%nat ->
    let added := bruteForceFrom (shouldCull getAABB3Diag p) objectIdx entities in
    forEachObject (cullObject getAABB3Diag) objectIdx entities p
    = upd_cullSetLen (_cullSetLen p + length added)
        (upd_cullSet
           (take (_cullSetLen p) (_cullSet p) ++ added
            ++ drop (_cullSetLen p + length added) (_cullSet p)) p).
Proof.
  induction entities as [|entity rest IH]; intros objectIdx p Hlen; simpl.
  - rewrite Nat.add_0_r, take_drop. destruct p; reflexivity.
  - rewrite cullObject_shouldCull.
    destruct (shouldCull getAABB3Diag p entity) eqn:Hc; simpl.
    + destruct (take_js_array_set (_cullSet p) (_cullSetLen p) objectIdx Hlen)
        as [Htake Hle].
      rewrite (IH (S objectIdx) (pushCullSet objectIdx p) Hle).
      change (shouldCull getAABB3Diag (pushCullSet objectIdx p))
        with (shouldCull getAABB3Diag p).
      set (added := bruteForceFrom (shouldCull getAABB3Diag p) (S objectIdx) rest).
      unfold pushCullSet.
      cbn [_cullSet _cullSetLen upd_cullSet upd_cullSetLen].
      rewrite Htake.
      rewrite (js_array_set_shape _ _ _ Hlen).
      replace (drop (S (_cullSetLen p) + length added)
                 (take (_cullSetLen p) (_cullSet p) ++ [objectIdx]
                  ++ drop (S (_cullSetLen p)) (_cullSet p)))
        with (drop (_cullSetLen p + S (length added)) (_cullSet p)).
      * rewrite <- !app_assoc.
        replace (_cullSetLen p + S (length added))%nat
          with (S (_cullSetLen p) + length added)%nat by lia.
        reflexivity.
      * rewrite app_assoc.
        rewrite drop_app_ge by (rewrite length_app, length_take; simpl; lia).
        rewrite length_app, length_take. simpl. rewrite drop_drop.
        f_equal. lia.
    + rewrite (IH (S objectIdx) p Hlen). reflexivity.
Qed.

(** A rebuild writes the selected indices at the front of [_cullSet] and
    leaves the entries of the old array beyond them where they were: the
    array never gets shorter, and what lies beyond the built length is
    left over from earlier rebuilds. *)
Lemma rebuild_array (p : QuickNavPlugin) :
  let selected :=
    bruteForceFrom (shouldCull getAABB3Diag p) 0
      (objects (_objectCullStates p)) in
  _cullSet (_buildCullObjects getAABB3Diag p)
    = selected ++ drop (length selected) (_cullSet p)
  /\ _cullSetLen (_buildCullObjects getAABB3Diag p) = length selected
  /\ _cullSetDirty (_buildCullObjects getAABB3Diag p) = false
  /\ (length (_cullSet p) <= length (_cullSet (_buildCullObjects getAABB3Diag p)))%nat.
Proof.
  intros selected. unfold _buildCullObjects.
  set (p1 := upd_cullSetLen 0 (upd_objectCullStates _ p)).
  assert (H0 : (_cullSetLen p1 <= length (_cullSet p1))%nat) by (simpl; lia).
  rewrite (forEachObject_array (objects (_objectCullStates p1)) 0 p1 H0).
  assert (Hsel : bruteForceFrom (shouldCull getAABB3Diag p1) 0
                   (objects (_objectCullStates p1)) = selected).
  { unfold selected, p1. cbn [_objectCullStates upd_cullSetLen upd_objectCullStates].
    fold (storeAfterClearing p). rewrite objects_storeAfterClearing. reflexivity. }
  rewrite Hsel.
  cbn [_cullSet _cullSetLen _cullSetDirty upd_cullSetDirty upd_cullSetLen
         upd_cullSet].
  change (_cullSetLen p1) with 0%nat. change (_cullSet p1) with (_cullSet p).
  rewrite take_0, Nat.add_0_l, app_nil_l.
  split; [reflexivity|]. split; [reflexivity|]. split; [reflexivity|].
  rewrite length_app, length_drop. lia.
Qed.

End CullSetArray.



(** ** What each handler leaves alone *)

(** Splits the plugin and its viewer into their fields. *)
Ltac destruct_plugin p :=
  let w := fresh "w" in
  destruct p as [w ? ? ? ? ? ? ? ? ? ? ? ? ? ? ? ? ? ? ? ? ? ? ? ? ?];
  destruct w as [? ? ? ? ? ? ? ?].

Lemma cullSide_cancelFade (p : QuickNavPlugin) :
  cullSide (_cancelFade p) = cullSide p
  /\ sceneEffects (_cancelFade p) = sceneEffects p
  /\ fastMode (_cancelFade p) = fastMode p
  /\ timer (_cancelFade p) = timer p.
Proof.
  unfold _cancelFade, clearPInterval, clearPInterval2.
  destruct_plugin p. cbn.
  repeat match goal with
         | |- context [match ?x with Some _ => _ | None => _ end] =>
             is_var x; destruct x; cbn
         end; repeat split.
Qed.

Lemma cullSide_setHiddenEffects (value : bool) (p : QuickNavPlugin) :
  cullSide (setHiddenEffects value p) = cullSide p.
Proof.
  unfold setHiddenEffects. destruct_plugin p. cbn.
  repeat match goal with
         | |- context [if ?x then _ else _] => is_var x; destruct x; cbn
         end; reflexivity.
Qed.

Lemma cullSide_startFade (snapshot : option string) (p : QuickNavPlugin) :
  cullSide (stateOf (_startFade snapshot p)) = cullSide p
  /\ sceneEffects (stateOf (_startFade snapshot p)) = sceneEffects p.
Proof.
  unfold _startFade, _initFade, clearPInterval. destruct_plugin p.
  destruct snapshot; cbn;
    repeat match goal with
           | |- context [match ?x with Some _ => _ | None => _ end] =>
               is_var x; destruct x; cbn
           end; split; reflexivity.
Qed.

Lemma cullSide_onSceneTick (deltaTime : Q) (snapshot : option string)
    (p : QuickNavPlugin) :
  cullSide (stateOf (onSceneTick deltaTime snapshot p)) = cullSide p
  /\ sceneEffects (stateOf (onSceneTick deltaTime snapshot p)) = sceneEffects p.
Proof.
  unfold onSceneTick. destruct (fastMode p) eqn:Hf; cbn [negb]; [|auto].
  cbn [timer upd_timer fastMode]. rewrite Hf.
  destruct (Qle_bool (timer p - deltaTime) 0); [|split; reflexivity].
  destruct (cullSide_startFade snapshot (upd_timer (timer p - deltaTime)%Q p))
    as [Hc He].
  destruct (_startFade snapshot (upd_timer (timer p - deltaTime)%Q p)) as [q|q];
    cbn [stateOf] in *.
  - split.
    + transitivity (cullSide q); [reflexivity|exact Hc].
    + transitivity (sceneEffects q); [reflexivity|exact He].
  - split; [exact Hc|exact He].
Qed.

Lemma cullSide_fadeStep (handle : nat) (opacity inc : Q) (p : QuickNavPlugin) :
  cullSide (stateOf (fadeStep handle opacity inc p)) = cullSide p
  /\ sceneEffects (stateOf (fadeStep handle opacity inc p)) = sceneEffects p
  /\ fastMode (stateOf (fadeStep handle opacity inc p)) = fastMode p.
Proof.
  unfold fadeStep. destruct_plugin p. cbn.
  repeat match goal with
         | |- context [match ?x with Some _ => _ | None => _ end] =>
             is_var x; destruct x; cbn
         | |- context [if ?x then _ else _] => destruct x; cbn
         end; repeat split.
Qed.

Lemma cullSide_send (name : string) (p : QuickNavPlugin) :
  cullSide (send name p) = cullSide p
  /\ sceneEffects (send name p) = sceneEffects p
  /\ fastMode (send name p) = fastMode p.
Proof.
  unfold send. destruct (String.eqb name "clear"); [|auto].
  destruct (cullSide_cancelFade p) as (H1 & H2 & H3 & _). auto.
Qed.

(** A setter call reaches neither the store, nor the effects, nor the
    array; it leaves the cull set flagged dirty. *)
Lemma callSetter_frame (c : SetterCall) (p : QuickNavPlugin) :
  _objectCullStates (callSetter c p) = _objectCullStates p
  /\ sceneEffects (callSetter c p) = sceneEffects p
  /\ hideFlags (callSetter c p) = hideFlags p
  /\ _cullSet (callSetter c p) = _cullSet p
  /\ _cullSetLen (callSetter c p) = _cullSetLen p
  /\ _cullSetDirty (callSetter c p) = true
  /\ fastMode (callSetter c p) = fastMode p.
Proof. destruct c; repeat split. Qed.

Lemma shouldCull_cullInputs (getAABB3Diag : math.AABB3 -> Q)
    (p q : QuickNavPlugin) :
  cullInputs p = cullInputs q ->
  shouldCull getAABB3Diag p = shouldCull getAABB3Diag q
  /\ objects (_objectCullStates p) = objects (_objectCullStates q).
Proof.
  unfold cullInputs. intros H.
  destruct_plugin p. destruct_plugin q. cbn in H.
  injection H as -> -> -> -> -> Ho. split; [reflexivity|exact Ho].
Qed.

Section Frames.

Variable getAABB3Diag : math.AABB3 -> Q.

Lemma _buildCullObjects_frame (p : QuickNavPlugin) :
  cullInputs (_buildCullObjects getAABB3Diag p) = cullInputs p
  /\ hideFlags (_buildCullObjects getAABB3Diag p) = hideFlags p
  /\ sceneEffects (_buildCullObjects getAABB3Diag p) = sceneEffects p.
Proof.
  destruct (_buildCullObjects_shape getAABB3Diag p) as (l & n & Heq & _).
  rewrite Heq. unfold cullInputs, hideFlags, sceneEffects.
  cbn [_objectCullStates upd_cullSetDirty upd_cullSetLen upd_cullSet
         upd_objectCullStates].
  rewrite objects_storeAfterClearing. repeat split.
Qed.

Lemma _setObjectsCulled_frame (culled : bool) (p : QuickNavPlugin) :
  cullInputs (_setObjectsCulled getAABB3Diag culled p) = cullInputs p
  /\ hideFlags (_setObjectsCulled getAABB3Diag culled p) = hideFlags p
  /\ sceneEffects (_setObjectsCulled getAABB3Diag culled p) = sceneEffects p
  /\ fastMode (_setObjectsCulled getAABB3Diag culled p) = fastMode p
  /\ timer (_setObjectsCulled getAABB3Diag culled p) = timer p.
Proof.
  unfold _setObjectsCulled.
  match goal with
  | |- context [upd_culling culled (upd_objectCullStates (foldl ?f ?s ?l) ?q)] =>
      destruct (foldl_setObjectDetailCulled culled l s) as (Ho & _ & _);
      set (s' := foldl f s l) in *; set (q' := q) in *
  end.
  assert (Hq : cullInputs q' = cullInputs p /\ hideFlags q' = hideFlags p
               /\ sceneEffects q' = sceneEffects p
               /\ fastMode q' = fastMode p /\ timer q' = timer p).
  { unfold q'. destruct (_cullSetDirty p); [|auto 10].
    destruct (_buildCullObjects_frame p) as (H1 & H2 & H3).
    destruct (_buildCullObjects_shape getAABB3Diag p) as (l & n & Heq & _).
    split; [exact H1|]. split; [exact H2|]. split; [exact H3|].
    rewrite Heq. split; reflexivity. }
  destruct Hq as (H1 & H2 & H3 & H4 & H5).
  unfold cullInputs, hideFlags, sceneEffects in *. cbn.
  cbn in Ho. rewrite Ho. auto.
Qed.

End Frames.

(** ** Applying the cull set *)

Section Applying.

Variable getAABB3Diag : math.AABB3 -> Q.

(** The array and the store after [_setObjectsCulled]: the array is that of
    the rebuild when the cull set was dirty and the old one otherwise; the
    [detailCulled] flags are those of before with every entry of the array
    set. *)
Lemma _setObjectsCulled_effect (culled : bool) (p : QuickNavPlugin) :
  let q := _setObjectsCulled getAABB3Diag culled p in
  _cullSet q
  = (if _cullSetDirty p then _cullSet (_buildCullObjects getAABB3Diag p)
     else _cullSet p)
  /\ _cullSetLen q
     = (if _cullSetDirty p then _cullSetLen (_buildCullObjects getAABB3Diag p)
        else _cullSetLen p)
  /\ _cullSetDirty q = false
  /\ _culling q = culled
  /\ forall objectIdx,
       (objectIdx ∈ _cullSet q ->
        detailCulled (_objectCullStates q) !! objectIdx = Some culled)
       /\ (objectIdx ∉ _cullSet q ->
           detailCulled (_objectCullStates q) !! objectIdx
           = detailCulled (_objectCullStates p) !! objectIdx).
Proof.
  intros q. unfold q, _setObjectsCulled.
  set (q0 := if _cullSetDirty p then _buildCullObjects getAABB3Diag p else p).
  cbn [_cullSet _cullSetLen _cullSetDirty _culling _objectCullStates
         upd_culling upd_objectCullStates].
  destruct (foldl_setObjectDetailCulled culled (_cullSet q0) (_objectCullStates q0))
    as (_ & _ & Hv).
  assert (Hd : detailCulled (_objectCullStates q0)
               = detailCulled (_objectCullStates p)).
  { unfold q0. destruct (_cullSetDirty p); [|reflexivity].
    rewrite _buildCullObjects_store.
    destruct (foldl_setObjectViewCulled false (builtCullSet p) (_objectCullStates p))
      as (_ & Hd & _). exact Hd. }
  assert (Hdirty : _cullSetDirty q0 = false).
  { unfold q0. destruct (_cullSetDirty p) eqn:E; [|exact E].
    destruct (_buildCullObjects_shape getAABB3Diag p) as (l & n & Heq & _).
    rewrite Heq. reflexivity. }
  split; [unfold q0; destruct (_cullSetDirty p); reflexivity|].
  split; [unfold q0; destruct (_cullSetDirty p); reflexivity|].
  split; [exact Hdirty|]. split; [reflexivity|].
  intros objectIdx. destruct (Hv objectIdx) as [Hin Hout]. split.
  - exact Hin.
  - intros Hnot. rewrite (Hout Hnot), Hd. reflexivity.
Qed.

Lemma cullSetFresh_ext (p q : QuickNavPlugin) :
  cullInputs q = cullInputs p ->
  cullCache q = cullCache p ->
  cullSetFresh getAABB3Diag p -> cullSetFresh getAABB3Diag q.
Proof.
  intros Hi Hc [Hlen Hfresh].
  destruct (shouldCull_cullInputs getAABB3Diag q p Hi) as [Hs Ho].
  unfold cullCache in Hc. injection Hc as Ha Hl Hd.
  unfold cullSetFresh, builtCullSet. rewrite Ha, Hl, Hd, Hs, Ho.
  split; [exact Hlen|exact Hfresh].
Qed.

Lemma cullSetFresh_cullSide (p q : QuickNavPlugin) :
  cullSide q = cullSide p ->
  cullSetFresh getAABB3Diag p -> cullSetFresh getAABB3Diag q.
Proof.
  unfold cullSide. intros H.
  pose proof (f_equal (fun t => snd (fst (fst t))) H) as Hc.
  pose proof (f_equal (fun t => snd (fst t)) H) as Hi.
  cbn [fst snd] in Hc, Hi.
  apply cullSetFresh_ext; assumption.
Qed.

Lemma cullSetFresh_setObjectsCulled (culled : bool) (p : QuickNavPlugin) :
  cullSetFresh getAABB3Diag p ->
  cullSetFresh getAABB3Diag (_setObjectsCulled getAABB3Diag culled p).
Proof.
  intros [Hlen Hfresh].
  destruct (_setObjectsCulled_effect culled p) as (Ha & Hl & Hd & _).
  destruct (_setObjectsCulled_frame getAABB3Diag culled p) as (Hi & _).
  destruct (shouldCull_cullInputs getAABB3Diag _ p Hi) as [Hs Ho].
  unfold cullSetFresh, builtCullSet. rewrite Ha, Hl, Hs, Ho.
  destruct (_cullSetDirty p) eqn:E.
  - destruct (rebuild_array getAABB3Diag p) as (Harr & Hbl & _).
    rewrite Harr, Hbl. split.
    + rewrite length_app. lia.
    + intros _. rewrite take_app_length. reflexivity.
  - split; [exact Hlen|]. intros _. apply Hfresh. reflexivity.
Qed.

Lemma cullSetFresh_callSetter (c : SetterCall) (p : QuickNavPlugin) :
  cullSetFresh getAABB3Diag p -> cullSetFresh getAABB3Diag (callSetter c p).
Proof.
  intros [Hlen _]. destruct (callSetter_frame c p) as (_ & _ & _ & Ha & Hl & Hd & _).
  unfold cullSetFresh. rewrite Ha, Hl, Hd. split; [exact Hlen|discriminate].
Qed.

Lemma cullSetFresh_startHiding (p : QuickNavPlugin) :
  cullSetFresh getAABB3Diag p ->
  cullSetFresh getAABB3Diag (startHiding getAABB3Diag p).
Proof.
  intros H. unfold startHiding. cbn [fastMode upd_timer].
  destruct (fastMode p); cbn [negb].
  - exact H.
  - apply (cullSetFresh_ext (_setObjectsCulled getAABB3Diag true
             (setHiddenEffects false (_cancelFade (upd_timer timeoutDuration p)))));
      [reflexivity|reflexivity|].
    apply cullSetFresh_setObjectsCulled.
    apply (cullSetFresh_cullSide (_cancelFade (upd_timer timeoutDuration p)));
      [apply cullSide_setHiddenEffects|].
    apply (cullSetFresh_cullSide p); [|exact H].
    exact (proj1 (cullSide_cancelFade (upd_timer timeoutDuration p))).
Qed.

Lemma cullSetFresh_dispatch (e : Event) (p : QuickNavPlugin) (o : Outcome) :
  cullSetFresh getAABB3Diag p ->
  dispatch getAABB3Diag e p = Some o ->
  cullSetFresh getAABB3Diag (stateOf o).
Proof.
  intros H. destruct e; cbn [dispatch]; try (intros [= <-]; cbn [stateOf]).
  - apply cullSetFresh_startHiding, H.
  - apply cullSetFresh_startHiding, H.
  - apply cullSetFresh_startHiding, H.
  - apply (cullSetFresh_cullSide p); [|exact H].
    exact (proj1 (cullSide_onSceneTick deltaTime snapshot p)).
  - exact H.
  - exact H.
  - unfold onSceneMouseMove. destruct (down p); cbn [negb];
      [apply cullSetFresh_startHiding|]; exact H.
  - unfold fireTimer. destruct (timers (viewer p) !! handle) as [[|opacity inc]|];
      [| |discriminate]; intros [= <-]; cbn [stateOf].
    + unfold recoverCallback. apply cullSetFresh_setObjectsCulled.
      apply (cullSetFresh_cullSide (upd_viewer (clearInterval handle (viewer p)) p));
        [apply cullSide_setHiddenEffects|].
      apply (cullSetFresh_ext p); [| |exact H]; reflexivity.
    + apply (cullSetFresh_cullSide p); [|exact H].
      exact (proj1 (cullSide_fadeStep handle opacity inc p)).
  - apply cullSetFresh_callSetter, H.
  - apply (cullSetFresh_cullSide p); [|exact H].
    exact (proj1 (cullSide_send name p)).
Qed.

Lemma cullSetFresh_run (es : list Event) :
  forall (p p' : QuickNavPlugin),
    cullSetFresh getAABB3Diag p ->
    run getAABB3Diag es p = Some p' ->
    cullSetFresh getAABB3Diag p'.
Proof.
  induction es as [|e es IH]; intros p p' H Hrun; simpl in Hrun.
  - injection Hrun as <-. exact H.
  - destruct (dispatch getAABB3Diag e p) as [o|] eqn:E; [|discriminate].
    eapply IH; [|exact Hrun]. eapply cullSetFresh_dispatch; eassumption.
Qed.

Lemma cullSetFresh_constructor (viewer : Viewer) (s : ObjectCullStates)
    (cfg : Cfg) :
  cullSetFresh getAABB3Diag (constructor viewer s cfg).
Proof. split; [simpl; lia|discriminate]. Qed.

End Applying.

(** ** Effects *)

Lemma setHiddenEffects_effects (value : bool) (p : QuickNavPlugin) :
  sceneEffects (setHiddenEffects value p) = effectsSet value p
  /\ timerSide (setHiddenEffects value p) = timerSide p
  /\ timer (setHiddenEffects value p) = timer p.
Proof.
  unfold setHiddenEffects. destruct_plugin p. cbn.
  repeat match goal with
         | |- context [if ?x then _ else _] => is_var x; destruct x; cbn
         end; repeat split.
Qed.

Lemma effectsSet_cullSide (value : bool) (p q : QuickNavPlugin) :
  cullSide q = cullSide p -> sceneEffects q = sceneEffects p ->
  effectsSet value q = effectsSet value p.
Proof.
  unfold cullSide, sceneEffects, effectsSet, hideFlags. intros Hc He.
  pose proof (f_equal snd Hc) as Hh. cbn [snd] in Hh.
  injection Hh as -> -> ->. injection He as -> -> ->. reflexivity.
Qed.

Section Effects.

Variable getAABB3Diag : math.AABB3 -> Q.

Lemma startHiding_effects (p : QuickNavPlugin) :
  sceneEffects (startHiding getAABB3Diag p)
  = (if fastMode p then sceneEffects p else effectsSet false p)
  /\ hideFlags (startHiding getAABB3Diag p) = hideFlags p
  /\ fastMode (startHiding getAABB3Diag p) = true
  /\ timer (startHiding getAABB3Diag p) = timeoutDuration.
Proof.
  unfold startHiding. cbn [fastMode upd_timer].
  destruct (fastMode p) eqn:Hf; cbn [negb].
  - repeat split. exact Hf.
  - set (x := setHiddenEffects false (_cancelFade (upd_timer timeoutDuration p))).
    destruct (_setObjectsCulled_frame getAABB3Diag true x) as (_ & Hh & He & _ & Ht).
    destruct (setHiddenEffects_effects false
                (_cancelFade (upd_timer timeoutDuration p))) as (He' & _ & Ht').
    destruct (cullSide_cancelFade (upd_timer timeoutDuration p))
      as (Hc & He'' & _ & Ht'').
    fold x in He', Ht'.
    split; [|split; [|split]].
    + transitivity (sceneEffects (_setObjectsCulled getAABB3Diag true x));
        [reflexivity|].
      rewrite He, He'. apply effectsSet_cullSide; [exact Hc|exact He''].
    + transitivity (hideFlags (_setObjectsCulled getAABB3Diag true x));
        [reflexivity|].
      rewrite Hh. unfold x.
      pose proof (f_equal snd (cullSide_setHiddenEffects false
                    (_cancelFade (upd_timer timeoutDuration p)))) as H1.
      pose proof (f_equal snd Hc) as H2. cbn [snd cullSide] in H1, H2.
      rewrite H1, H2. reflexivity.
    + reflexivity.
    + transitivity (timer (_setObjectsCulled getAABB3Diag true x)); [reflexivity|].
      rewrite Ht, Ht', Ht''. reflexivity.
Qed.

Lemma recoverCallback_effects (p : QuickNavPlugin) :
  sceneEffects (recoverCallback getAABB3Diag p) = effectsSet true p
  /\ hideFlags (recoverCallback getAABB3Diag p) = hideFlags p
  /\ fastMode (recoverCallback getAABB3Diag p) = fastMode p.
Proof.
  unfold recoverCallback.
  destruct (_setObjectsCulled_frame getAABB3Diag false (setHiddenEffects true p))
    as (_ & Hh & He & Hf & _).
  destruct (setHiddenEffects_effects true p) as (He' & Ht & _).
  pose proof (f_equal snd (cullSide_setHiddenEffects true p)) as H1.
  cbn [snd cullSide] in H1.
  rewrite He, He', Hh, H1, Hf. repeat split.
  pose proof (f_equal (fun t => snd (fst t)) Ht) as H2. exact H2.
Qed.

(** An event leaves the hide flags alone, and it leaves the effects as
    they are or sets those whose hide flag is set, all to [false] or all to
    [true]. *)
Lemma dispatch_effects (e : Event) (p : QuickNavPlugin) (o : Outcome) :
  dispatch getAABB3Diag e p = Some o ->
  hideFlags (stateOf o) = hideFlags p
  /\ (sceneEffects (stateOf o) = sceneEffects p
      \/ sceneEffects (stateOf o) = effectsSet false p
      \/ sceneEffects (stateOf o) = effectsSet true p).
Proof.
  assert (Hstart : hideFlags (startHiding getAABB3Diag p) = hideFlags p
          /\ (sceneEffects (startHiding getAABB3Diag p) = sceneEffects p
              \/ sceneEffects (startHiding getAABB3Diag p) = effectsSet false p
              \/ sceneEffects (startHiding getAABB3Diag p) = effectsSet true p)).
  { destruct (startHiding_effects p) as (He & Hh & _).
    split; [exact Hh|]. destruct (fastMode p); auto. }
  destruct e; cbn [dispatch]; try (intros [= <-]; cbn [stateOf]); auto.
  - destruct (cullSide_onSceneTick deltaTime snapshot p) as [Hc He].
    split; [exact (f_equal snd Hc)|auto].
  - unfold onSceneMouseMove. destruct (down p); cbn [negb]; auto.
  - unfold fireTimer. destruct (timers (viewer p) !! handle) as [[|opacity inc]|];
      [| |discriminate]; intros [= <-]; cbn [stateOf].
    + destruct (recoverCallback_effects
                  (upd_viewer (clearInterval handle (viewer p)) p)) as (He & Hh & _).
      split; [exact Hh|]. right; right. exact He.
    + destruct (cullSide_fadeStep handle opacity inc p) as (Hc & He & _).
      split; [exact (f_equal snd Hc)|auto].
  - destruct (callSetter_frame c p) as (_ & He & Hh & _). auto.
  - destruct (cullSide_send name p) as (Hc & He & _).
    split; [exact (f_equal snd Hc)|auto].
Qed.

(** An effect whose hide flag is not set is never touched. *)
Lemma run_effects (es : list Event) :
  forall (p p' : QuickNavPlugin),
    run getAABB3Diag es p = Some p' ->
    hideFlags p' = hideFlags p
    /\ (_hidePBR p = false -> scene_pbr (viewer p') = scene_pbr (viewer p))
    /\ (_hideSAO p = false ->
        scene_sao_enabled (viewer p') = scene_sao_enabled (viewer p))
    /\ (_hideEdges p = false ->
        scene_edgeMaterial_edges (viewer p')
        = scene_edgeMaterial_edges (viewer p)).
Proof.
  induction es as [|e es IH]; intros p p' Hrun; simpl in Hrun.
  - injection Hrun as <-. auto.
  - destruct (dispatch getAABB3Diag e p) as [o|] eqn:E; [|discriminate].
    destruct (dispatch_effects e p o E) as [Hh He].
    destruct (IH _ _ Hrun) as (Hh' & Hp & Hs & Hd).
    unfold hideFlags in Hh. injection Hh as H1 H2 H3.
    split; [rewrite Hh'; unfold hideFlags; congruence|].
    unfold sceneEffects, effectsSet in He.
    split; [|split]; intros Hoff.
    + rewrite Hp by congruence. rewrite Hoff in He.
      destruct He as [He|[He|He]]; injection He as -> _ _; reflexivity.
    + rewrite Hs by congruence. rewrite Hoff in He.
      destruct He as [He|[He|He]]; injection He as _ -> _; reflexivity.
    + rewrite Hd by congruence. rewrite Hoff in He.
      destruct He as [He|[He|He]]; injection He as _ _ ->; reflexivity.
Qed.

End Effects.

(** ** Events in Fast *)

Lemma cullSide_parts (p q : QuickNavPlugin) :
  cullSide q = cullSide p ->
  _objectCullStates q = _objectCullStates p
  /\ _cullSet q = _cullSet p
  /\ _cullSetLen q = _cullSetLen p
  /\ _cullSetDirty q = _cullSetDirty p
  /\ hideFlags q = hideFlags p.
Proof.
  unfold cullSide, cullCache. intros H.
  pose proof (f_equal (fun t => fst (fst (fst t))) H) as H1.
  pose proof (f_equal (fun t => snd (fst (fst t))) H) as H2.
  pose proof (f_equal snd H) as H3. cbn [fst snd] in H1, H2, H3.
  injection H2 as Ha Hl Hd. auto.
Qed.

Section InFast.

Variable getAABB3Diag : math.AABB3 -> Q.

Lemma input_in_fast (e : Event) (p : QuickNavPlugin) :
  fastMode p = true ->
  isInput e = true ->
  exists q,
    dispatch getAABB3Diag e p = Some (Returned q)
    /\ fastMode q = true
    /\ _objectCullStates q = _objectCullStates p
    /\ sceneEffects q = sceneEffects p
    /\ _cullSet q = _cullSet p
    /\ _cullSetLen q = _cullSetLen p.
Proof.
  intros Hf Hin.
  assert (Hstart : startHiding getAABB3Diag p
                   = upd_frustumDirty true (upd_timer timeoutDuration p)).
  { unfold startHiding. cbn [fastMode upd_timer]. rewrite Hf. reflexivity. }
  destruct e; cbn in Hin; try discriminate; cbn [dispatch]; eexists;
    (split; [reflexivity|]).
  - rewrite Hstart. auto.
  - rewrite Hstart. auto.
  - rewrite Hstart. auto.
  - auto.
  - auto.
  - unfold onSceneMouseMove. destruct (down p); cbn [negb];
      [rewrite Hstart|]; auto.
  - destruct (callSetter_frame c p) as (Hs & He & _ & Ha & Hl & _ & Hf').
    rewrite Hf'. auto.
  - destruct (cullSide_send name p) as (Hc & He & Hf').
    destruct (cullSide_parts _ _ Hc) as (Hs & Ha & Hl & _).
    rewrite Hf'. auto.
Qed.

(** The "clear" command while the delayed re-enable waits: the re-enable
    is cancelled for good, the machine stays out of Fast, the effects and
    the cull flags stay as the move left them, and ticks change nothing. *)
Lemma clear_cancels_recovery (handle : nat) (q : QuickNavPlugin) :
  awaitsRecovery handle q ->
  let cleared := send "clear" q in
  (forall later p',
      run getAABB3Diag later cleared = Some p' ->
      timers (viewer p') !! handle = None)
  /\ fastMode cleared = false
  /\ sceneEffects cleared = sceneEffects q
  /\ _objectCullStates cleared = _objectCullStates q
  /\ forall deltaTime snapshot,
       onSceneTick deltaTime snapshot cleared = Returned cleared.
Proof.
  intros Hq cleared.
  destruct (cullSide_send "clear" q) as (Hc & He & Hf).
  destruct (cullSide_parts _ _ Hc) as (Hs & _).
  pose proof Hq as (_ & _ & _ & Hfast & _ & Hlt).
  destruct (_cancelFade_pending handle q Hq) as (w & img & Heq & _ & Hgone & _ & Hnext).
  assert (Hf' : fastMode cleared = false) by (unfold cleared; rewrite Hf; exact Hfast).
  split; [|split; [exact Hf'|split; [exact He|split; [exact Hs|]]]].
  - intros later p' Hrun.
    eapply (cancelled_forever getAABB3Diag); [| |exact Hrun];
      unfold cleared, send; cbn [String.eqb Ascii.eqb Bool.eqb]; rewrite Heq; cbn.
    + rewrite Hnext. exact Hlt.
    + exact Hgone.
  - intros deltaTime snapshot. unfold onSceneTick. rewrite Hf'. reflexivity.
Qed.

End InFast.

(** ** The timers the plugin has pending *)

Ltac tracked_lookup :=
  repeat match goal with
         | H : <[_ := _]> _ !! _ = Some _ |- _ =>
             apply lookup_insert_Some in H as [[? ?]|[? H]]; [simplify_eq|]
         | H : delete _ _ !! _ = Some _ |- _ =>
             apply lookup_delete_Some in H as [? H]
         | H : ∅ !! _ = Some _ |- _ =>
             rewrite lookup_empty in H; discriminate
         end.

Lemma timersTracked_ext (p q : QuickNavPlugin) :
  timerSide q = timerSide p -> timersTracked p -> timersTracked q.
Proof.
  unfold timerSide, timersTracked. intros H.
  injection H as -> -> -> -> -> ->. auto.
Qed.

Lemma timersTracked_empty (p : QuickNavPlugin) :
  timers (viewer p) = ∅ -> timersTracked p.
Proof.
  unfold timersTracked. intros ->.
  repeat split; intros; tracked_lookup.
Qed.

(** [_cancelFade] leaves no timer of the plugin pending. *)
Lemma _cancelFade_clears_timers (p : QuickNavPlugin) :
  timersTracked p -> timers (viewer (_cancelFade p)) = ∅.
Proof.
  intros (Hfade & Hrec & Hany).
  apply map_eq. intros handle. rewrite lookup_empty.
  destruct (timers (viewer (_cancelFade p)) !! handle) as [cb|] eqn:E;
    [exfalso|reflexivity].
  revert E. unfold _cancelFade, clearPInterval, clearPInterval2, clearInterval.
  destruct (_img p) as [img|] eqn:Ei.
  - assert (Hcb : timers (viewer p) !! handle = Some cb ->
                  _pInterval p <> Some handle -> _pInterval2 p <> Some handle ->
                  False).
    { intros E H1 H2. destruct cb as [|opacity inc].
      - destruct (Hrec _ E) as [? _]. contradiction.
      - apply H1. eapply Hfade. exact E. }
    destruct (_pInterval p) as [h1|] eqn:E1;
      cbn [_pInterval2 upd_pInterval upd_viewer viewer _img timers upd_timers];
      destruct (_pInterval2 p) as [h2|] eqn:E2;
      cbn [_pInterval2 upd_pInterval upd_pInterval2 upd_viewer viewer _img
             timers upd_timers upd_img];
      rewrite Ei;
      cbn [_pInterval2 upd_pInterval upd_pInterval2 upd_viewer viewer _img
             timers upd_timers upd_img];
      intros E; tracked_lookup; apply Hcb; congruence.
  - intros E. destruct (Hany _ _ E) as [_ [? ?]]. congruence.
Qed.

Lemma timersTracked_onSceneTick (deltaTime : Q) (snapshot : option string)
    (p : QuickNavPlugin) :
  timersTracked p ->
  timersTracked (stateOf (onSceneTick deltaTime snapshot p)).
Proof.
  intros H. unfold onSceneTick.
  destruct (fastMode p) eqn:Ef; cbn [negb stateOf]; [|exact H].
  cbn [timer upd_timer fastMode]. rewrite Ef.
  destruct (Qle_bool (timer p - deltaTime) 0); cbn [stateOf];
    [|eapply timersTracked_ext; [|exact H]; unfold timerSide; cbn; reflexivity].
  destruct H as (Hfade & Hrec & Hany).
  (* in Fast, clearing [_pInterval] leaves no timer pending *)
  assert (Hclear : forall handle cb,
             timers (viewer p) !! handle = Some cb ->
             _pInterval p = Some handle).
  { intros handle [|opacity inc] E.
    - destruct (Hrec _ E) as [_ ?]. congruence.
    - eapply Hfade. exact E. }
  unfold _startFade, _initFade, clearPInterval, setTimer, clearInterval.
  unfold timersTracked in *.
  destruct_plugin p. destruct snapshot; cbn in *;
    repeat match goal with
           | |- context [match ?x with Some _ => _ | None => _ end] =>
               is_var x; destruct x; cbn
           end;
    repeat split; intros; tracked_lookup;
    try lia; try congruence; try (eexists; reflexivity);
    try (match goal with
         | E : _ !! _ = Some _ |- _ =>
             pose proof (Hclear _ _ E); pose proof (Hany _ _ E)
         end; intuition (try congruence; try lia)).
Qed.

Lemma timersTracked_fadeStep (handle : nat) (opacity inc : Q)
    (p : QuickNavPlugin) :
  timersTracked p ->
  timers (viewer p) !! handle = Some (FadeCallback opacity inc) ->
  timersTracked (stateOf (fadeStep handle opacity inc p)).
Proof.
  intros (Hfade & Hrec & Hany) E.
  pose proof (Hfade _ _ _ E) as Hp.
  destruct (Hany _ _ E) as [Hlt [img Hi]].
  unfold fadeStep, clearInterval, timersTracked in *.
  destruct_plugin p. cbn in *. subst.
  destruct (js_gt (opacity - inc) 0); cbn;
    repeat split; intros; tracked_lookup;
    try lia; try congruence; try (eexists; reflexivity);
    try (match goal with
         | E' : _ !! _ = Some _ |- _ =>
             pose proof (Hany _ _ E');
             try pose proof (Hrec _ E'); try pose proof (Hfade _ _ _ E')
         end; intuition (try congruence; try lia)).
Qed.

Section Timers.

Variable getAABB3Diag : math.AABB3 -> Q.

Lemma timerSide_setObjectsCulled (culled : bool) (p : QuickNavPlugin) :
  timerSide (_setObjectsCulled getAABB3Diag culled p) = timerSide p.
Proof.
  destruct (_setObjectsCulled_shape getAABB3Diag culled p)
    as (s & l & n & d & Heq & _ & _).
  rewrite Heq. reflexivity.
Qed.

Lemma timerSide_callSetter (c : SetterCall) (p : QuickNavPlugin) :
  timerSide (callSetter c p) = timerSide p.
Proof. destruct c; reflexivity. Qed.

Lemma timersTracked_startHiding (p : QuickNavPlugin) :
  timersTracked p ->
  timersTracked (startHiding getAABB3Diag p)
  /\ (fastMode p = false -> timers (viewer (startHiding getAABB3Diag p)) = ∅).
Proof.
  intros H. unfold startHiding. cbn [fastMode upd_timer].
  destruct (fastMode p) eqn:Ef; cbn [negb].
  - split; [|discriminate].
    eapply timersTracked_ext; [|exact H]. unfold timerSide. cbn. rewrite Ef.
    reflexivity.
  - assert (Hempty : timers (viewer (upd_frustumDirty true
               (upd_fastMode true
                  (_setObjectsCulled getAABB3Diag true
                     (setHiddenEffects false
                        (_cancelFade (upd_timer timeoutDuration p))))))) = ∅).
    { cbn [viewer upd_frustumDirty upd_fastMode].
      rewrite viewer_setObjectsCulled.
      destruct (setHiddenEffects_shape false
                  (_cancelFade (upd_timer timeoutDuration p)))
        as (w & -> & Ht & _).
      cbn [viewer upd_viewer]. rewrite Ht.
      apply _cancelFade_clears_timers.
      eapply timersTracked_ext; [|exact H]. reflexivity. }
    split; [apply timersTracked_empty; exact Hempty|intros _; exact Hempty].
Qed.

Lemma timersTracked_recoverCallback (handle : nat) (p : QuickNavPlugin) :
  timersTracked p ->
  timers (viewer p) !! handle = Some RecoverCallback ->
  timersTracked
    (recoverCallback getAABB3Diag
       (upd_viewer (clearInterval handle (viewer p)) p)).
Proof.
  intros (Hfade & Hrec & Hany) E. unfold recoverCallback.
  eapply timersTracked_ext.
  { rewrite timerSide_setObjectsCulled.
    apply (setHiddenEffects_effects true). }
  unfold timersTracked, clearInterval.
  cbn [viewer upd_viewer timers upd_timers nextTimerId _pInterval _pInterval2
         fastMode _img].
  repeat split; intros; tracked_lookup; eauto.
  - eapply Hrec; eauto.
  - eapply Hrec; eauto.
  - eapply Hany; eauto.
  - eapply Hany; eauto.
Qed.

Lemma timersTracked_dispatch (e : Event) (p : QuickNavPlugin) (o : Outcome) :
  timersTracked p ->
  dispatch getAABB3Diag e p = Some o ->
  timersTracked (stateOf o).
Proof.
  intros H Hd.
  destruct e; cbn [dispatch] in Hd; try (injection Hd as <-); cbn [stateOf].
  - apply timersTracked_startHiding. exact H.
  - apply timersTracked_startHiding. exact H.
  - apply timersTracked_startHiding. exact H.
  - apply timersTracked_onSceneTick. exact H.
  - exact H.
  - exact H.
  - unfold onSceneMouseMove. destruct (down p); cbn [negb];
      [apply timersTracked_startHiding|]; exact H.
  - unfold fireTimer in Hd.
    destruct (timers (viewer p) !! handle) as [[|opacity inc]|] eqn:E;
      [| |discriminate]; injection Hd as <-; cbn [stateOf].
    + apply timersTracked_recoverCallback; assumption.
    + apply timersTracked_fadeStep; assumption.
  - eapply timersTracked_ext; [apply timerSide_callSetter|exact H].
  - unfold send. destruct (String.eqb name "clear"); [|exact H].
    apply timersTracked_empty, _cancelFade_clears_timers. exact H.
Qed.

Lemma timersTracked_run (es : list Event) :
  forall (p p' : QuickNavPlugin),
    timersTracked p ->
    run getAABB3Diag es p = Some p' ->
    timersTracked p'.
Proof.
  induction es as [|e es IH]; intros p p' H Hrun; simpl in Hrun.
  - injection Hrun as <-. exact H.
  - destruct (dispatch getAABB3Diag e p) as [o|] eqn:E; [|discriminate].
    eapply IH; [|exact Hrun]. eapply timersTracked_dispatch; eassumption.
Qed.

Lemma timersTracked_constructor (w : Viewer) (s : ObjectCullStates) (cfg : Cfg) :
  timers w = ∅ -> timersTracked (constructor w s cfg).
Proof. intros H. apply timersTracked_empty. exact H. Qed.

(** [destroy] leaves no timer of the plugin pending. *)
Lemma destroy_clears_timers (p : QuickNavPlugin) :
  timersTracked p -> timers (viewer (destroy p)) = ∅.
Proof.
  intros H. unfold destroy. cbn [viewer upd_img upd_cullSetLen upd_cullSet
                                   upd_objectCullStates].
  apply _cancelFade_clears_timers. exact H.
Qed.

End Timers.

(** ** The overlay *)

Lemma overlayQuiet_ext (p q : QuickNavPlugin) :
  timerSide q = timerSide p -> overlayQuiet p -> overlayQuiet q.
Proof.
  unfold timerSide, overlayQuiet. intros H.
  injection H as -> _ -> _ -> ->. auto.
Qed.

(** [_cancelFade] leaves the overlay hidden, if there is one. *)
Lemma _cancelFade_hides (p : QuickNavPlugin) (img : Img) :
  _img (_cancelFade p) = Some img -> visible img = false.
Proof.
  unfold _cancelFade, clearPInterval, clearPInterval2. destruct_plugin p. cbn.
  repeat match goal with
         | |- context [match ?x with Some _ => _ | None => _ end] =>
             is_var x; destruct x; cbn
         end; intros [= <-]; reflexivity.
Qed.

Lemma overlayQuiet_hidden (p : QuickNavPlugin) :
  timers (viewer p) = ∅ ->
  (forall img, _img p = Some img -> visible img = false) ->
  overlayQuiet p.
Proof.
  intros Ht Hh. split; [auto|].
  intros img Hi Hv. rewrite (Hh img Hi) in Hv. discriminate.
Qed.

Lemma overlayQuiet_cancelFade (p : QuickNavPlugin) :
  timersTracked p -> overlayQuiet (_cancelFade p).
Proof.
  intros Ht. apply overlayQuiet_hidden.
  - apply _cancelFade_clears_timers. exact Ht.
  - apply _cancelFade_hides.
Qed.

Lemma overlayQuiet_onSceneTick (deltaTime : Q) (snapshot : option string)
    (p : QuickNavPlugin) :
  overlayQuiet p ->
  overlayQuiet (stateOf (onSceneTick deltaTime snapshot p)).
Proof.
  intros H. unfold onSceneTick.
  destruct (fastMode p) eqn:Ef; cbn [negb stateOf]; [|exact H].
  cbn [timer upd_timer fastMode]. rewrite Ef.
  destruct (Qle_bool (timer p - deltaTime) 0); cbn [stateOf];
    [|eapply overlayQuiet_ext; [|exact H]; unfold timerSide; cbn; reflexivity].
  destruct H as [Hfast _]. destruct (Hfast Ef) as [Hempty Hhidden].
  unfold _startFade, _initFade, clearPInterval, setTimer, clearInterval.
  unfold overlayQuiet.
  destruct_plugin p. cbn in *. subst.
  destruct snapshot; cbn;
    repeat match goal with
           | |- context [match ?x with Some _ => _ | None => _ end] =>
               is_var x; destruct x; cbn
           end;
    (split;
     [ first
         [ discriminate
         | intros _; split;
           [ try apply delete_empty; reflexivity
           | intros img [= <-]; cbn; eauto ] ]
     | intros img [= <-]; cbn; intros Hv;
       first
         [ discriminate
         | rewrite (Hhidden _ eq_refl) in Hv; discriminate
         | eexists _, _, _; split; [reflexivity|];
           rewrite lookup_insert_ne by lia; apply lookup_insert_eq ] ]).
Qed.

Lemma overlayQuiet_fadeStep (handle : nat) (opacity inc : Q)
    (p : QuickNavPlugin) :
  timersTracked p ->
  overlayQuiet p ->
  timers (viewer p) !! handle = Some (FadeCallback opacity inc) ->
  overlayQuiet (stateOf (fadeStep handle opacity inc p)).
Proof.
  intros (Hfade & _ & _) [Hfast Hvis] E.
  pose proof (Hfade _ _ _ E) as Hp.
  assert (Hq : fastMode p = false).
  { destruct (fastMode p) eqn:Ef; [|reflexivity].
    destruct (Hfast eq_refl) as [Hempty _]. rewrite Hempty in E.
    rewrite lookup_empty in E. discriminate. }
  unfold fadeStep, clearInterval, overlayQuiet.
  destruct_plugin p. cbn in *. subst.
  repeat match goal with
         | |- context [match ?x with Some _ => _ | None => _ end] =>
             is_var x; destruct x; cbn
         end;
    try destruct (js_gt (opacity - inc) 0); cbn;
    (split; [discriminate|]); intros img; intros [= <-]; cbn; intros Hv;
    try discriminate.
  eexists _, _, _. split; [reflexivity|]. apply lookup_insert_eq.
Qed.

Section Overlay.

Variable getAABB3Diag : math.AABB3 -> Q.

Lemma overlayQuiet_startHiding (p : QuickNavPlugin) :
  timersTracked p ->
  overlayQuiet p ->
  overlayQuiet (startHiding getAABB3Diag p).
Proof.
  intros Ht H.
  destruct (fastMode p) eqn:Ef.
  - eapply overlayQuiet_ext; [|exact H].
    unfold startHiding. cbn [fastMode upd_timer]. rewrite Ef. cbn [negb].
    unfold timerSide. cbn. rewrite Ef. reflexivity.
  - apply overlayQuiet_hidden.
    + apply (timersTracked_startHiding getAABB3Diag p Ht). exact Ef.
    + intros img. unfold startHiding. cbn [fastMode upd_timer]. rewrite Ef.
      cbn [negb _img upd_frustumDirty upd_fastMode].
      pose proof (timerSide_setObjectsCulled getAABB3Diag true
                    (setHiddenEffects false
                       (_cancelFade (upd_timer timeoutDuration p)))) as Hs.
      destruct (setHiddenEffects_effects false
                  (_cancelFade (upd_timer timeoutDuration p))) as (_ & Hs' & _).
      rewrite Hs' in Hs. unfold timerSide in Hs.
      pose proof (f_equal snd Hs) as Hi. cbn [snd] in Hi. rewrite Hi.
      apply _cancelFade_hides.
Qed.

Lemma overlayQuiet_recoverCallback (handle : nat) (p : QuickNavPlugin) :
  timersTracked p ->
  overlayQuiet p ->
  timers (viewer p) !! handle = Some RecoverCallback ->
  overlayQuiet
    (recoverCallback getAABB3Diag
       (upd_viewer (clearInterval handle (viewer p)) p)).
Proof.
  intros (_ & Hrec & _) [_ Hvis] E.
  destruct (Hrec _ E) as [_ Hq].
  eapply overlayQuiet_ext.
  { unfold recoverCallback. rewrite timerSide_setObjectsCulled.
    apply (setHiddenEffects_effects true). }
  unfold overlayQuiet, clearInterval.
  cbn [viewer upd_viewer timers upd_timers _pInterval fastMode _img].
  split; [rewrite Hq; discriminate|].
  intros img Hi Hv. destruct (Hvis img Hi Hv) as (h & o & i & Hp & Hl).
  exists h, o, i. split; [exact Hp|].
  rewrite lookup_delete_ne; [exact Hl|]. intros ->. congruence.
Qed.

Lemma overlayQuiet_dispatch (e : Event) (p : QuickNavPlugin) (o : Outcome) :
  timersTracked p ->
  overlayQuiet p ->
  dispatch getAABB3Diag e p = Some o ->
  overlayQuiet (stateOf o).
Proof.
  intros Ht H Hd.
  destruct e; cbn [dispatch] in Hd; try (injection Hd as <-); cbn [stateOf].
  - apply overlayQuiet_startHiding; assumption.
  - apply overlayQuiet_startHiding; assumption.
  - apply overlayQuiet_startHiding; assumption.
  - apply overlayQuiet_onSceneTick. exact H.
  - exact H.
  - exact H.
  - unfold onSceneMouseMove. destruct (down p); cbn [negb];
      [apply overlayQuiet_startHiding|]; assumption.
  - unfold fireTimer in Hd.
    destruct (timers (viewer p) !! handle) as [[|opacity inc]|] eqn:E;
      [| |discriminate]; injection Hd as <-; cbn [stateOf].
    + apply overlayQuiet_recoverCallback; assumption.
    + apply overlayQuiet_fadeStep; assumption.
  - eapply overlayQuiet_ext; [apply timerSide_callSetter|exact H].
  - unfold send. destruct (String.eqb name "clear"); [|exact H].
    apply overlayQuiet_cancelFade. exact Ht.
Qed.

Lemma overlayQuiet_run (es : list Event) :
  forall (p p' : QuickNavPlugin),
    timersTracked p ->
    overlayQuiet p ->
    run getAABB3Diag es p = Some p' ->
    overlayQuiet p'.
Proof.
  induction es as [|e es IH]; intros p p' Ht H Hrun; simpl in Hrun.
  - injection Hrun as <-. exact H.
  - destruct (dispatch getAABB3Diag e p) as [o|] eqn:E; [|discriminate].
    eapply IH; [| |exact Hrun].
    + eapply timersTracked_dispatch; eassumption.
    + eapply overlayQuiet_dispatch; eassumption.
Qed.

Lemma overlayQuiet_constructor (w : Viewer) (s : ObjectCullStates) (cfg : Cfg) :
  timers w = ∅ -> overlayQuiet (constructor w s cfg).
Proof.
  intros H. apply overlayQuiet_hidden; [exact H|]. intros img [=].
Qed.

End Overlay.

(** ** Ticks before the countdown runs out *)




(** ** Type lists *)


(** ** The height of the KD-tree *)

Lemma height_unfold (kdNode : KDNode) :
  height kdNode
  = Nat.max (match kd_left kdNode with Some l => S (height l) | None => 0%nat end)
      (match kd_right kdNode with Some r => S (height r) | None => 0%nat end).
Proof. destruct kdNode; reflexivity. Qed.

Lemma height_nodeAt (path : list Side) :
  forall (kdNode m : KDNode),
    nodeAt path kdNode = Some m ->
    (length path + height m <= height kdNode)%nat.
Proof.
  induction path as [|side path IH]; intros kdNode m H; simpl in H.
  - injection H as <-. simpl. lia.
  - rewrite (height_unfold kdNode). destruct side.
    + destruct (kd_left kdNode) as [l|]; [|discriminate].
      specialize (IH l m H). simpl. lia.
    + destruct (kd_right kdNode) as [r|]; [|discriminate].
      specialize (IH r m H). simpl. lia.
Qed.

(** Creating missing children adds at most one level. *)
Lemma height_addsLeaves (kdNode k0 : KDNode) :
  addsLeaves kdNode k0 -> (height k0 <= Nat.max 1 (height kdNode))%nat.
Proof.
  intros (_ & _ & Hl & Hr).
  rewrite (height_unfold k0), (height_unfold kdNode).
  destruct Hl as [-> | (-> & box & -> & _)], Hr as [-> | (-> & box' & -> & _)];
    simpl; lia.
Qed.

Lemma height_storeInNode (kdNode : KDNode) (entityAABB : math.AABB3)
    (objectIdx : nat) :
  height (storeInNode kdNode entityAABB objectIdx) = height kdNode.
Proof. destruct kdNode; reflexivity. Qed.

(** An insertion at [depth] adds levels only down to the maximum depth. *)
Lemma insert_height (maxTreeDepth : nat) (entity : Entity) (objectIdx : nat) :
  forall (fuel : nat) (kdNode : KDNode) (depth : nat) (kdNode' : KDNode)
         (calls : list nat),
    _insertEntityIntoKDTree fuel maxTreeDepth kdNode entity objectIdx depth
      = Some (kdNode', calls) ->
    (height kdNode' + depth <= Nat.max (height kdNode + depth) maxTreeDepth)%nat.
Proof.
  induction fuel as [|fuel IH]; intros kdNode depth kdNode' calls H;
    [discriminate|].
  destruct (decide (maxTreeDepth <= depth)%nat) as [Hmax|Hmax].
  { rewrite (insert_at_max_depth fuel maxTreeDepth kdNode entity objectIdx depth Hmax)
      in H.
    injection H as <- <-. rewrite height_storeInNode. lia. }
  apply insert_cases in H.
  destruct H as [(k0 & Hadd & [= -> ->])
                |[(k0 & l & l' & calls' & Hadd & _ & El & _ & Hrec & [= -> ->])
                 |(k0 & r & r' & calls' & Hadd & _ & Er & _ & Hrec & [= -> ->])]];
    pose proof (height_addsLeaves kdNode k0 Hadd) as Hk0.
  - rewrite height_storeInNode. lia.
  - specialize (IH _ _ _ _ Hrec).
    pose proof (height_unfold k0) as Hu. rewrite El in Hu.
    rewrite (height_unfold (with_left l' k0)). cbn [kd_left kd_right with_left].
    destruct (kd_right k0) as [r|]; lia.
  - specialize (IH _ _ _ _ Hrec).
    pose proof (height_unfold k0) as Hu. rewrite Er in Hu.
    rewrite (height_unfold (with_right r' k0)). cbn [kd_left kd_right with_right].
    destruct (kd_left k0) as [l|]; lia.
Qed.

Lemma insertObjects_height (maxTreeDepth depth : nat) (entities : list Entity) :
  forall (objectIdx : nat) (kdRoot : KDNode) (calls : list nat)
         (kdRoot' : KDNode) (calls' : list nat),
    insertObjects maxTreeDepth depth objectIdx entities kdRoot calls
      = Some (kdRoot', calls') ->
    (height kdRoot' + (depth + 1)
     <= Nat.max (height kdRoot + (depth + 1)) maxTreeDepth)%nat.
Proof.
  induction entities as [|entity rest IH];
    intros objectIdx kdRoot calls kdRoot' calls' H; cbn [insertObjects] in H.
  - injection H as <- <-. lia.
  - destruct (_insertEntityIntoKDTree _ _ kdRoot entity objectIdx (depth + 1))
      as [[k1 calls1]|] eqn:E; [|discriminate].
    specialize (IH _ _ _ _ _ H). apply insert_height in E. lia.
Qed.

(** [_buildKDTree] returns, for every plugin state. *)
Lemma _buildKDTree_total (p : QuickNavPlugin) :
  exists kdRoot calls,
    _buildKDTree p
    = Some (upd_kdTreeDirty false (upd_kdRoot (Some kdRoot) p), calls).
Proof.
  unfold _buildKDTree.
  destruct (insertObjects_total (_maxTreeDepth p) (objects (_objectCullStates p))
              0 (newKDNode (scene_aabb (viewer p))) [])
    as (k & calls & E & _); [constructor|].
  rewrite E. eauto.
Qed.

Lemma _buildKDTree_height (p p' : QuickNavPlugin) (calls : list nat)
    (kdRoot : KDNode) :
  _buildKDTree p = Some (p', calls) ->
  _kdRoot p' = Some kdRoot ->
  (height kdRoot <= _maxTreeDepth p - 1)%nat.
Proof.
  unfold _buildKDTree. intros Hbuild Hroot.
  destruct (insertObjects _ _ _ _ _ _) as [[k calls0]|] eqn:E; [|discriminate].
  injection Hbuild as <- <-. simpl in Hroot. injection Hroot as ->.
  apply insertObjects_height in E. simpl in E. lia.
Qed.

(** * Further properties *)

Section FurtherProperties.

Variable getAABB3Diag : math.AABB3 -> Q.

(** X1. A rebuild writes the new cull set over the front of the [_cullSet]
    array and never truncates it: after [_buildCullObjects] the array is
    the newly built cull set followed by the entries the old array had
    beyond it, it is at least as long as before, [_cullSetLen] is the
    length of the built set and the set is no longer flagged dirty. *)
Theorem X1_rebuild_keeps_stale_tail (p : QuickNavPlugin) :
  let q := _buildCullObjects getAABB3Diag p in
  _cullSet q = builtCullSet q ++ drop (_cullSetLen q) (_cullSet p)
  /\ _cullSetLen q = length (builtCullSet q)
  /\ (length (_cullSet p) <= length (_cullSet q))%nat
  /\ _cullSetDirty q = false.
Proof.
  intros q. destruct (rebuild_array getAABB3Diag p) as (Ha & Hl & Hd & Hn).
  fold q in Ha, Hl, Hd, Hn.
  assert (Hb : builtCullSet q
               = bruteForceFrom (shouldCull getAABB3Diag p) 0
                   (objects (_objectCullStates p)))
    by apply rebuild_builtCullSet.
  rewrite Hb, Hl. auto.
Qed.

(** X2. Rebuilding is idempotent on the cull set: a second
    [_buildCullObjects] directly after a first leaves the array, its built
    length and the built cull set as the first left them. *)
Theorem X2_rebuild_idempotent (p : QuickNavPlugin) :
  let once := _buildCullObjects getAABB3Diag p in
  let twice := _buildCullObjects getAABB3Diag once in
  _cullSet twice = _cullSet once
  /\ _cullSetLen twice = _cullSetLen once
  /\ builtCullSet twice = builtCullSet once.
Proof.
  intros once twice.
  destruct (rebuild_array getAABB3Diag p) as (Ha & Hl & _).
  destruct (rebuild_array getAABB3Diag once) as (Ha' & Hl' & _).
  fold once in Ha, Hl. fold twice in Ha', Hl'.
  assert (Hsel : bruteForceFrom (shouldCull getAABB3Diag once) 0
                   (objects (_objectCullStates once))
                 = bruteForceFrom (shouldCull getAABB3Diag p) 0
                     (objects (_objectCullStates p))).
  { unfold once. destruct (_buildCullObjects_shape getAABB3Diag p) as (l & n & Heq & _).
    rewrite Heq. cbn [_objectCullStates upd_cullSetDirty upd_cullSetLen upd_cullSet
                        upd_objectCullStates].
    rewrite objects_storeAfterClearing. reflexivity. }
  rewrite Hsel in Ha', Hl'.
  assert (Harr : _cullSet twice = _cullSet once).
  { rewrite Ha', Ha. rewrite drop_app_length. reflexivity. }
  assert (Hlen : _cullSetLen twice = _cullSetLen once) by congruence.
  split; [exact Harr|]. split; [exact Hlen|].
  unfold builtCullSet. rewrite Harr, Hlen. reflexivity.
Qed.


(** X4. [_setObjectsCulled(culled)] writes [detailCulled = culled] for
    every entry of the whole [_cullSet] array as it is after the rebuild
    the call may have made, entries beyond [_cullSetLen] included, and
    leaves the [detailCulled] flag of every other object as it was; it
    leaves the cull set clean and records [culled] in [_culling]. *)
Theorem X4_setObjectsCulled_writes_whole_array (culled : bool)
    (p : QuickNavPlugin) (objectIdx : nat) :
  let q := _setObjectsCulled getAABB3Diag culled p in
  detailCulled (_objectCullStates q) !! objectIdx
  = (if decide (objectIdx ∈ _cullSet q) then Some culled
     else detailCulled (_objectCullStates p) !! objectIdx)
  /\ _cullSet q
     = (if _cullSetDirty p then _cullSet (_buildCullObjects getAABB3Diag p)
        else _cullSet p)
  /\ _cullSetDirty q = false
  /\ _culling q = culled.
Proof.
  intros q.
  destruct (_setObjectsCulled_effect getAABB3Diag culled p)
    as (Ha & _ & Hd & Hc & Hw).
  fold q in Ha, Hd, Hc, Hw. destruct (Hw objectIdx) as [Hin Hout].
  split; [|auto].
  destruct (decide (objectIdx ∈ _cullSet q)) as [H|H]; auto.
Qed.

(** X5. The built cull set is never silently stale: in every state
    reached from the constructor by events, if [_cullSetDirty] is off then
    a rebuild would build the cull set the plugin already has. *)
Theorem X5_clean_cull_set_is_current (w : Viewer) (s : ObjectCullStates)
    (cfg : Cfg) (es : list Event) (p' : QuickNavPlugin) :
  run getAABB3Diag es (constructor w s cfg) = Some p' ->
  _cullSetDirty p' = false ->
  builtCullSet (_buildCullObjects getAABB3Diag p') = builtCullSet p'.
Proof.
  intros Hrun Hclean.
  destruct (cullSetFresh_run getAABB3Diag es _ _
              (cullSetFresh_constructor getAABB3Diag w s cfg) Hrun)
    as [_ Hfresh].
  rewrite rebuild_builtCullSet. symmetry. apply Hfresh. exact Hclean.
Qed.

(** X6. Without a change of configuration in between,
    [_setObjectsCulled(true)] followed by [_setObjectsCulled(false)]
    works on one and the same array: every entry of it ends with
    [detailCulled = false], and every other object with the flag it had
    before the first call. *)
Theorem X6_round_trip_releases_what_it_culled (p : QuickNavPlugin)
    (objectIdx : nat) :
  let culled := _setObjectsCulled getAABB3Diag true p in
  let released := _setObjectsCulled getAABB3Diag false culled in
  _cullSet released = _cullSet culled
  /\ detailCulled (_objectCullStates released) !! objectIdx
     = (if decide (objectIdx ∈ _cullSet culled) then Some false
        else detailCulled (_objectCullStates p) !! objectIdx).
Proof.
  intros culled released.
  destruct (_setObjectsCulled_effect getAABB3Diag true p)
    as (_ & _ & Hd & _ & Hw).
  fold culled in Hd, Hw.
  destruct (_setObjectsCulled_effect getAABB3Diag false culled)
    as (Ha' & _ & _ & _ & Hw').
  fold released in Ha', Hw'. rewrite Hd in Ha'.
  split; [exact Ha'|].
  destruct (Hw objectIdx) as [_ Hout], (Hw' objectIdx) as [Hin' Hout'].
  rewrite Ha' in Hin', Hout'.
  destruct (decide (objectIdx ∈ _cullSet culled)) as [H|H].
  - apply Hin'. exact H.
  - rewrite (Hout' H). apply Hout. exact H.
Qed.

(** X7. A hide flag left out of the configuration is off, whatever the
    scene has: the constructor first derives [_hidePBR], [_hideSAO] and
    [_hideEdges] from the scene when [cfg] leaves them out, and then
    assigns [cfg.hidePBR], [cfg.hideSAO] and [cfg.hideEdges] through the
    setters, which store [undefined].  Through any events (none of which
    assigns a hide flag) the plugin then never writes that effect. *)
Theorem X7_flag_left_out_is_off (w : Viewer) (s : ObjectCullStates)
    (cfg : Cfg) (es : list Event) (p' : QuickNavPlugin) :
  run getAABB3Diag es (constructor w s cfg) = Some p' ->
  (cfg_hidePBR cfg = JsUndefined ->
   _hidePBR p' = false /\ scene_pbr (viewer p') = scene_pbr w)
  /\ (cfg_hideSAO cfg = JsUndefined ->
      _hideSAO p' = false
      /\ scene_sao_enabled (viewer p') = scene_sao_enabled w)
  /\ (cfg_hideEdges cfg = JsUndefined ->
      _hideEdges p' = false
      /\ scene_edgeMaterial_edges (viewer p') = scene_edgeMaterial_edges w).
Proof.
  intros Hrun.
  destruct (run_effects getAABB3Diag es _ _ Hrun) as (Hflags & H1 & H2 & H3).
  unfold hideFlags in Hflags. injection Hflags as F1 F2 F3.
  split; [|split]; intros Hcfg; split.
  - rewrite F1. cbn. rewrite Hcfg. reflexivity.
  - rewrite H1; [reflexivity|]. cbn. rewrite Hcfg. reflexivity.
  - rewrite F2. cbn. rewrite Hcfg. reflexivity.
  - rewrite H2; [reflexivity|]. cbn. rewrite Hcfg. reflexivity.
  - rewrite F3. cbn. rewrite Hcfg. reflexivity.
  - rewrite H3; [reflexivity|]. cbn. rewrite Hcfg. reflexivity.
Qed.

(** X8. A camera move followed by an idle period.  From Quality, the move
    switches off every effect whose hide flag is set and culls every entry
    of the cull set array; the tick that uses up the countdown (with the
    snapshot captured) schedules the delayed re-enable; when that runs,
    every effect whose hide flag is set is on, whatever it was before the
    move, every entry of the array is released, every other object has the
    [detailCulled] flag it had before the move, the machine is out of Fast
    and the timer is no longer pending. *)
Theorem X8_idle_period_restores (p : QuickNavPlugin) (deltaTime : Q)
    (data : string) :
  fastMode p = false ->
  (timeoutDuration - deltaTime <= 0)%Q ->
  let moving := startHiding getAABB3Diag p in
  let handle := S (nextTimerId (viewer moving)) in
  exists idle restored,
    onSceneTick deltaTime (Some data) moving = Returned idle
    /\ fireTimer getAABB3Diag handle idle = Some (Returned restored)
    /\ fastMode restored = false
    /\ sceneEffects moving = effectsSet false p
    /\ sceneEffects restored = effectsSet true p
    /\ (forall objectIdx,
           objectIdx ∈ _cullSet moving ->
           isDetailCulled (_objectCullStates moving) objectIdx = true
           /\ isDetailCulled (_objectCullStates restored) objectIdx = false)
    /\ (forall objectIdx,
           objectIdx ∉ _cullSet moving ->
           detailCulled (_objectCullStates restored) !! objectIdx
           = detailCulled (_objectCullStates p) !! objectIdx)
    /\ timers (viewer restored) !! handle = None.
Proof.
  intros Hq Hdt moving handle.
  destruct (startHiding_effects getAABB3Diag p) as (Heff & Hflags & Hfast & Htimer).
  fold moving in Heff, Hflags, Hfast, Htimer. rewrite Hq in Heff.
  (* the cull side of [moving] *)
  assert (Hmov : _cullSetDirty moving = false
                 /\ forall objectIdx,
                      (objectIdx ∈ _cullSet moving ->
                       detailCulled (_objectCullStates moving) !! objectIdx
                       = Some true)
                      /\ (objectIdx ∉ _cullSet moving ->
                          detailCulled (_objectCullStates moving) !! objectIdx
                          = detailCulled (_objectCullStates p) !! objectIdx)).
  { unfold moving, startHiding. cbn [fastMode upd_timer]. rewrite Hq. cbn [negb].
    set (x := setHiddenEffects false (_cancelFade (upd_timer timeoutDuration p))).
    destruct (_setObjectsCulled_effect getAABB3Diag true x) as (_ & _ & Hd & _ & Hw).
    assert (Hx : _objectCullStates x = _objectCullStates p).
    { unfold x.
      destruct (cullSide_parts _ _ (cullSide_setHiddenEffects false
                   (_cancelFade (upd_timer timeoutDuration p)))) as (H1 & _).
      destruct (cullSide_parts _ _
                  (proj1 (cullSide_cancelFade (upd_timer timeoutDuration p))))
        as (H2 & _).
      rewrite H1, H2. reflexivity. }
    split; [exact Hd|]. intros objectIdx. destruct (Hw objectIdx) as [Hin Hout].
    split; [exact Hin|]. intros Hnot.
    cbn [_objectCullStates _cullSet upd_frustumDirty upd_fastMode] in *.
    rewrite (Hout Hnot), Hx. reflexivity. }
  destruct Hmov as [Hclean Hwritten].
  clearbody moving.
  (* the tick *)
  destruct (tick_expiry_schedules deltaTime data moving Hfast) as (idle & Htick & Hawait & _).
  { rewrite Htimer. exact Hdt. }
  fold handle in Hawait.
  destruct (cullSide_onSceneTick deltaTime (Some data) moving) as [Hc He].
  rewrite Htick in Hc, He. cbn [stateOf] in Hc, He.
  destruct (cullSide_parts _ _ Hc) as (Hs & Ha & Hl & Hd & Hh).
  destruct Hawait as (_ & Hpend & _ & Hfidle & _ & _).
  (* the delayed re-enable *)
  set (y := upd_viewer (clearInterval handle (viewer idle)) idle).
  exists idle, (recoverCallback getAABB3Diag y).
  split; [exact Htick|].
  split; [unfold fireTimer; rewrite Hpend; reflexivity|].
  destruct (recoverCallback_effects getAABB3Diag y) as (Hre & _ & Hrf).
  split; [rewrite Hrf; exact Hfidle|].
  split; [exact Heff|].
  split.
  { rewrite Hre. transitivity (effectsSet true moving).
    - apply effectsSet_cullSide; [exact Hc|exact He].
    - unfold hideFlags in Hflags. injection Hflags as Hf1 Hf2 Hf3.
      unfold sceneEffects, effectsSet in Heff. injection Heff as H1 H2 H3.
      unfold effectsSet. rewrite Hf1, Hf2, Hf3, H1, H2, H3.
      destruct (_hidePBR p), (_hideSAO p), (_hideEdges p); reflexivity. }
  unfold recoverCallback.
  set (z := setHiddenEffects true y).
  assert (Hz : _objectCullStates z = _objectCullStates moving
               /\ _cullSet z = _cullSet moving /\ _cullSetDirty z = false
               /\ timers (viewer z) !! handle = None).
  { unfold z. destruct (cullSide_parts _ _ (cullSide_setHiddenEffects true y))
      as (H1 & H2 & _ & H4 & _).
    destruct (setHiddenEffects_effects true y) as (_ & Hts & _).
    unfold timerSide in Hts.
    pose proof (f_equal (fun t => fst (fst (fst (fst (fst t))))) Hts) as Htm.
    cbn [fst] in Htm.
    rewrite H1, H2, H4, Htm. unfold y. cbn. rewrite Hs, Ha, Hd, Hclean.
    repeat split. apply lookup_delete_eq. }
  destruct Hz as (Hzs & Hza & Hzd & Hzt).
  destruct (_setObjectsCulled_effect getAABB3Diag false z) as (Ha' & _ & _ & _ & Hw').
  rewrite Hzd in Ha'. rewrite Hza in Ha'.
  split; [|split].
  - intros objectIdx Hin. destruct (Hwritten objectIdx) as [Hset _].
    destruct (Hw' objectIdx) as [Hrel _].
    unfold isDetailCulled. rewrite (Hset Hin).
    rewrite Hrel by (rewrite Ha'; exact Hin). auto.
  - intros objectIdx Hnot. destruct (Hwritten objectIdx) as [_ Hkeep].
    destruct (Hw' objectIdx) as [_ Hrel].
    rewrite Hrel by (rewrite Ha'; exact Hnot).
    rewrite Hzs. apply Hkeep. exact Hnot.
  - rewrite viewer_setObjectsCulled. exact Hzt.
Qed.

(** X9. While the machine is in Fast, events other than ticks and timers
    keep it there and write neither a cull flag nor an effect, and the
    cull set array stays as it is: a threshold or type list assigned
    during a move is not applied to the objects before the move ends. *)
Theorem X9_inputs_in_fast_change_nothing (es : list Event) :
  forall (p : QuickNavPlugin),
    fastMode p = true ->
    forallb isInput es = true ->
    exists p',
      run getAABB3Diag es p = Some p'
      /\ fastMode p' = true
      /\ _objectCullStates p' = _objectCullStates p
      /\ sceneEffects p' = sceneEffects p
      /\ _cullSet p' = _cullSet p
      /\ _cullSetLen p' = _cullSetLen p.
Proof.
  induction es as [|e es IH]; intros p Hf Hin; simpl in *.
  - exists p. auto 10.
  - apply andb_true_iff in Hin as [He Hes].
    destruct (input_in_fast getAABB3Diag e p Hf He) as (q & Hd & Hfq & Hs & Hef & Ha & Hl).
    rewrite Hd. cbn [stateOf].
    destruct (IH q Hfq Hes) as (p' & Hrun & Hf' & Hs' & He' & Ha' & Hl').
    exists p'. split; [exact Hrun|]. split; [exact Hf'|].
    repeat split; congruence.
Qed.

(** X10. The "clear" command while the delayed re-enable waits.  The tick
    that uses up the countdown schedules the re-enable; [send("clear")]
    then cancels it for good: it is pending in no later state, the machine
    is out of Fast, so ticks do nothing, and the effects and cull flags
    stay as the move left them until the next move. *)
Theorem X10_clear_cancels_recovery (p : QuickNavPlugin) (deltaTime : Q)
    (data : string) :
  fastMode p = true ->
  (timer p - deltaTime <= 0)%Q ->
  let handle := S (nextTimerId (viewer p)) in
  exists q,
    onSceneTick deltaTime (Some data) p = Returned q
    /\ timers (viewer q) !! handle = Some RecoverCallback
    /\ (forall later p',
           run getAABB3Diag later (send "clear" q) = Some p' ->
           timers (viewer p') !! handle = None)
    /\ fastMode (send "clear" q) = false
    /\ sceneEffects (send "clear" q) = sceneEffects p
    /\ _objectCullStates (send "clear" q) = _objectCullStates p
    /\ forall deltaTime' snapshot,
         onSceneTick deltaTime' snapshot (send "clear" q)
         = Returned (send "clear" q).
Proof.
  intros Hf Ht handle.
  destruct (tick_expiry_schedules deltaTime data p Hf Ht)
    as (q & Htick & Hawait & _).
  fold handle in Hawait.
  destruct (cullSide_onSceneTick deltaTime (Some data) p) as [Hc He].
  rewrite Htick in Hc, He. cbn [stateOf] in Hc, He.
  destruct (cullSide_parts _ _ Hc) as (Hs & _).
  destruct (clear_cancels_recovery getAABB3Diag handle q Hawait)
    as (Hgone & Hfast & Heff & Hstore & Hticks).
  exists q. split; [exact Htick|].
  split; [exact (proj1 (proj2 Hawait))|].
  split; [exact Hgone|]. split; [exact Hfast|].
  split; [rewrite Heff; exact He|].
  split; [rewrite Hstore; exact Hs|exact Hticks].
Qed.

(** X11. [destroy] leaves no timer of the plugin pending: in every state
    reached from the constructor by events, the fade interval and the
    delayed re-enable are cancelled by the [_cancelFade] it starts with,
    and the overlay is removed. *)
Theorem X11_destroy_leaves_no_timer (w : Viewer) (s : ObjectCullStates)
    (cfg : Cfg) (es : list Event) (p' : QuickNavPlugin) :
  timers w = ∅ ->
  run getAABB3Diag es (constructor w s cfg) = Some p' ->
  timers (viewer (destroy p')) = ∅ /\ _img (destroy p') = None.
Proof.
  intros Hw Hrun. split; [|reflexivity].
  apply destroy_clears_timers.
  eapply (timersTracked_run getAABB3Diag); [|exact Hrun].
  apply timersTracked_constructor. exact Hw.
Qed.

(** X12. Every timer the plugin has pending is one it can cancel: in every
    state reached from the constructor by events, a pending fade step is
    the one recorded in [_pInterval], a pending delayed re-enable is the
    one recorded in [_pInterval2] and waits only while the machine is out
    of Fast; so at most one of each is pending, and the overlay they write
    to exists. *)
Theorem X12_pending_timers_are_recorded (w : Viewer) (s : ObjectCullStates)
    (cfg : Cfg) (es : list Event) (p' : QuickNavPlugin) (handle : nat)
    (cb : Callback) :
  timers w = ∅ ->
  run getAABB3Diag es (constructor w s cfg) = Some p' ->
  timers (viewer p') !! handle = Some cb ->
  match cb with
  | RecoverCallback => _pInterval2 p' = Some handle /\ fastMode p' = false
  | FadeCallback _ _ => _pInterval p' = Some handle
  end
  /\ is_Some (_img p')
  /\ (handle < nextTimerId (viewer p'))%nat.
Proof.
  intros Hw Hrun Hpend.
  assert (Ht : timersTracked p').
  { eapply (timersTracked_run getAABB3Diag); [|exact Hrun].
    apply timersTracked_constructor. exact Hw. }
  destruct Ht as (Hfade & Hrec & Hany).
  destruct (Hany _ _ Hpend) as [Hlt Himg].
  split; [|auto].
  destruct cb as [|opacity inc]; [apply Hrec|eapply Hfade]; exact Hpend.
Qed.



(** X15. The overlay never hides a moving scene and never stays up on its
    own: in every state reached from the constructor by events, while the
    machine is in Fast no timer of the plugin is pending and the overlay,
    if it exists, is hidden; and whenever the overlay is visible, the fade
    step that lowers its opacity and finally hides it is pending under
    [_pInterval]. *)
Theorem X15_overlay_is_accounted_for (w : Viewer) (s : ObjectCullStates)
    (cfg : Cfg) (es : list Event) (p' : QuickNavPlugin) :
  timers w = ∅ ->
  run getAABB3Diag es (constructor w s cfg) = Some p' ->
  (fastMode p' = true ->
   timers (viewer p') = ∅
   /\ forall img, _img p' = Some img -> visible img = false)
  /\ (forall img,
         _img p' = Some img ->
         visible img = true ->
         exists handle opacity inc,
           _pInterval p' = Some handle
           /\ timers (viewer p') !! handle = Some (FadeCallback opacity inc)).
Proof.
  intros Hw Hrun.
  apply (overlayQuiet_run getAABB3Diag es (constructor w s cfg) p');
    [apply timersTracked_constructor|apply overlayQuiet_constructor|];
    assumption.
Qed.

End FurtherProperties.

(** X16. [_buildKDTree] returns for every plugin state, clears
    [_kdTreeDirty], and the tree it builds registers every object index of
    the store exactly once. *)
Theorem X16_kd_tree_registers_each_object_once (p : QuickNavPlugin) :
  exists p' calls kdRoot,
    _buildKDTree p = Some (p', calls)
    /\ _kdRoot p' = Some kdRoot
    /\ _kdTreeDirty p' = false
    /\ subtreeObjects kdRoot ≡ₚ seq 0 (numObjects (_objectCullStates p)).
Proof.
  destruct (_buildKDTree_total p) as (kdRoot & calls & E).
  eexists _, calls, kdRoot. split; [exact E|].
  split; [reflexivity|]. split; [reflexivity|].
  eapply _buildKDTree_registers_all; [exact E|reflexivity].
Qed.

(** X17. The tree [_buildKDTree] builds has at most [_maxTreeDepth] levels:
    the way from the root down to any node makes at most
    [_maxTreeDepth - 1] turns. *)
Theorem X17_kd_tree_height_bounded (p p' : QuickNavPlugin) (calls : list nat)
    (kdRoot : KDNode) (path : list Side) (m : KDNode) :
  _buildKDTree p = Some (p', calls) ->
  _kdRoot p' = Some kdRoot ->
  nodeAt path kdRoot = Some m ->
  (length path <= _maxTreeDepth p - 1)%nat.
Proof.
  intros Hbuild Hroot Hm.
  pose proof (_buildKDTree_height p p' calls kdRoot Hbuild Hroot).
  pose proof (height_nodeAt path kdRoot m Hm). lia.
Qed.

(** * The properties on the small scene *)

(** C1. Round trip after a reconfiguration, on the scene of two objects
    with 100 and 200 triangles and the triangle threshold 50:
    [_setObjectsCulled(true)] culls both objects; after
    [hideMoreTrianglesThan = 150], [_setObjectsCulled(false)] rebuilds the
    cull set to object 1 alone and restores only that one: object 0 keeps
    [detailCulled = true]. *)
Lemma C1_round_trip_leaves_object_culled :
  isDetailCulled (_objectCullStates exPlugin) 0 = false
  /\ isDetailCulled (_objectCullStates exCulled) 0 = true
  /\ isDetailCulled (_objectCullStates exCulled) 1 = true
  /\ _cullSetDirty exReconfigured = true
  /\ _cullSet exReleased = [1%nat; 1%nat]
  /\ builtCullSet exReleased = [1%nat]
  /\ isDetailCulled (_objectCullStates exReleased) 1 = false
  /\ isDetailCulled (_objectCullStates exReleased) 0 = true.
Proof. vm_compute. repeat split; reflexivity. Qed.




(** C4, counterexample. After [hideMoreTrianglesThan = -1] the threshold
    is -1, not 0, and the rebuild culls both objects, where the disabled
    threshold culls none; after [hideSmallerThan = -1], with the triangle
    threshold 50 enabled, the rebuild culls nothing, where triangle
    culling alone culls both. *)
Lemma C4_negative_threshold_not_disabled :
  _hideMoreTrianglesThan exNegative = (-1)%Q
  /\ builtCullSet (_buildCullObjects exDiag exNegative) = [0%nat; 1%nat]
  /\ builtCullSet (_buildCullObjects exDiag exDisabled) = []
  /\ _hideSmallerThan exNegativeSize = (-1)%Q
  /\ builtCullSet (_buildCullObjects exDiag exNegativeSize) = []
  /\ builtCullSet (_buildCullObjects exDiag exPlugin) = [0%nat; 1%nat].
Proof. vm_compute. repeat split; reflexivity. Qed.

Lemma C4_negative_threshold_witness :
  (-1 < 0)%Q
  /\ objects (_objectCullStates exPlugin) !! 0%nat
     = Some (mkEntity "a" 100 exBox)
  /\ _hideMoreTrianglesThan exNegative = (-1)%Q
  /\ (0%nat ∈ builtCullSet (_buildCullObjects exDiag exNegative))
  /\ (0%nat ∉ builtCullSet (_buildCullObjects exDiag exNegativeSize)).
Proof.
  assert (H1 : (-1 < 0)%Q) by reflexivity.
  assert (H2 : objects (_objectCullStates exPlugin) !! 0%nat
               = Some (mkEntity "a" 100 exBox)) by reflexivity.
  destruct (C4_negative_threshold_stays_enabled exDiag exPlugin (-1)%Q 0
              (mkEntity "a" 100 exBox) H1 H2)
    as ((Ht & _) & _ & Hin & Hout).
  split; [exact H1|]. split; [exact H2|]. split; [exact Ht|]. split.
  - apply Hin; [discriminate|reflexivity|reflexivity].
  - apply Hout; [discriminate|reflexivity].
Defined.

(** C5, counterexample. The plugin is in Fast with effects off and both
    objects culled; the countdown runs out in a tick whose capture fails.
    The tick handler is left by the exception: the plugin is still in
    Fast, no timer is pending that could re-enable anything, physically
    based rendering is still off and object 0 is still culled; the next
    tick with a failing capture ends the same way. *)
Lemma C5_capture_failure_blocks_recovery :
  onSceneTick 600 None exFast = Thrown exStuck
  /\ fastMode exStuck = true
  /\ timers (viewer exStuck) = ∅
  /\ scene_pbr (viewer exStuck) = false
  /\ scene_sao_enabled (viewer exStuck) = false
  /\ scene_edgeMaterial_edges (viewer exStuck) = false
  /\ isDetailCulled (_objectCullStates exStuck) 0 = true
  /\ (exists p, onSceneTick 16 None exStuck = Thrown p
                /\ fastMode p = true
                /\ timers (viewer p) = ∅
                /\ scene_pbr (viewer p) = false).
Proof.
  repeat split; try (vm_compute; reflexivity).
  eexists. repeat split; vm_compute; reflexivity.
Qed.

Lemma C5_capture_failure_witness :
  fastMode exFast = true
  /\ (timer exFast - 600 <= 0)%Q
  /\ exists p',
       onSceneTick 600 None exFast = Thrown p'
       /\ fastMode p' = true
       /\ _objectCullStates p' = _objectCullStates exFast.
Proof.
  assert (H1 : fastMode exFast = true) by reflexivity.
  assert (H2 : (timer exFast - 600 <= 0)%Q) by (vm_compute; discriminate).
  destruct (C5_capture_failure_aborts_tick exFast 600 H1 H2)
    as (p' & Hthrown & Hfast & _ & _ & _ & _ & _ & Hstore & _).
  split; [exact H1|]. split; [exact H2|].
  exists p'. split; [exact Hthrown|]. split; [exact Hfast|exact Hstore].
Defined.

(** C6. Teardown after two sessions.  First: the camera moves (objects 0
    and 1 are culled), the triangle threshold is raised, the countdown
    runs out and the delayed re-enable restores object 1 only; [destroy]
    then restores the built cull set, object 1, and object 0 keeps
    [detailCulled = true].  Second, with the triangle counts swapped: after
    a full recovery the threshold is raised and the camera moves again;
    [_setObjectsCulled(true)] runs over the whole array [[0; 1]], of which
    only the first entry is the built cull set, so it culls object 1 as
    well, and [destroy], which runs over the built cull set, leaves object
    1 with [detailCulled = true]. *)
Lemma C6_destroy_leaves_objects_culled :
  (exists p,
      run exDiag exSession exPlugin = Some p
      /\ isDetailCulled (_objectCullStates p) 0 = true
      /\ builtCullSet p = [1%nat]
      /\ isDetailCulled (_objectCullStates (destroy p)) 0 = true)
  /\ (exists p,
         run exDiag exSessionSwapped exPluginSwapped = Some p
         /\ _cullSet p = [0%nat; 1%nat]
         /\ builtCullSet p = [0%nat]
         /\ isDetailCulled (_objectCullStates p) 1 = true
         /\ isDetailCulled (_objectCullStates (destroy p)) 0 = false
         /\ isDetailCulled (_objectCullStates (destroy p)) 1 = true).
Proof.
  split; eexists; (split; [vm_compute; reflexivity|]);
    vm_compute; repeat split; reflexivity.
Qed.



Lemma C9_interruption_witness :
  fastMode exFast = true
  /\ (timer exFast - 600 <= 0)%Q
  /\ onSceneTick 600 (Some "png") exFast = Returned exPending
  /\ _pInterval2 exPending = Some 2%nat
  /\ isTrigger CameraViewMatrix exPending = true
  /\ timers (viewer exPending) !! 2%nat = Some RecoverCallback
  /\ exists p2,
       dispatch exDiag CameraViewMatrix exPending = Some (Returned p2)
       /\ timers (viewer p2) !! 2%nat = None
       /\ fastMode p2 = true
       /\ timer p2 = timeoutDuration.
Proof.
  assert (H1 : fastMode exFast = true) by reflexivity.
  assert (H2 : (timer exFast - 600 <= 0)%Q) by (vm_compute; discriminate).
  assert (H3 : onSceneTick 600 (Some "png") exFast = Returned exPending)
    by (vm_compute; reflexivity).
  assert (H4 : _pInterval2 exPending = Some 2%nat) by (vm_compute; reflexivity).
  assert (H5 : isTrigger CameraViewMatrix exPending = true) by reflexivity.
  destruct (C9_interruption_cancels_recovery exDiag exFast exPending exPending
              600 "png" 2 CameraViewMatrix H1 H2 H3 H4
              (pending_now exDiag 2 exPending) H5)
    as (Hpend & p2 & Hd & (Hgone & _) & _ & _ & _ & (Hfast & Htimer) & _).
  repeat (split; [assumption|]).
  exists p2. repeat (split; [assumption|]). exact Htimer.
Defined.

Lemma C10_default_thresholds_witness :
  (cfg_hideSmallerThan exCfgEmpty = JsUndefined
   \/ cfg_hideSmallerThan exCfgEmpty = JsNull)
  /\ (cfg_hideMoreTrianglesThan exCfgEmpty = JsUndefined
      \/ cfg_hideMoreTrianglesThan exCfgEmpty = JsNull)
  /\ _hideSmallerThan (constructor exViewer exStore exCfgEmpty) = 0%Q
  /\ _hideMoreTrianglesThan (constructor exViewer exStore exCfgEmpty) = 0%Q.
Proof.
  assert (H1 : cfg_hideSmallerThan exCfgEmpty = JsUndefined
               \/ cfg_hideSmallerThan exCfgEmpty = JsNull)
    by (left; reflexivity).
  assert (H2 : cfg_hideMoreTrianglesThan exCfgEmpty = JsUndefined
               \/ cfg_hideMoreTrianglesThan exCfgEmpty = JsNull)
    by (left; reflexivity).
  destruct (C10_default_thresholds_disabled exDiag exViewer exStore exCfgEmpty
              H1 H2) as (Hs & Ht & _).
  split; [exact H1|]. split; [exact H2|]. split; [exact Hs|exact Ht].
Defined.

(** * The further properties on the small scene *)


Lemma X5_clean_cull_set_is_current_witness :
  run exDiag exSession (constructor exViewer exStore exCfg) = Some exRecovered
  /\ _cullSetDirty exRecovered = false
  /\ builtCullSet (_buildCullObjects exDiag exRecovered)
     = builtCullSet exRecovered.
Proof.
  assert (H1 : run exDiag exSession (constructor exViewer exStore exCfg)
               = Some exRecovered) by (vm_compute; reflexivity).
  assert (H2 : _cullSetDirty exRecovered = false) by (vm_compute; reflexivity).
  split; [exact H1|]. split; [exact H2|].
  exact (X5_clean_cull_set_is_current exDiag exViewer exStore exCfg exSession
           exRecovered H1 H2).
Defined.

Lemma X7_flag_left_out_is_off_witness :
  run exDiag exSession (constructor exViewer exStore exCfgEmpty) = Some exQuiet
  /\ cfg_hidePBR exCfgEmpty = JsUndefined
  /\ scene_pbr exViewer = true
  /\ _hidePBR exQuiet = false
  /\ scene_pbr (viewer exQuiet) = scene_pbr exViewer.
Proof.
  assert (H1 : run exDiag exSession (constructor exViewer exStore exCfgEmpty)
               = Some exQuiet) by (vm_compute; reflexivity).
  assert (H2 : cfg_hidePBR exCfgEmpty = JsUndefined) by reflexivity.
  destruct (X7_flag_left_out_is_off exDiag exViewer exStore exCfgEmpty
              exSession exQuiet H1) as (Hpbr & _ & _).
  destruct (Hpbr H2) as [Hflag Heff].
  split; [exact H1|]. split; [exact H2|]. split; [reflexivity|].
  split; [exact Hflag|exact Heff].
Defined.

Lemma X8_idle_period_restores_witness :
  fastMode exPlugin = false
  /\ (timeoutDuration - 600 <= 0)%Q
  /\ exists idle restored,
       onSceneTick 600 (Some "png") exFast = Returned idle
       /\ fireTimer exDiag 2 idle = Some (Returned restored)
       /\ fastMode restored = false
       /\ sceneEffects exFast = (false, false, false)
       /\ sceneEffects restored = (true, true, true).
Proof.
  assert (H1 : fastMode exPlugin = false) by reflexivity.
  assert (H2 : (timeoutDuration - 600 <= 0)%Q) by (vm_compute; discriminate).
  destruct (X8_idle_period_restores exDiag exPlugin 600 "png" H1 H2)
    as (idle & restored & Htick & Hfire & Hfast & Hoff & Hon & _).
  split; [exact H1|]. split; [exact H2|].
  exists idle, restored.
  split; [exact Htick|]. split; [exact Hfire|]. split; [exact Hfast|].
  split; [exact Hoff|exact Hon].
Defined.

Lemma X9_inputs_in_fast_change_nothing_witness :
  fastMode exFast = true
  /\ forallb isInput exInputs = true
  /\ exists p',
       run exDiag exInputs exFast = Some p'
       /\ fastMode p' = true
       /\ _objectCullStates p' = _objectCullStates exFast
       /\ sceneEffects p' = sceneEffects exFast.
Proof.
  assert (H1 : fastMode exFast = true) by reflexivity.
  assert (H2 : forallb isInput exInputs = true) by reflexivity.
  destruct (X9_inputs_in_fast_change_nothing exDiag exInputs exFast H1 H2)
    as (p' & Hrun & Hfast & Hstore & Heff & _).
  split; [exact H1|]. split; [exact H2|].
  exists p'. split; [exact Hrun|]. split; [exact Hfast|].
  split; [exact Hstore|exact Heff].
Defined.

Lemma X10_clear_cancels_recovery_witness :
  fastMode exFast = true
  /\ (timer exFast - 600 <= 0)%Q
  /\ exists q,
       onSceneTick 600 (Some "png") exFast = Returned q
       /\ timers (viewer q) !! 2%nat = Some RecoverCallback
       /\ timers (viewer (send "clear" q)) !! 2%nat = None
       /\ sceneEffects (send "clear" q) = sceneEffects exFast.
Proof.
  assert (H1 : fastMode exFast = true) by reflexivity.
  assert (H2 : (timer exFast - 600 <= 0)%Q) by (vm_compute; discriminate).
  destruct (X10_clear_cancels_recovery exDiag exFast 600 "png" H1 H2)
    as (q & Htick & Hpend & Hgone & _ & Heff & _).
  split; [exact H1|]. split; [exact H2|].
  exists q. split; [exact Htick|]. split; [exact Hpend|].
  split; [exact (Hgone [] (send "clear" q) eq_refl)|exact Heff].
Defined.

Lemma X11_destroy_leaves_no_timer_witness :
  timers exViewer = ∅
  /\ run exDiag exMoveAndIdle (constructor exViewer exStore exCfg)
     = Some exPending
  /\ timers (viewer exPending) !! 2%nat = Some RecoverCallback
  /\ timers (viewer (destroy exPending)) = ∅.
Proof.
  assert (H1 : timers exViewer = ∅) by reflexivity.
  assert (H2 : run exDiag exMoveAndIdle (constructor exViewer exStore exCfg)
               = Some exPending) by (vm_compute; reflexivity).
  destruct (X11_destroy_leaves_no_timer exDiag exViewer exStore exCfg
              exMoveAndIdle exPending H1 H2) as [Hnone _].
  split; [exact H1|]. split; [exact H2|].
  split; [vm_compute; reflexivity|exact Hnone].
Defined.

Lemma X12_pending_timers_are_recorded_witness :
  timers exViewer = ∅
  /\ run exDiag exMoveAndIdle (constructor exViewer exStore exCfg)
     = Some exPending
  /\ timers (viewer exPending) !! 2%nat = Some RecoverCallback
  /\ _pInterval2 exPending = Some 2%nat
  /\ fastMode exPending = false.
Proof.
  assert (H1 : timers exViewer = ∅) by reflexivity.
  assert (H2 : run exDiag exMoveAndIdle (constructor exViewer exStore exCfg)
               = Some exPending) by (vm_compute; reflexivity).
  assert (H3 : timers (viewer exPending) !! 2%nat = Some RecoverCallback)
    by (vm_compute; reflexivity).
  destruct (X12_pending_timers_are_recorded exDiag exViewer exStore exCfg
              exMoveAndIdle exPending 2 RecoverCallback H1 H2 H3)
    as ((Hrec & Hfast) & _).
  split; [exact H1|]. split; [exact H2|]. split; [exact H3|].
  split; [exact Hrec|exact Hfast].
Defined.



Lemma X15_overlay_is_accounted_for_witness :
  timers exViewer = ∅
  /\ run exDiag exMoveAndIdle (constructor exViewer exStore exCfg)
     = Some exPending
  /\ _img exPending = Some (mkImg true 1 "png")
  /\ exists handle opacity inc,
       _pInterval exPending = Some handle
       /\ timers (viewer exPending) !! handle
          = Some (FadeCallback opacity inc).
Proof.
  assert (H1 : timers exViewer = ∅) by reflexivity.
  assert (H2 : run exDiag exMoveAndIdle (constructor exViewer exStore exCfg)
               = Some exPending) by (vm_compute; reflexivity).
  assert (H3 : _img exPending = Some (mkImg true 1 "png"))
    by (vm_compute; reflexivity).
  destruct (X15_overlay_is_accounted_for exDiag exViewer exStore exCfg
              exMoveAndIdle exPending H1 H2) as [_ Hvisible].
  split; [exact H1|]. split; [exact H2|]. split; [exact H3|].
  exact (Hvisible (mkImg true 1 "png") H3 eq_refl).
Defined.

Lemma X17_kd_tree_height_bounded_witness :
  _buildKDTree exPlugin = Some exBuilt
  /\ _kdRoot (fst exBuilt) = Some exRoot
  /\ nodeAt exPath exRoot = Some exLeaf
  /\ (length exPath <= _maxTreeDepth exPlugin - 1)%nat.
Proof.
  assert (H1 : _buildKDTree exPlugin = Some exBuilt) by (vm_compute; reflexivity).
  assert (H2 : _kdRoot (fst exBuilt) = Some exRoot) by (vm_compute; reflexivity).
  assert (H3 : nodeAt exPath exRoot = Some exLeaf) by (vm_compute; reflexivity).
  split; [exact H1|]. split; [exact H2|]. split; [exact H3|].
  apply (X17_kd_tree_height_bounded exPlugin (fst exBuilt) (snd exBuilt)
           exRoot exPath exLeaf).
  - rewrite H1. destruct exBuilt; reflexivity.
  - exact H2.
  - exact H3.
Defined.
